(** * GRN document ingestion: normalisation and idempotent ingestion

    A shallow embedding of the parts of [src/app.py] (class
    [DocAutomation]) that turn an extraction payload into sheet rows and
    that decide which Drive files are ingested:

    - [sanitize_filename]                      (app.py 316-327)
    - [get_existing_source_files]              (app.py 651-676)
    - [append_to_google_sheet]                 (app.py 678-703)
    - [get_sheet_headers], [update_headers]    (app.py 705-733)
    - [safe_extract]                           (app.py 735-744)
    - [process_extracted_data]                 (app.py 793-933)
    - [create_base_row]                        (app.py 935-974)
    - [process_drive_to_sheet_workflow]        (app.py 976-1150)

    and of the parts that harvest the attachments of the mail into the
    Drive folder, list that folder and log a run:

    - [get_email_details]                      (app.py 294-314)
    - [classify_extension]                     (app.py 329-345)
    - [upload_to_drive]                        (app.py 384-417)
    - [extract_attachments_from_email]         (app.py 419-481)
    - [process_mail_to_drive_workflow]         (app.py 483-607)
    - [list_drive_files]                       (app.py 609-639)
    - [log_workflow_to_sheet]                  (app.py 1152-1199)

    Python values are modelled by the inductive type [pyval]; a Python
    [str] is a Rocq [string] whose characters stand for code points below
    256; a payload [dict] is a [gmap string pyval]; the row dictionaries
    built by the normaliser are association lists in the order of the
    dictionary literal of the source.  The external services (Drive,
    Sheets, the extraction agent, the wall clock) are oracles collected in
    a record, and the effects on them are threaded through a small state
    monad. *)

From Stdlib Require Import ZArith Ascii List DecimalString Lia.
From stdpp Require Import gmap strings list fin_maps.

#[local] Set Warnings "-register-all".

(** ** Python strings *)

Module PyStr.

(** [str.isspace] on the code points below 256. *)
Definition is_space (c : ascii) : bool :=
  let n := nat_of_ascii c in
  ((9 <=? n)%nat && (n <=? 13)%nat)
  || ((28 <=? n)%nat && (n <=? 32)%nat)
  || (n =? 133)%nat || (n =? 160)%nat.

Fixpoint lstrip (s : string) : string :=
  match s with
  | String c s' => if is_space c then lstrip s' else s
  | EmptyString => EmptyString
  end.

Fixpoint rstrip (s : string) : string :=
  match s with
  | String c s' =>
      match rstrip s' with
      | EmptyString => if is_space c then EmptyString else String c EmptyString
      | r => String c r
      end
  | EmptyString => EmptyString
  end.

(** [s.strip()] *)
Definition strip (s : string) : string := rstrip (lstrip s).

Fixpoint map (f : ascii -> ascii) (s : string) : string :=
  match s with
  | String c s' => String (f c) (map f s')
  | EmptyString => EmptyString
  end.

(** [s[:n]] for a natural [n] *)
Fixpoint take (n : nat) (s : string) : string :=
  match n, s with
  | S n', String c s' => String c (take n' s')
  | _, _ => EmptyString
  end.

Fixpoint mem (c : ascii) (s : string) : bool :=
  match s with
  | String c' s' => if Ascii.eqb c c' then true else mem c s'
  | EmptyString => false
  end.

(** [s.split(sep)] for a one-character separator: never empty. *)
Fixpoint split (sep : ascii) (s : string) : list string :=
  match s with
  | EmptyString => [EmptyString]
  | String c s' =>
      if Ascii.eqb c sep then EmptyString :: split sep s'
      else match split sep s' with
           | p :: ps => String c p :: ps
           | [] => [String c EmptyString]
           end
  end.

(** [sep.join(parts)] *)
Fixpoint join (sep : ascii) (parts : list string) : string :=
  match parts with
  | [] => EmptyString
  | [p] => p
  | p :: ps => p +:+ String sep (join sep ps)
  end.

(** [str(n)] for an [int] *)
Definition of_Z (z : Z) : string := NilZero.string_of_int (Z.to_int z).

End PyStr.

(** ** Attachment file names (app.py 316-327) *)

Module Filename.

(** The character class of the [re.sub] call: less-than, greater-than,
    colon, double quote (code 34), slash, backslash, bar, question mark
    and star. *)
Definition unsafe_chars : string :=
  "<>:" +:+ String (ascii_of_nat 34) "/\|?*".

Definition replace_unsafe (c : ascii) : ascii :=
  if PyStr.mem c unsafe_chars then "_"%char else c.

Definition sanitize_filename (filename : string) : string :=
  let cleaned := PyStr.map replace_unsafe filename in
  if (100 <? String.length cleaned)%nat then
    let name_parts := PyStr.split "." cleaned in
    if (1 <? length name_parts)%nat then
      let extension := List.last name_parts EmptyString in
      let base_name := PyStr.join "." (List.removelast name_parts) in
      PyStr.take 95 base_name +:+ "." +:+ extension
    else PyStr.take 100 cleaned
  else cleaned.

End Filename.

(** ** Python values *)

(** The values an extraction payload is made of.  A [float] is carried by
    the text [str] gives for it (that text determines the float, and the
    code never computes with one). *)
Inductive pyval : Type :=
| PNone
| PBool (b : bool)
| PInt (z : Z)
| PFloat (repr : string)
| PStr (s : string)
| PList (l : list pyval)
| PDict (d : gmap string pyval).

(** A Drive file as [list_drive_files] returns it: the code reads
    ['id'] and ['name']. *)
Record file_info : Type := FileInfo { fi_id : string; fi_name : string }.

#[global] Instance file_info_eq_dec : EqDecision file_info.
Proof. solve_decision. Defined.

(** [d.get(key, default)] *)
Definition dict_get (d : gmap string pyval) (key : string) (dflt : pyval) : pyval :=
  default dflt (d !! key).

(** [d.get(key, default)] on a cleaned row; the rows are dictionary
    literals with distinct keys, kept in the order of the literal. *)
Fixpoint row_get (row : list (string * string)) (key : string) (dflt : string) : string :=
  match row with
  | [] => dflt
  | (k, v) :: row' => if String.eqb k key then v else row_get row' key dflt
  end.

(** [isinstance(value, (int, float))]; [bool] is a subclass of [int]. *)
Definition is_number (value : pyval) : bool :=
  match value with
  | PBool _ | PInt _ | PFloat _ => true
  | _ => false
  end.

(** [value != ""] *)
Definition is_not_empty_str (value : pyval) : bool :=
  match value with
  | PStr EmptyString => false
  | _ => true
  end.

Section Normalizer.

(** [str] on lists and dicts (their [repr]) is not modelled: it is a
    parameter of the development. *)
Variable py_repr : pyval -> string.

(** [str(value)] *)
Definition py_str (value : pyval) : string :=
  match value with
  | PNone => "None"
  | PBool true => "True"
  | PBool false => "False"
  | PInt z => PyStr.of_Z z
  | PFloat r => r
  | PStr s => s
  | PList _ | PDict _ => py_repr value
  end.

(** The body of the clean-up loops (app.py 916-923 and 966-972). *)
Definition clean_value (value : pyval) : string :=
  let value := match value with PNone => PStr "" | _ => value end in
  if is_number value then py_str value
  else if is_not_empty_str value then PyStr.strip (py_str value) else "".

Definition clean_row (row : list (string * pyval)) : list (string * string) :=
  List.map (fun kv => (kv.1, clean_value kv.2)) row.

(** [create_base_row] (app.py 935-974); [now] is the text
    [time.strftime] returns. *)
Definition create_base_row (extracted_data : gmap string pyval)
    (file_info : file_info) (now : string) : list (string * string) :=
  let get := dict_get extracted_data in
  let e := PStr "" in
  clean_row
    [ ("grn_date", get "grn_date" (get "date" e));
      ("grndate", get "grn_date" (get "date" e));
      ("source_file", PStr (fi_name file_info));
      ("processed_date", PStr now);
      ("supplier", get "supplier" (get "vendor_name" e));
      ("po_number", get "po_number" (get "purchase_order_number" e));
      ("shipping_address", get "shipping_address" (get "delivery_address" e));
      ("vendor_invoice_number", get "vendor_invoice_number" (get "invoice_number" e));
      ("drive_file_id", PStr (fi_id file_info));
      ("item_description", get "item_description" e);
      ("rcv_qty", get "rcv_qty" e);
      ("ord_qty", get "ord_qty" (get "quantity" e));
      ("ord.qty", get "ord_qty" e);
      ("uom", get "uom" e);
      ("sku", get "sku" e);
      ("variant_ean", get "ean" e);
      ("variant.ean", get "ean" e);
      ("hsn_code", get "hsn_code" e);
      ("unit_cost", get "unit_cost" e);
      ("tax_amount", get "tax_amount" e);
      ("tax amount", get "tax_amount" e);
      ("tax_percentage", get "tax_percentage" e);
      ("mrp", get "mrp" e);
      ("net_value", get "net_value" e) ].

(** The keys scanned for the item list, as the source lists them
    (app.py 803; [line_items] occurs twice). *)
Definition item_keys : list string :=
  ["items"; "product_items"; "line_items"; "products"; "grn_items"; "line_items"].

(** The scan of app.py 802-809: the first key that is present with a
    list value wins, also when that list is empty. *)
Fixpoint find_items (keys : list string) (extracted_data : gmap string pyval)
    : list pyval :=
  match keys with
  | [] => []
  | possible_key :: keys' =>
      match extracted_data !! possible_key with
      | Some (PList items_data) => items_data
      | _ => find_items keys' extracted_data
      end
  end.

(** [doc_data] (app.py 824-830), in the order of the literal. *)
Record doc_data : Type := DocData {
  dd_grn_date : pyval;
  dd_supplier : pyval;
  dd_po_number : pyval;
  dd_shipping_address : pyval;
  dd_vendor_invoice_number : pyval
}.

Definition make_doc_data (extracted_data : gmap string pyval) : doc_data :=
  let get := dict_get extracted_data in
  let e := PStr "" in
  {| dd_grn_date := get "grn_date" (get "date" (get "document_date" e));
     dd_supplier := get "supplier" (get "vendor_name" (get "vendor" e));
     dd_po_number := get "po_number" (get "purchase_order_number" (get "po_no" e));
     dd_shipping_address :=
       get "shipping_address" (get "delivery_address" (get "address" e));
     dd_vendor_invoice_number :=
       get "vendor_invoice_number" (get "invoice_number" (get "invoice_no" e)) |}.

(** The row literal of app.py 839-912 followed by its clean-up. *)
Definition item_row (doc : doc_data) (item : gmap string pyval)
    (file_info : file_info) (now : string) : list (string * string) :=
  let get := dict_get item in
  let e := PStr "" in
  clean_row
    [ ("grn_date", dd_grn_date doc);
      ("grndate", dd_grn_date doc);
      ("source_file", PStr (fi_name file_info));
      ("processed_date", PStr now);
      ("supplier", dd_supplier doc);
      ("po_number", dd_po_number doc);
      ("shipping_address", dd_shipping_address doc);
      ("vendor_invoice_number", dd_vendor_invoice_number doc);
      ("drive_file_id", PStr (fi_id file_info));
      ("item_description",
        get "item_description" (get "description"
          (get "product_description" (get "product_name" e))));
      ("rcv_qty", get "rcv_qty" (get "received_quantity" (get "received_qty" e)));
      ("ord_qty",
        get "ord_qty" (get "ordered_quantity" (get "ordered_qty"
          (get "quantity" (get "qty" e)))));
      ("ord.qty", get "ord.qty" (get "ord_qty" (get "ordered_quantity" e)));
      ("uom", get "uom" (get "unit_of_measure" (get "unit" e)));
      ("sku", get "sku" (get "sku_code" (get "item_code" e)));
      ("variant_ean", get "variant_ean" (get "ean" (get "barcode" e)));
      ("variant.ean", get "variant.ean" (get "ean" (get "barcode" e)));
      ("hsn_code", get "hsn_code" (get "hsn" (get "tax_code" e)));
      ("unit_cost",
        get "unit_cost" (get "unit_price" (get "price_per_unit" (get "rate" e))));
      ("tax_amount", get "tax_amount" (get "tax" e));
      ("tax amount", get "tax amount" (get "tax_amount" (get "tax" e)));
      ("tax_percentage",
        get "tax_percentage" (get "tax_percent" (get "tax_rate" e)));
      ("mrp", get "mrp" (get "maximum_retail_price" (get "retail_price" e)));
      ("net_value",
        get "net_value" (get "net_amount" (get "total_amount" (get "amount" e)))) ].

(** The wall clock: [clock n] is what the [n]-th call of
    [time.strftime] of a run returns. *)
Variable clock : nat -> string.

(** The loop of app.py 833-925 over the items; [t] counts the clock
    reads made so far.  An item that is not a dict is skipped before
    the clock is read. *)
Fixpoint item_rows (doc : doc_data) (file_info : file_info)
    (items : list pyval) (t : nat) : list (list (string * string)) :=
  match items with
  | [] => []
  | PDict item :: items' =>
      item_row doc item file_info (clock t)
        :: item_rows doc file_info items' (S t)
  | _ :: items' => item_rows doc file_info items' t
  end.

(** [process_extracted_data] (app.py 793-933).  [None] stands for the
    [AttributeError] that [extracted_data.keys()] raises at line 799
    when the argument is not a dict; so the test of line 812 never
    holds where it is reached.  [create_base_row] returns a dict of 24
    keys, so the test [if row:] of line 819 always holds. *)
Definition process_extracted_data (extracted_data : pyval)
    (file_info : file_info) (t : nat) : option (list (list (string * string))) :=
  match extracted_data with
  | PDict d =>
      let items := find_items item_keys d in
      match items with
      | [] => Some [create_base_row d file_info (clock t)]
      | _ => Some (item_rows (make_doc_data d) file_info items t)
      end
  | _ => None
  end.

(** The chunks loop of app.py 1083-1086. *)
Fixpoint chunk_rows (chunks : list pyval) (file_info : file_info) (t : nat)
    : list (list (string * string)) :=
  match chunks with
  | [] => []
  | PDict d :: chunks' =>
      match process_extracted_data (PDict d) file_info t with
      | Some rows => rows ++ chunk_rows chunks' file_info (t + length rows)
      | None => chunk_rows chunks' file_info t
      end
  | _ :: chunks' => chunk_rows chunks' file_info t
  end.

(** [all_rows] as app.py 1079-1089 computes it; [None] when
    [process_extracted_data] raises. *)
Definition all_rows_of (extracted_data : pyval) (file_info : file_info) (t : nat)
    : option (list (list (string * string))) :=
  match extracted_data with
  | PList chunks => Some (chunk_rows chunks file_info t)
  | _ => process_extracted_data extracted_data file_info t
  end.

(** One store row (app.py 1101-1108): a cell per header, in header
    order. *)
Definition sheet_row (headers : list string) (row_dict : list (string * string))
    : list string :=
  List.map (fun header => PyStr.strip (row_get row_dict header "")) headers.

End Normalizer.

(** ** The external services and the state of a run *)

(** The calls a run makes on the outside world, in the order made. *)
Inductive event : Type :=
| EvSheetsGet (ok : bool)
| EvSheetsUpdate (headers : list string) (ok : bool)
| EvSheetsAppend (values : list (list string)) (ok : bool)
| EvDownload (file : file_info)
| EvExtract (file : file_info) (ok : bool)
| EvSleep (seconds : nat).

(** The services as deterministic oracles of the calls made so far:
    the files [list_drive_files] returns, the bytes a download yields
    (empty on failure), what [agent.extract] returns ([None] when it
    raises), whether the next call of the Sheets API succeeds, and the
    wall clock. *)
Record services : Type := Services {
  llama_available : bool;
  agent_found : bool;
  drive_files : list file_info;
  drive_download : list event -> file_info -> string;
  agent_extract : list event -> file_info -> option pyval;
  sheets_up : list event -> bool;
  strftime : nat -> string
}.

(** The store is the list of the rows of the sheet, header row first.
    Cells are kept as written: the reading of cell text by the
    [USER_ENTERED] option and the trimming of trailing empty cells by
    the service are outside the model.  The header row is read through
    the window [A1:Z1] and written through a range that ends at the
    column lettered [chr(64 + len(new_headers))]; the other calls name
    the whole sheet, and an append adds rows below the last row. *)
Record world : Type := World {
  sheet : list (list string);
  trace : list event;
  clock_reads : nat
}.

(** [stats] of [process_drive_to_sheet_workflow] (app.py 978-984). *)
Record run_stats : Type := Stats {
  files_found : nat;
  files_processed : nat;
  files_failed : nat;
  files_skipped : nat;
  rows_added : nat
}.

Definition stats0 : run_stats := Stats 0 0 0 0 0.

Definition add_failed (st : run_stats) : run_stats :=
  Stats (files_found st) (files_processed st) (S (files_failed st))
        (files_skipped st) (rows_added st).

Definition add_processed (n : nat) (st : run_stats) : run_stats :=
  Stats (files_found st) (S (files_processed st)) (files_failed st)
        (files_skipped st) (rows_added st + n).

(** [config['max_files']] and the [skip_existing] argument. *)
Record run_config : Type := Config {
  max_files : option Z;
  skip_existing : bool
}.

(** [l[:n]] *)
Definition py_slice_to {A : Type} (n : Z) (l : list A) : list A :=
  if (0 <=? n)%Z then take (Z.to_nat n) l
  else take (length l - Z.to_nat (- n)) l.

(** [headers.index(name)] when [name in headers] *)
Fixpoint index_of (name : string) (headers : list string) : option nat :=
  match headers with
  | [] => None
  | h :: headers' =>
      if String.eqb h name then Some 0 else S <$> index_of name headers'
  end.

(** [col in headers] *)
Definition in_headers (col : string) (headers : list string) : bool :=
  existsb (String.eqb col) headers.

(** [expected_columns] (app.py 1032-1038) *)
Definition expected_columns : list string :=
  [ "item_description"; "vendor_invoice_number"; "rcv_qty"; "grn_date";
    "source_file"; "processed_date"; "supplier"; "uom"; "variant_ean";
    "hsn_code"; "ord_qty"; "po_number"; "tax_amount"; "shipping_address";
    "sku"; "unit_cost"; "tax_percentage"; "drive_file_id"; "mrp";
    "net_value"; "grndate"; "variant.ean"; "ord.qty"; "tax amount" ].

(** [missing_columns] (app.py 1048) *)
Definition missing_columns (headers : list string) : list string :=
  List.filter (fun col => negb (in_headers col headers)) expected_columns.

(** The window [A1:Z1] of app.py 710: the first 26 cells of a row. *)
Definition header_window (row : list string) : list string := take 26 row.

(** The range [A1:{chr(64 + len(new_headers))}1] of app.py 725 ends at
    a column letter, and is as wide as the values written, for 1 to 26
    headers only; the service refuses every other one. *)
Definition range_in_window (new_headers : list string) : bool :=
  (1 <=? length new_headers)%nat && (length new_headers <=? 26)%nat.

(** The set comprehension of app.py 670. *)
Definition existing_names_of (name_index : nat) (rows : list (list string))
    : gset string :=
  list_to_set
    (omap (fun row : list string =>
             match row !! name_index with
             | Some EmptyString | None => None
             | Some name => Some name
             end) rows).

(** The state monad of a run. *)
Definition M (A : Type) : Type := world -> A * world.

#[global] Instance M_ret : MRet M := fun A (a : A) w => (a, w).
#[global] Instance M_bind : MBind M :=
  fun A B (f : A -> M B) (m : M A) w => let (a, w') := m w in f a w'.

Definition emit (e : event) : M unit :=
  fun w => (tt, World (sheet w) (trace w ++ [e]) (clock_reads w)).

Definition get_world : M world := fun w => (w, w).

Definition set_sheet (values : list (list string)) : M unit :=
  fun w => (tt, World values (trace w) (clock_reads w)).

Definition tick (n : nat) : M unit :=
  fun w => (tt, World (sheet w) (trace w) (clock_reads w + n)).

Section Pipeline.

Variable py_repr : pyval -> string.
Variable svc : services.

(** [get_existing_source_files] (app.py 651-676): the empty set when
    the call fails, the sheet is empty or has no [source_file] column. *)
Definition get_existing_source_files : M (gset string) :=
  w ← get_world;
  let ok := sheets_up svc (trace w) in
  _ ← emit (EvSheetsGet ok);
  if ok then
    match sheet w with
    | [] => mret ∅
    | headers :: rows =>
        match index_of "source_file" headers with
        | None => mret ∅
        | Some name_index => mret (existing_names_of name_index rows)
        end
    end
  else mret ∅.

(** [get_sheet_headers] (app.py 705-717): the cells of the first row
    that lie in the window, and the empty list when the call fails. *)
Definition get_sheet_headers : M (list string) :=
  w ← get_world;
  let ok := sheets_up svc (trace w) in
  _ ← emit (EvSheetsGet ok);
  if ok then mret (header_window (hd [] (sheet w))) else mret [].

(** [update_headers] (app.py 719-733): the call raises when the service
    does not answer or refuses the range; otherwise the cells of the
    first row are overwritten from the left. *)
Definition update_headers (new_headers : list string) : M bool :=
  w ← get_world;
  let ok := sheets_up svc (trace w) && range_in_window new_headers in
  _ ← emit (EvSheetsUpdate new_headers ok);
  if ok then
    _ ← set_sheet ((new_headers ++ drop (length new_headers) (hd [] (sheet w)))
                     :: tl (sheet w));
    mret true
  else mret false.

(** [append_to_google_sheet] (app.py 678-703); [attempts] is the number
    of iterations left of the loop over [range(1, max_retries + 1)]. *)
Fixpoint append_attempts (attempts : nat) (values : list (list string)) : M bool :=
  match attempts with
  | 0 => mret false
  | S attempts' =>
      w ← get_world;
      let ok := sheets_up svc (trace w) in
      _ ← emit (EvSheetsAppend values ok);
      if ok then
        _ ← set_sheet (sheet w ++ values);
        mret true
      else
        match attempts' with
        | 0 => mret false
        | _ => _ ← emit (EvSleep 2); append_attempts attempts' values
        end
  end.

Definition append_to_google_sheet (values : list (list string)) : M bool :=
  append_attempts 3 values.

(** [safe_extract] (app.py 735-744); [None] is the exception raised
    after the loop. *)
Fixpoint safe_extract_attempts (attempts : nat) (wait_time : nat)
    (file : file_info) : M (option pyval) :=
  match attempts with
  | 0 => mret None
  | S attempts' =>
      w ← get_world;
      let result := agent_extract svc (trace w) file in
      _ ← emit (EvExtract file (if result is Some _ then true else false));
      match result with
      | Some data => mret (Some data)
      | None =>
          _ ← emit (EvSleep wait_time);
          safe_extract_attempts attempts' wait_time file
      end
  end.

Definition safe_extract (file : file_info) (retries wait_time : nat)
    : M (option pyval) :=
  safe_extract_attempts retries wait_time file.

(** [download_from_drive] (app.py 641-649) *)
Definition download_from_drive (file : file_info) : M string :=
  w ← get_world;
  _ ← emit (EvDownload file);
  mret (drive_download svc (trace w) file).

(** The header reconciliation of app.py 1041-1052; the result of
    [update_headers] is not looked at. *)
Definition reconcile_headers : M (list string) :=
  headers ← get_sheet_headers;
  match headers with
  | [] =>
      _ ← update_headers expected_columns;
      mret expected_columns
  | _ =>
      match missing_columns headers with
      | [] => mret headers
      | missing =>
          let new_headers := headers ++ missing in
          _ ← update_headers new_headers;
          mret new_headers
      end
  end.

(** The body of the loop over [pdf_files] (app.py 1056-1130).  Every
    exception raised in it is caught at line 1128 and counts the file
    as failed. *)
Definition process_file (headers : list string) (st : run_stats)
    (pdf_file : file_info) : M run_stats :=
  file_data ← download_from_drive pdf_file;
  match file_data with
  | EmptyString => mret (add_failed st)
  | _ =>
      extraction_result ← safe_extract pdf_file 3 2;
      match extraction_result with
      | None => mret (add_failed st)
      | Some extracted_data =>
          w ← get_world;
          match all_rows_of py_repr (strftime svc) extracted_data pdf_file
                  (clock_reads w) with
          | None => mret (add_failed st)
          | Some all_rows =>
              _ ← tick (length all_rows);
              match all_rows with
              | [] => mret (add_failed st)
              | _ =>
                  let sheet_rows := List.map (sheet_row headers) all_rows in
                  ok ← append_to_google_sheet sheet_rows;
                  if ok : bool
                  then mret (add_processed (length sheet_rows) st)
                  else mret (add_failed st)
              end
          end
      end
  end.

Fixpoint process_files (headers : list string) (st : run_stats)
    (pdf_files : list file_info) : M run_stats :=
  match pdf_files with
  | [] => mret st
  | pdf_file :: pdf_files' =>
      st' ← process_file headers st pdf_file;
      process_files headers st' pdf_files'
  end.

(** [process_drive_to_sheet_workflow] (app.py 976-1150) *)
Definition process_drive_to_sheet_workflow (config : run_config) : M run_stats :=
  if negb (llama_available svc) then mret stats0
  else if negb (agent_found svc) then mret stats0
  else
    existing_names ←
      (if skip_existing config then get_existing_source_files else mret ∅);
    let pdf_files := drive_files svc in
    let found := length pdf_files in
    let pdf_files :=
      if skip_existing config
      then List.filter (fun f => bool_decide (fi_name f ∉ existing_names)) pdf_files
      else pdf_files in
    let skipped := if skip_existing config then found - length pdf_files else 0 in
    let pdf_files :=
      match max_files config with
      | Some n => py_slice_to n pdf_files
      | None => pdf_files
      end in
    let st := Stats found 0 0 skipped 0 in
    match pdf_files return M run_stats with
    | [] => mret st
    | _ =>
        headers ← reconcile_headers;
        process_files headers st pdf_files
    end.

End Pipeline.

(** ** Letter case and search in Python strings *)

Module PyText.

(** [c.lower()] on a code point below 256: the letters A to Z and the
    capital letters of Latin-1 (192 to 222 but for the multiplication
    sign, 215) move up by 32; every other code point stays. *)
Definition lower_char (c : ascii) : ascii :=
  let n := nat_of_ascii c in
  if ((65 <=? n)%nat && (n <=? 90)%nat)
     || ((192 <=? n)%nat && (n <=? 214)%nat)
     || ((216 <=? n)%nat && (n <=? 222)%nat)
  then ascii_of_nat (n + 32) else c.

(** [s.lower()] *)
Definition lower (s : string) : string := PyStr.map lower_char s.

(** [s.startswith(p)] *)
Fixpoint starts_with (p s : string) : bool :=
  match p, s with
  | EmptyString, _ => true
  | String a p', String b s' => Ascii.eqb a b && starts_with p' s'
  | String _ _, EmptyString => false
  end.

(** [p in s] *)
Fixpoint contains (p s : string) : bool :=
  starts_with p s ||
  match s with
  | EmptyString => false
  | String _ s' => contains p s'
  end.

(** [c.upper()] as code points: upper-casing leaves the code points
    below 256 for the sharp s (223, two letters S), the y with diaeresis
    (255, code point 376) and the micro sign (181, code point 924). *)
Definition upper_char (c : ascii) : list N :=
  let n := N_of_ascii c in
  if ((97 <=? n) && (n <=? 122) || (224 <=? n) && (n <=? 246)
      || (248 <=? n) && (n <=? 254))%N
  then [(n - 32)%N]
  else if (n =? 223)%N then [83%N; 83%N]
  else if (n =? 255)%N then [376%N]
  else if (n =? 181)%N then [924%N]
  else [n].

(** [s.upper()], as the list of its code points *)
Fixpoint upper (s : string) : list N :=
  match s with
  | EmptyString => []
  | String c s' => upper_char c ++ upper s'
  end.

Fixpoint codes_start_with (p s : list N) : bool :=
  match p, s with
  | [], _ => true
  | a :: p', b :: s' => (a =? b)%N && codes_start_with p' s'
  | _ :: _, [] => false
  end.

(** [p in s] on code points *)
Fixpoint codes_contain (p s : list N) : bool :=
  codes_start_with p s ||
  match s with
  | [] => false
  | _ :: s' => codes_contain p s'
  end.

(** The code points of a text of code points below 256. *)
Fixpoint codes (s : string) : list N :=
  match s with
  | EmptyString => []
  | String c s' => N_of_ascii c :: codes s'
  end.

End PyText.

(** ** File categories (app.py 329-345) *)

Module Filetype.

(** [type_map], in the order of the literal. *)
Definition type_map : list (string * string) :=
  [ ("pdf", "PDFs");
    ("doc", "Documents"); ("docx", "Documents"); ("txt", "Documents");
    ("xls", "Spreadsheets"); ("xlsx", "Spreadsheets"); ("csv", "Spreadsheets");
    ("jpg", "Images"); ("jpeg", "Images"); ("png", "Images"); ("gif", "Images");
    ("ppt", "Presentations"); ("pptx", "Presentations");
    ("zip", "Archives"); ("rar", "Archives"); ("7z", "Archives") ].

Definition classify_extension (filename : string) : string :=
  match filename with
  | EmptyString => "Other"
  | _ =>
      if negb (PyStr.mem "." filename) then "Other"
      else
        let ext := PyText.lower (List.last (PyStr.split "." filename) EmptyString) in
        row_get type_map ext "Other"
  end.

End Filetype.

(** ** The listing of the Drive folder (app.py 609-639) *)

(** The replies of the service to the calls of one listing: the call
    raises, or gives a page of files, with or without the token of a
    next page. *)
Inductive page_reply : Type :=
| PageRaises
| LastPage (files : list file_info)
| NextPage (files : list file_info) (next : page_reply).

(** The loop of app.py 619-632; an exception leaves it for the handler
    of app.py 637-639. *)
Fixpoint list_pages (files : list file_info) (reply : page_reply)
    : list file_info :=
  match reply with
  | PageRaises => []
  | LastPage page => files ++ page
  | NextPage page next => list_pages (files ++ page) next
  end.

(** [list_drive_files] *)
Definition list_drive_files (reply : page_reply) : list file_info :=
  list_pages [] reply.

(** ** The mail harvester *)

(** A message payload: a node with ["parts"], or a part with its
    ["filename"] (empty when absent) and the ["attachmentId"] of its
    body ([None] when the body has no such key). *)
Inductive mime_part : Type :=
| Multipart (parts : list mime_part)
| Part (filename : string) (attachment_id : option string).

(** What fetching an attachment gives: the call or the decoding of the
    data raises, the reply has no data, or the decoded bytes. *)
Inductive attachment_reply : Type :=
| AttachmentRaises
| AttachmentEmpty
| AttachmentData (file_data : string).

(** A file of the Drive, none of them trashed. *)
Record drive_file : Type := DriveFile {
  df_name : string;
  df_parents : list string;
  df_data : string
}.

(** The calls of the harvester on Gmail and Drive, in the order made. *)
Inductive mail_event : Type :=
| EvGmailMetadata (message_id : string) (ok : bool)
| EvGmailMessage (message_id : string) (ok : bool)
| EvGmailAttachment (message_id attachment_id : string)
| EvDriveList (filename folder_id : string) (ok : bool)
| EvDriveCreate (filename folder_id : string) (ok : bool).

(** Gmail and Drive as deterministic oracles of the calls made so far:
    the messages [search_emails] returns (none when the search fails),
    the headers of a message ([None] when the call raises), its payload
    ([None] when the call raises, [Some None] when the reply has no
    payload), an attachment, and whether a listing or a creation of a
    file of that name in that folder succeeds.  A listing whose query
    the name makes ill-formed is one that fails. *)
Record mail_services : Type := MailServices {
  gmail_search : list string;
  gmail_metadata : list mail_event -> string -> option (list (string * string));
  gmail_message : list mail_event -> string -> option (option mime_part);
  gmail_attachment : list mail_event -> string -> string -> attachment_reply;
  drive_list_up : list mail_event -> string -> string -> bool;
  drive_create_up : list mail_event -> string -> string -> bool
}.

Record mail_world : Type := MailWorld {
  drive : list drive_file;
  mail_trace : list mail_event
}.

(** [stats] of [extract_attachments_from_email] (app.py 423-428). *)
Record attachment_stats : Type := AttachmentStats {
  stat_success : nat;
  stat_skipped : nat;
  stat_failed : nat;
  stat_total : nat
}.

Definition no_attachments : attachment_stats := AttachmentStats 0 0 0 0.
Definition one_success : attachment_stats := AttachmentStats 1 0 0 1.
Definition one_skipped : attachment_stats := AttachmentStats 0 1 0 1.
Definition one_failed : attachment_stats := AttachmentStats 0 0 1 1.

(** The four [+=] of app.py 435-438. *)
Definition add_part_stats (stats part_stats : attachment_stats)
    : attachment_stats :=
  AttachmentStats (stat_success stats + stat_success part_stats)
                  (stat_skipped stats + stat_skipped part_stats)
                  (stat_failed stats + stat_failed part_stats)
                  (stat_total stats + stat_total part_stats).

(** [total_stats] of [process_mail_to_drive_workflow] (app.py 524-529). *)
Record total_stats : Type := TotalStats {
  total_attachments : nat;
  successful_uploads : nat;
  skipped_attachments : nat;
  failed_uploads : nat
}.

(** The four [+=] of app.py 564-567, and the one of app.py 574. *)
Definition add_attachment_stats (total : total_stats)
    (attachment_stats : attachment_stats) : total_stats :=
  TotalStats (total_attachments total + stat_total attachment_stats)
             (successful_uploads total + stat_success attachment_stats)
             (skipped_attachments total + stat_skipped attachment_stats)
             (failed_uploads total + stat_failed attachment_stats).

Definition add_failed_upload (total : total_stats) : total_stats :=
  TotalStats (total_attachments total) (successful_uploads total)
             (skipped_attachments total) (S (failed_uploads total)).

(** The dictionary [process_mail_to_drive_workflow] returns. *)
Record mail_result : Type := MailResult {
  success : bool;
  emails_checked : nat;
  attachments_found : nat;
  attachments_skipped : nat;
  attachments_uploaded : nat;
  upload_failed : nat
}.

(** [CONFIG['mail']]: the folder ([""] when the key is absent or empty)
    and the attachment filter; the other keys only reach the search. *)
Record mail_config : Type := MailConfig {
  gdrive_folder_id : string;
  attachment_filter : string
}.

(** The details of a message (app.py 303-308). *)
Record email_details : Type := EmailDetails {
  detail_id : string;
  detail_sender : string;
  detail_subject : string;
  detail_date : string
}.

(** [next((h['value'] for h in headers if h['name'] == name), default)] *)
Fixpoint first_header (name : string) (headers : list (string * string))
    (default : string) : string :=
  match headers with
  | [] => default
  | (n, value) :: headers' =>
      if String.eqb n name then value else first_header name headers' default
  end.

(** The state monad of the harvester. *)
Definition Mail (A : Type) : Type := mail_world -> A * mail_world.

#[global] Instance Mail_ret : MRet Mail := fun A (a : A) w => (a, w).
#[global] Instance Mail_bind : MBind Mail :=
  fun A B (f : A -> Mail B) (m : Mail A) w => let (a, w') := m w in f a w'.

Definition mail_emit (e : mail_event) : Mail unit :=
  fun w => (tt, MailWorld (drive w) (mail_trace w ++ [e])).

Definition get_mail_world : Mail mail_world := fun w => (w, w).

Definition create_file (file : drive_file) : Mail unit :=
  fun w => (tt, MailWorld (drive w ++ [file]) (mail_trace w)).

(** The files the query of app.py 387 selects. *)
Definition named_in (filename folder_id : string) (file : drive_file) : bool :=
  String.eqb (df_name file) filename
  && existsb (String.eqb folder_id) (df_parents file).

Section Harvester.

Variable svc : mail_services.

(** [get_email_details] (app.py 294-314); [None] is the empty
    dictionary returned when the call raises. *)
Definition get_email_details (message_id : string) : Mail (option email_details) :=
  w ← get_mail_world;
  let reply := gmail_metadata svc (mail_trace w) message_id in
  _ ← mail_emit (EvGmailMetadata message_id
                   (if reply is Some _ then true else false));
  match reply with
  | None => mret None
  | Some headers =>
      mret (Some {| detail_id := message_id;
                    detail_sender := first_header "From" headers "Unknown";
                    detail_subject := first_header "Subject" headers "(No Subject)";
                    detail_date := first_header "Date" headers "" |})
  end.

(** [upload_to_drive] (app.py 384-417) *)
Definition upload_to_drive (file_data filename folder_id : string) : Mail bool :=
  w ← get_mail_world;
  let listed := drive_list_up svc (mail_trace w) filename folder_id in
  _ ← mail_emit (EvDriveList filename folder_id listed);
  if listed then
    match List.filter (named_in filename folder_id) (drive w) with
    | _ :: _ => mret true
    | [] =>
        w ← get_mail_world;
        let created := drive_create_up svc (mail_trace w) filename folder_id in
        _ ← mail_emit (EvDriveCreate filename folder_id created);
        if created then
          _ ← create_file
                {| df_name := filename;
                   df_parents := match folder_id with
                                 | EmptyString => []
                                 | _ => [folder_id]
                                 end;
                   df_data := file_data |};
          mret true
        else mret false
    end
  else mret false.

(** [extract_attachments_from_email] (app.py 419-481); the arguments
    [sender_info] and [search_term], which the body does not use, are
    left out. *)
Fixpoint extract_attachments_from_email (message_id : string)
    (payload : mime_part) (base_folder_id attachment_filter : string)
    {struct payload} : Mail attachment_stats :=
  match payload with
  | Multipart parts =>
      (fix loop (parts : list mime_part) (stats : attachment_stats)
           : Mail attachment_stats :=
         match parts with
         | [] => mret stats
         | part :: parts' =>
             part_stats ← extract_attachments_from_email message_id part
                            base_folder_id attachment_filter;
             loop parts' (add_part_stats stats part_stats)
         end) parts no_attachments
  | Part EmptyString _ | Part _ None => mret no_attachments
  | Part filename (Some attachment_id) =>
      if match attachment_filter with EmptyString => false | _ => true end
         && negb (PyText.contains (PyText.lower attachment_filter)
                    (PyText.lower filename))
      then mret one_skipped
      else
        w ← get_mail_world;
        _ ← mail_emit (EvGmailAttachment message_id attachment_id);
        match gmail_attachment svc (mail_trace w) message_id attachment_id with
        | AttachmentRaises | AttachmentEmpty => mret one_failed
        | AttachmentData file_data =>
            let clean_filename := Filename.sanitize_filename filename in
            ok ← upload_to_drive file_data clean_filename base_folder_id;
            if ok : bool then mret one_success else mret one_failed
        end
  end.

(** The body of the loop over the messages (app.py 534-574). *)
Definition process_email (config : mail_config) (total : total_stats)
    (email_id : string) : Mail total_stats :=
  sender_info ← get_email_details email_id;
  match sender_info with
  | None => mret total
  | Some sender_info =>
      let subject := PyText.upper (detail_subject sender_info) in
      if PyText.codes_contain (PyText.codes "GDN") subject then mret total
      else if negb (PyText.codes_contain (PyText.codes "GRN") subject)
      then mret total
      else
        w ← get_mail_world;
        let message := gmail_message svc (mail_trace w) email_id in
        _ ← mail_emit (EvGmailMessage email_id
                         (if message is Some _ then true else false));
        match message with
        | None => mret (add_failed_upload total)
        | Some None => mret total
        | Some (Some payload) =>
            attachment_stats ←
              extract_attachments_from_email email_id payload
                (gdrive_folder_id config) (attachment_filter config);
            mret (add_attachment_stats total attachment_stats)
        end
  end.

Fixpoint process_emails (config : mail_config) (total : total_stats)
    (emails : list string) : Mail total_stats :=
  match emails with
  | [] => mret total
  | email :: emails' =>
      total' ← process_email config total email;
      process_emails config total' emails'
  end.

(** [process_mail_to_drive_workflow] (app.py 483-607) *)
Definition process_mail_to_drive_workflow (config : mail_config) : Mail mail_result :=
  let emails := gmail_search svc in
  match emails with
  | [] => mret (MailResult true 0 0 0 0 0)
  | _ =>
      match gdrive_folder_id config with
      | EmptyString => mret (MailResult false (length emails) 0 0 0 0)
      | _ =>
          total ← process_emails config (TotalStats 0 0 0 0) emails;
          mret (MailResult true (length emails) (total_attachments total)
                  (skipped_attachments total) (successful_uploads total)
                  (failed_uploads total))
      end
  end.

End Harvester.

(** ** The workflow log (app.py 1152-1199) *)

(** The values of the statistics handed to the log: counters and flags. *)
Inductive stat_value : Type :=
| StatInt (n : Z)
| StatBool (b : bool).

(** A cell of the log row: a text, or a value of the statistics. *)
Inductive log_cell : Type :=
| CellText (text : string)
| CellValue (value : stat_value).

(** [stats.get(key, default)] *)
Definition stats_get (stats : gmap string stat_value) (key : string)
    (default : stat_value) : stat_value :=
  match stats !! key with
  | Some value => value
  | None => default
  end.

(** The truth value of a counter or flag, and [value > 0]. *)
Definition truthy (value : stat_value) : bool :=
  match value with
  | StatInt n => negb (n =? 0)%Z
  | StatBool b => b
  end.

Definition positive (value : stat_value) : bool :=
  match value with
  | StatInt n => (0 <? n)%Z
  | StatBool b => b
  end.

(** [header_row] (app.py 1180-1183) *)
Definition header_row : list string :=
  [ "Start Time"; "End Time"; "Duration"; "Workflow";
    "Processed"; "Total Items"; "Failed"; "Skipped"; "Status" ].

(** The dictionary that [process_mail_to_drive_workflow] returns
    (app.py 499-506, 513-520, 589-596). *)
Definition mail_stats (result : mail_result) : gmap string stat_value :=
  {[ "success" := StatBool (success result);
     "emails_checked" := StatInt (Z.of_nat (emails_checked result));
     "attachments_found" := StatInt (Z.of_nat (attachments_found result));
     "attachments_skipped" := StatInt (Z.of_nat (attachments_skipped result));
     "attachments_uploaded" := StatInt (Z.of_nat (attachments_uploaded result));
     "upload_failed" := StatInt (Z.of_nat (upload_failed result)) ]}.

(** [sheet_stats_for_log] of [run_scheduled_workflow] (app.py 1231-1237). *)
Definition sheet_stats_for_log (sheet_stats : run_stats)
    : gmap string stat_value :=
  {[ "files_processed" := StatInt (Z.of_nat (files_processed sheet_stats));
     "rows_added" := StatInt (Z.of_nat (rows_added sheet_stats));
     "files_failed" := StatInt (Z.of_nat (files_failed sheet_stats));
     "files_skipped" := StatInt (Z.of_nat (files_skipped sheet_stats));
     "success" := StatBool (0 <? files_processed sheet_stats)%nat ]}.

Section WorkflowLog.

Variable svc : services.

(** Times are in microseconds.  [format_time] is
    [strftime("%Y-%m-%d %H:%M:%S")], [format_seconds] the text
    [f"{duration:.2f}s"] of a duration, and [cell_text] the text under
    which the service stores a counter or a flag. *)
Variable format_time : Z -> string.
Variable format_seconds : Z -> string.
Variable cell_text : stat_value -> string.

(** [duration_str] (app.py 1156-1162).  The duration is the float
    nearest to the number of microseconds over a million; whole numbers
    of seconds are floats, so comparing it with 60 and taking the whole
    minutes and seconds give what the integers give. *)
Definition duration_str (duration : Z) : string :=
  if (60000000 <=? duration)%Z then
    let minutes := (duration / 60000000)%Z in
    let seconds := ((duration mod 60000000) / 1000000)%Z in
    PyStr.of_Z minutes +:+ "m " +:+ PyStr.of_Z seconds +:+ "s"
  else format_seconds duration.

(** [log_row] (app.py 1164-1174) *)
Definition log_row (workflow_name : string) (start_time end_time : Z)
    (stats : gmap string stat_value) : list log_cell :=
  [ CellText (format_time start_time);
    CellText (format_time end_time);
    CellText (duration_str (end_time - start_time));
    CellText workflow_name;
    CellValue (stats_get stats "processed"
                 (stats_get stats "files_processed" (StatInt 0)));
    CellValue (stats_get stats "total_items"
                 (stats_get stats "rows_added" (StatInt 0)));
    CellValue (stats_get stats "failed"
                 (stats_get stats "files_failed" (StatInt 0)));
    CellValue (stats_get stats "skipped"
                 (stats_get stats "files_skipped" (StatInt 0)));
    CellText
      (if truthy (stats_get stats "success"
                    (StatBool (positive (stats_get stats "files_processed"
                                           (StatInt 0)))))
       then "Success" else "Failed") ].

Definition written (cell : log_cell) : string :=
  match cell with
  | CellText text => text
  | CellValue value => cell_text value
  end.

(** [log_workflow_to_sheet] (app.py 1152-1199); the store of the world
    is the sheet of the log. *)
Definition log_workflow_to_sheet (workflow_name : string)
    (start_time end_time : Z) (stats : gmap string stat_value) : M unit :=
  let log_row := log_row workflow_name start_time end_time stats in
  headers ← get_sheet_headers svc;
  _ ← match headers with
      | [] => append_to_google_sheet svc [header_row]
      | _ => mret true
      end;
  _ ← append_to_google_sheet svc [List.map written log_row];
  mret tt.

End WorkflowLog.

(** ** Definitions used to state the properties *)

(** Whether a column is read from the document record or from the item. *)
Inductive level : Type := DocLevel | ItemLevel.

(** The canonical columns with their alias chains, canonical name first,
    as the table of external interfaces lists them. *)
Definition alias_table : list (string * level * list string) :=
  [ ("grn_date", DocLevel, ["grn_date"; "date"; "document_date"]);
    ("supplier", DocLevel, ["supplier"; "vendor_name"; "vendor"]);
    ("po_number", DocLevel, ["po_number"; "purchase_order_number"; "po_no"]);
    ("shipping_address", DocLevel,
       ["shipping_address"; "delivery_address"; "address"]);
    ("vendor_invoice_number", DocLevel,
       ["vendor_invoice_number"; "invoice_number"; "invoice_no"]);
    ("item_description", ItemLevel,
       ["item_description"; "description"; "product_description"; "product_name"]);
    ("rcv_qty", ItemLevel, ["rcv_qty"; "received_quantity"; "received_qty"]);
    ("ord_qty", ItemLevel,
       ["ord_qty"; "ordered_quantity"; "ordered_qty"; "quantity"; "qty"]);
    ("uom", ItemLevel, ["uom"; "unit_of_measure"; "unit"]);
    ("sku", ItemLevel, ["sku"; "sku_code"; "item_code"]);
    ("variant_ean", ItemLevel, ["variant_ean"; "ean"; "barcode"]);
    ("hsn_code", ItemLevel, ["hsn_code"; "hsn"; "tax_code"]);
    ("unit_cost", ItemLevel, ["unit_cost"; "unit_price"; "price_per_unit"; "rate"]);
    ("tax_amount", ItemLevel, ["tax_amount"; "tax"]);
    ("tax_percentage", ItemLevel, ["tax_percentage"; "tax_percent"; "tax_rate"]);
    ("mrp", ItemLevel, ["mrp"; "maximum_retail_price"; "retail_price"]);
    ("net_value", ItemLevel, ["net_value"; "net_amount"; "total_amount"; "amount"]) ].

(** [resolve] in the words of the specification: the value of the first
    key of the chain that is present in the record, else the empty
    string. *)
Fixpoint resolve (record : gmap string pyval) (chain : list string) : pyval :=
  match chain with
  | [] => PStr ""
  | key :: chain' =>
      match record !! key with
      | Some value => value
      | None => resolve record chain'
      end
  end.

Definition is_dict (v : pyval) : bool :=
  match v with PDict _ => true | _ => false end.

(** A key of the record that holds a non-empty list. *)
Definition holds_items (record : gmap string pyval) (key : string) : bool :=
  match record !! key with
  | Some (PList (_ :: _)) => true
  | _ => false
  end.

(** The document-level columns of a row, in the order of the literal
    (app.py 840-849). *)
Definition document_columns : list string :=
  [ "grn_date"; "grndate"; "source_file"; "processed_date"; "supplier";
    "po_number"; "shipping_address"; "vendor_invoice_number";
    "drive_file_id" ].

(** The payload of the scenario of C3. *)
Definition doc_b : pyval :=
  PDict {[ "line_items" :=
             PList [ PDict {[ "qty" := PInt 5 ]}; PDict {[ "sku" := PStr "X1" ]} ] ]}.

(** The keys on which a legacy column and its canonical column read the
    record differently: the legacy names themselves, and the aliases that
    only one of the two chains has. *)
Definition divergent_keys : list string :=
  [ "ord.qty"; "variant.ean"; "tax amount"; "variant_ean"; "ordered_qty";
    "quantity"; "qty" ].

Definition lacks (record : gmap string pyval) (keys : list string) : bool :=
  forallb (fun key => bool_decide (record !! key = None)) keys.

(** A row in which each legacy column repeats its canonical column. *)
Definition mirrored (row : list (string * string)) : Prop :=
  row_get row "grndate" "" = row_get row "grn_date" "" /\
  row_get row "ord.qty" "" = row_get row "ord_qty" "" /\
  row_get row "variant.ean" "" = row_get row "variant_ean" "" /\
  row_get row "tax amount" "" = row_get row "tax_amount" "".

(** The calls of [agent.extract] and the header updates in a trace. *)
Definition is_extract (e : event) : bool :=
  match e with EvExtract _ _ => true | _ => false end.

Definition is_update (e : event) : bool :=
  match e with EvSheetsUpdate _ _ => true | _ => false end.

Definition extract_calls (tr : list event) : nat :=
  length (List.filter is_extract tr).

(** The events of [n] failed attempts of [safe_extract]. *)
Fixpoint failed_attempts (file : file_info) (wait_time n : nat) : list event :=
  match n with
  | 0 => []
  | S n' => EvExtract file false :: EvSleep wait_time
              :: failed_attempts file wait_time n'
  end.

(** An extraction stub that raises on its first [n] calls and returns
    [data] afterwards. *)
Definition stub_failing_first (n : nat) (data : pyval)
    : list event -> file_info -> option pyval :=
  fun tr _ => if (extract_calls tr <? n)%nat then None else Some data.

(** A world with more calls made. *)
Definition after (w : world) (events : list event) : world :=
  World (sheet w) (trace w ++ events) (clock_reads w).

(** What [get_existing_source_files] computes from the rows it reads. *)
Definition existing_of_sheet (values : list (list string)) : gset string :=
  match values with
  | [] => ∅
  | headers :: rows =>
      match index_of "source_file" headers with
      | None => ∅
      | Some name_index => existing_names_of name_index rows
      end
  end.

(** A row that carries the stripped name of its file. *)
Definition names_file (file : file_info) (row : list (string * string)) : Prop :=
  row_get row "source_file" "" = PyStr.strip (fi_name file).

(** A file whose rows were appended has a store row built from a row
    that names it. *)
Definition has_row_of (headers : list string) (file : file_info)
    (appended : list (list string)) : Prop :=
  exists row, sheet_row headers row ∈ appended /\ names_file file row.

(** The candidates left by the filter of app.py 1016 and by the cap of
    app.py 1020-1022. *)
Definition not_ingested (svc : services) (existing_names : gset string)
    : list file_info :=
  List.filter (fun f => bool_decide (fi_name f ∉ existing_names)) (drive_files svc).

Definition capped (config : run_config) (pdf_files : list file_info)
    : list file_info :=
  match max_files config with
  | Some n => py_slice_to n pdf_files
  | None => pdf_files
  end.


(** The header update that reconciliation makes for a header row, if
    it makes one, lies in the columns A to Z, so that the service
    accepts it. *)
Definition update_in_window (old : list string) : Prop :=
  missing_columns (header_window old) = [] \/
  length (header_window old ++ missing_columns (header_window old)) <= 26.

(** A file name that the store gives back as written: not empty, and
    with no white space at either end. *)
Definition clean_name (file : file_info) : Prop :=
  fi_name file <> "" /\ PyStr.strip (fi_name file) = fi_name file.

(** The calls of [agent.extract] made on files of a given name. *)
Definition extracts_name (name : string) (e : event) : bool :=
  match e with
  | EvExtract file _ => String.eqb (fi_name file) name
  | _ => false
  end.

Definition extract_calls_named (name : string) (tr : list event) : nat :=
  length (List.filter (extracts_name name) tr).

(** [w'] is [w] with more calls made, none of them an extraction of a
    file called [name]. *)
Definition quiet_step (name : string) (w w' : world) : Prop :=
  exists events,
    trace w' = trace w ++ events /\ extract_calls_named name events = 0.

(** The keys of the row literals of app.py 839-912 and 937-962, in the
    order of the literals. *)
Definition row_keys : list string :=
  [ "grn_date"; "grndate"; "source_file"; "processed_date"; "supplier";
    "po_number"; "shipping_address"; "vendor_invoice_number"; "drive_file_id";
    "item_description"; "rcv_qty"; "ord_qty"; "ord.qty"; "uom"; "sku";
    "variant_ean"; "variant.ean"; "hsn_code"; "unit_cost"; "tax_amount";
    "tax amount"; "tax_percentage"; "mrp"; "net_value" ].

(** A row of the normaliser for a file: the keys of the literal, the
    stripped name and the stripped id of the file. *)
Definition row_of_file (file : file_info) (row : list (string * string)) : Prop :=
  row.*1 = row_keys /\
  row_get row "source_file" "" = PyStr.strip (fi_name file) /\
  row_get row "drive_file_id" "" = PyStr.strip (fi_id file).

(** The events of [n] failed attempts of [append_to_google_sheet] that
    are followed by another attempt. *)
Fixpoint failed_appends (values : list (list string)) (n : nat) : list event :=
  match n with
  | 0 => []
  | S n' => EvSheetsAppend values false :: EvSleep 2 :: failed_appends values n'
  end.

(** The files downloaded in a trace, in the order of the calls. *)
Definition downloaded (e : event) : option file_info :=
  match e with EvDownload file => Some file | _ => None end.

Definition downloads (tr : list event) : list file_info := omap downloaded tr.

(** The candidates a run processes: those the filter keeps when it is
    on, cut by the cap. *)
Definition to_process (svc : services) (config : run_config)
    (existing_names : gset string) : list file_info :=
  capped config
    (if skip_existing config then not_ingested svc existing_names
     else drive_files svc).

(** The categories of [classify_extension]. *)
Definition categories : list string :=
  [ "PDFs"; "Documents"; "Spreadsheets"; "Images"; "Presentations";
    "Archives"; "Other" ].

(** The files of the pages, and whether a call raises. *)
Fixpoint page_files (reply : page_reply) : list file_info :=
  match reply with
  | PageRaises => []
  | LastPage page => page
  | NextPage page next => page ++ page_files next
  end.

Fixpoint page_raises (reply : page_reply) : bool :=
  match reply with
  | PageRaises => true
  | LastPage _ => false
  | NextPage _ next => page_raises next
  end.

(** The file names of the attachments of a payload, in the order in
    which the parts are visited. *)
Fixpoint attachments (payload : mime_part) : list string :=
  match payload with
  | Multipart parts => List.flat_map attachments parts
  | Part EmptyString _ | Part _ None => []
  | Part filename (Some _) => [filename]
  end.

(** The test of app.py 444 on a file name. *)
Definition passes_filter (attachment_filter filename : string) : bool :=
  match attachment_filter with
  | EmptyString => true
  | _ => PyText.contains (PyText.lower attachment_filter) (PyText.lower filename)
  end.

(** The names of the files of a folder. *)
Definition names_in (folder_id : string) (files : list drive_file) : list string :=
  List.map df_name
    (List.filter (fun file => existsb (String.eqb folder_id) (df_parents file))
       files).

(** The messages fetched in full and the attachments fetched. *)
Definition fetched_message (e : mail_event) : option string :=
  match e with EvGmailMessage message_id _ => Some message_id | _ => None end.

Definition fetched (tr : list mail_event) : list string := omap fetched_message tr.

Definition failed_fetch (e : mail_event) : bool :=
  match e with EvGmailMessage _ false => true | _ => false end.

Definition failed_fetches (tr : list mail_event) : nat :=
  length (List.filter failed_fetch tr).

Definition is_attachment_call (e : mail_event) : bool :=
  match e with EvGmailAttachment _ _ => true | _ => false end.

Definition attachment_calls (tr : list mail_event) : nat :=
  length (List.filter is_attachment_call tr).

(** [[folder_id] if folder_id else []] *)
Definition folder_parents (folder_id : string) : list string :=
  match folder_id with EmptyString => [] | _ => [folder_id] end.

(** A file as the harvester creates it for an attachment of one of the
    given names. *)
Definition harvested_from (folder_id attachment_filter : string)
    (names : list string) (file : drive_file) : Prop :=
  df_parents file = folder_parents folder_id /\
  exists filename,
    filename ∈ names /\ passes_filter attachment_filter filename = true /\
    df_name file = Filename.sanitize_filename filename.

(** What the visit of attachments of the given names does. *)
Definition harvest (folder_id attachment_filter : string) (names : list string)
    (stats : attachment_stats) (w w' : mail_world) : Prop :=
  stat_total stats = length names /\
  stat_skipped stats
    = length (List.filter (fun n => negb (passes_filter attachment_filter n)) names) /\
  stat_success stats + stat_skipped stats + stat_failed stats = stat_total stats /\
  attachment_calls (mail_trace w')
    = attachment_calls (mail_trace w) + stat_success stats + stat_failed stats /\
  fetched (mail_trace w') = fetched (mail_trace w) /\
  failed_fetches (mail_trace w') = failed_fetches (mail_trace w) /\
  (folder_id <> "" -> NoDup (names_in folder_id (drive w)) ->
   NoDup (names_in folder_id (drive w'))) /\
  exists created,
    drive w' = drive w ++ created /\
    length created <= stat_success stats /\
    Forall (harvested_from folder_id attachment_filter names) created.

(** A file as the harvester creates it. *)
Definition harvested (folder_id attachment_filter : string) (file : drive_file)
    : Prop :=
  df_parents file = folder_parents folder_id /\
  exists filename,
    passes_filter attachment_filter filename = true /\
    df_name file = Filename.sanitize_filename filename.

(** The subject test of app.py 540-550 on the headers of a message. *)
Definition subject_wanted (headers : list (string * string)) : bool :=
  let subject := PyText.upper (first_header "Subject" headers "(No Subject)") in
  negb (PyText.codes_contain (PyText.codes "GDN") subject)
  && PyText.codes_contain (PyText.codes "GRN") subject.

(** What the loop over the messages does to the counters, the trace and
    the Drive. *)
Definition mail_run (folder_id attachment_filter : string)
    (total total' : total_stats) (w w' : mail_world) : Prop :=
  successful_uploads total' + skipped_attachments total' + failed_uploads total'
    + total_attachments total + failed_fetches (mail_trace w)
  = successful_uploads total + skipped_attachments total + failed_uploads total
    + total_attachments total' + failed_fetches (mail_trace w') /\
  total_attachments total <= total_attachments total' /\
  failed_fetches (mail_trace w) <= failed_fetches (mail_trace w') /\
  (attachment_filter = "" -> skipped_attachments total' = skipped_attachments total) /\
  (folder_id <> "" -> NoDup (names_in folder_id (drive w)) ->
   NoDup (names_in folder_id (drive w'))) /\
  exists created,
    drive w' = drive w ++ created /\
    successful_uploads total + length created <= successful_uploads total' /\
    Forall (harvested folder_id attachment_filter) created.

(** The messages whose subject passes the test, for headers that do
    not change during the run. *)
Definition wanted (metadata : string -> option (list (string * string)))
    (message_id : string) : bool :=
  match metadata message_id with
  | Some headers => subject_wanted headers
  | None => false
  end.

(** A letter given by its code in upper case and its character in
    lower case, such that upper-casing a character gives the code just
    when lower-casing it gives the character. *)
Definition letter (u : N) (l : ascii) : Prop :=
  forall c,
    match PyText.upper_char c with
    | [x] => (x =? u)%N = Ascii.eqb (PyText.lower_char c) l
    | xs => forallb (fun x => negb (x =? u)%N) xs = true
            /\ Ascii.eqb (PyText.lower_char c) l = false
    end.

Fixpoint letters (us : list N) (ls : string) : Prop :=
  match us, ls with
  | [], EmptyString => True
  | u :: us', String l ls' => letter u l /\ letters us' ls'
  | _, _ => False
  end.

(** ** Example services and payloads *)

Definition no_repr : pyval -> string := fun _ => "".

Definition fixed_clock : nat -> string := fun _ => "2024-01-01 00:00:00".

(** A clock whose second read falls in the next second. *)
Definition ticking_clock : nat -> string :=
  fun reads =>
    match reads with
    | 0 => "2024-01-01 00:00:00"
    | _ => "2024-01-01 00:00:01"
    end.

(** Services that always answer, with a given extraction agent. *)
Definition example_services (files : list file_info)
    (extract : list event -> file_info -> option pyval) : services :=
  {| llama_available := true;
     agent_found := true;
     drive_files := files;
     drive_download := fun _ _ => "%PDF";
     agent_extract := extract;
     sheets_up := fun _ => true;
     strftime := fixed_clock |}.

Definition file_a : file_info := FileInfo "id1" "a.pdf".
Definition file_b : file_info := FileInfo "id2" "b.pdf".

Definition two_files : services :=
  example_services [file_a; file_b] (fun _ _ => Some (PDict ∅)).

Definition flaky_agent : services :=
  example_services [file_a; file_b] (stub_failing_first 2 (PDict ∅)).

Definition dead_agent : services :=
  example_services [file_a; file_b] (fun _ _ => None).

(** Services whose first call of the Sheets API fails. *)
Definition first_call_fails : services :=
  {| llama_available := true;
     agent_found := true;
     drive_files := [file_a];
     drive_download := fun _ _ => "%PDF";
     agent_extract := fun _ _ => Some (PDict ∅);
     sheets_up := fun tr => match tr with [] => false | _ => true end;
     strftime := fixed_clock |}.


(** The scenario of the store that already names [invoice_12.pdf]. *)
Definition invoice_file : file_info := FileInfo "id9" "invoice_12.pdf".

Definition invoice_services : services :=
  example_services [invoice_file; file_a] (fun _ _ => Some (PDict ∅)).

Definition invoice_world : world :=
  World [["source_file"]; ["invoice_12.pdf"]] [] 0.

Definition capped_at_one : run_config := Config (Some 1%Z) true.
Definition uncapped : run_config := Config None true.

Definition empty_world : world := World [] [] 0.

(** A store whose header is the expected one. *)
Definition complete_world : world := World [expected_columns] [] 0.

(** A store whose header has three columns of its own and none of the
    expected ones. *)
Definition three_custom_columns : world := World [["c1"; "c2"; "c3"]] [] 0.

(** A store whose header has a column of its own. *)
Definition custom_world : world := World [["source_file"; "custom"]] [] 0.

(** A name of 103 characters whose extension has 100. *)
Definition long_extension_name : string :=
  "r." +:+ String.string_of_list_ascii (List.repeat "x"%char 100).

(** A name of 101 characters without a dot. *)
Definition long_plain_name : string :=
  String.string_of_list_ascii (List.repeat "n"%char 101).

(** A name of 124 characters whose extension has 3. *)
Definition long_base_name : string :=
  String.string_of_list_ascii (List.repeat "a"%char 120) +:+ ".pdf".

Definition non_dict_items : gmap string pyval :=
  {[ "items" := PList [PInt 1] ]}.

Definition own_tax_key : gmap string pyval :=
  {[ "items" :=
       PList [ PDict {[ "tax amount" := PStr "7"; "tax_amount" := PStr "9" ]} ] ]}.

Definition plain_item : gmap string pyval :=
  {[ "ord_qty" := PInt 5; "ean" := PStr "8901"; "tax" := PStr "1.5" ]}.

Definition plain_record : gmap string pyval :=
  {[ "supplier" := PStr "Acme"; "items" := PList [PDict plain_item] ]}.

Definition items_and_empty_products : gmap string pyval :=
  {[ "items" := PList [PDict ∅; PDict ∅]; "products" := PList [] ]}.

Definition empty_products : gmap string pyval :=
  {[ "items" := PStr "n/a"; "products" := PList [];
     "grn_items" := PList [PDict ∅] ]}.

(** A record whose [supplier] is [None] and whose [vendor_name] is set. *)
Definition none_supplier : gmap string pyval :=
  {[ "supplier" := PNone; "vendor_name" := PStr "Acme" ]}.

(** A store that already names [a.pdf]. *)
Definition ingested_world : world :=
  World [["source_file"]; ["a.pdf"]] [] 0.

(** The headers of three messages: a forwarded GRN, a message that
    names both a GDN and a GRN, and a message without a subject. *)
Definition example_metadata (message_id : string)
    : option (list (string * string)) :=
  if String.eqb message_id "m1" then Some [("Subject", "Fwd: grn 12")]
  else if String.eqb message_id "m2" then Some [("Subject", "GDN and GRN")]
  else Some [("From", "docs@more.in")].

(** A message with an inline part, an attachment and a nested
    attachment. *)
Definition example_payload : mime_part :=
  Multipart [ Part "" None;
              Part "GRN 1.pdf" (Some "att1");
              Multipart [Part "notes.txt" (Some "att2")] ].

(** Gmail and Drive that always answer. *)
Definition example_mail : mail_services :=
  {| gmail_search := ["m1"; "m2"; "m3"];
     gmail_metadata := fun _ message_id => example_metadata message_id;
     gmail_message := fun _ _ => Some (Some example_payload);
     gmail_attachment := fun _ _ _ => AttachmentData "%PDF";
     drive_list_up := fun _ _ _ => true;
     drive_create_up := fun _ _ _ => true |}.

Definition empty_drive : mail_world := MailWorld [] [].

(** A Drive whose folder already has a file called [grn.pdf]. *)
Definition drive_with_grn : mail_world :=
  MailWorld [DriveFile "grn.pdf" ["folder"] "old"] [].

Definition folder_config : mail_config := MailConfig "folder" "".
Definition no_folder_config : mail_config := MailConfig "" "".

(** The texts of the log on an example: a fixed time, a fixed duration,
    and counters in decimal. *)
Definition example_time : Z -> string := fun _ => "2024-01-01 00:00:00".
Definition example_seconds : Z -> string := fun _ => "0.50s".

Definition example_cell_text (value : stat_value) : string :=
  match value with
  | StatInt n => PyStr.of_Z n
  | StatBool true => "TRUE"
  | StatBool false => "FALSE"
  end.

(** ** Proofs *)

Ltac run_monad :=
  unfold mbind, M_bind, mret, M_ret, get_world, emit, set_sheet, tick; simpl;
  cbn [sheet trace clock_reads].

(** ** Facts about the string operations *)

Module StrFacts.
Import PyStr.

Lemma length_map f s : String.length (map f s) = String.length s.
Proof. induction s as [|c s IH]; simpl; congruence. Qed.

Lemma get_map f s i :
  String.get i (map f s) = f <$> String.get i s.
Proof.
  revert i; induction s as [|c s IH]; intros [|i]; simpl; auto.
Qed.

Lemma length_app s1 s2 :
  String.length (s1 +:+ s2) = String.length s1 + String.length s2.
Proof. induction s1 as [|c s1 IH]; simpl; [reflexivity | congruence]. Qed.

Lemma length_take n s : String.length (take n s) = n `min` String.length s.
Proof.
  revert s; induction n as [|n IH]; intros [|c s]; simpl; auto.
Qed.

Lemma take_all n s : String.length s <= n -> take n s = s.
Proof.
  revert s; induction n as [|n IH]; intros [|c s]; simpl; intros H;
    try reflexivity; try lia.
  f_equal; apply IH; lia.
Qed.

Lemma mem_map_false f c s :
  (forall a, f a <> c) -> mem c (map f s) = false.
Proof.
  intros Hf; induction s as [|a s IH]; simpl; [reflexivity|].
  destruct (Ascii.eqb_spec c (f a)) as [->|_]; [destruct (Hf a); reflexivity|].
  exact IH.
Qed.

Lemma split_not_nil sep s : split sep s <> [].
Proof.
  destruct s as [|c s]; simpl; [discriminate|].
  destruct (Ascii.eqb c sep); [discriminate|].
  destruct (split sep s); discriminate.
Qed.

(** A string without the separator is its own single part. *)
Lemma split_no_sep sep s : mem sep s = false -> split sep s = [s].
Proof.
  induction s as [|c s IH]; simpl; [reflexivity|].
  rewrite Ascii.eqb_sym.
  destruct (Ascii.eqb c sep); [discriminate|].
  intros H; rewrite (IH H); reflexivity.
Qed.

(** The part after the last separator is the last part. *)
Lemma split_app sep base ext :
  mem sep ext = false ->
  split sep (base +:+ String sep ext) = split sep base ++ [ext].
Proof.
  intros Hext; induction base as [|c base IH]; simpl.
  - rewrite Ascii.eqb_refl, (split_no_sep _ _ Hext); reflexivity.
  - destruct (Ascii.eqb c sep); [rewrite IH; reflexivity|].
    rewrite IH. destruct (split sep base) eqn:E; [|reflexivity].
    destruct (split_not_nil _ _ E).
Qed.

Lemma join_split sep s : join sep (split sep s) = s.
Proof.
  induction s as [|c s IH]; simpl; [reflexivity|].
  destruct (Ascii.eqb_spec c sep) as [->|_].
  - simpl. destruct (split sep s) eqn:E; [destruct (split_not_nil _ _ E)|].
    rewrite IH; reflexivity.
  - destruct (split sep s) as [|p ps] eqn:E; [destruct (split_not_nil _ _ E)|].
    destruct ps as [|p' ps]; [simpl in *; congruence|].
    change (join sep (String c p :: p' :: ps))
      with (String c (p +:+ String sep (join sep (p' :: ps)))).
    change (join sep (p :: p' :: ps))
      with (p +:+ String sep (join sep (p' :: ps))) in IH.
    rewrite IH; reflexivity.
Qed.

Lemma mem_app_r c s1 s2 : mem c (s1 +:+ s2) = mem c s1 || mem c s2.
Proof.
  induction s1 as [|a s1 IH]; simpl; [reflexivity|].
  destruct (Ascii.eqb c a); simpl; auto.
Qed.

Lemma mem_take_false c n s : mem c s = false -> mem c (take n s) = false.
Proof.
  revert s; induction n as [|n IH]; intros [|a s]; simpl; auto.
  destruct (Ascii.eqb c a); [discriminate|]. apply IH.
Qed.

End StrFacts.

(** ** File names *)

Module FilenameFacts.
Import PyStr Filename StrFacts.


Lemma replace_unsafe_safe a c :
  mem c unsafe_chars = true -> replace_unsafe a <> c.
Proof.
  unfold replace_unsafe; intros Hc E.
  destruct (mem a unsafe_chars) eqn:Ha; subst c; [|congruence].
  vm_compute in Hc; discriminate.
Qed.

(** A long name with an extension keeps the first 95 characters of what
    precedes the last dot, and the whole extension. *)
Lemma sanitize_long_ext filename base ext :
  100 < String.length filename ->
  map replace_unsafe filename = base +:+ String "." ext ->
  mem "." ext = false ->
  sanitize_filename filename = take 95 base +:+ String "." ext.
Proof.
  intros Hlen Hsplit Hext. unfold sanitize_filename.
  rewrite length_map.
  destruct (Nat.ltb_spec 100 (String.length filename)) as [_|]; [|lia].
  rewrite Hsplit, (split_app _ _ _ Hext).
  rewrite List.length_app; simpl.
  destruct (Nat.ltb_spec 1 (length (split "." base) + 1)) as [_|Hn].
  - rewrite last_last, removelast_last, join_split; reflexivity.
  - pose proof (split_not_nil "." base) as Hne.
    destruct (split "." base); [congruence | simpl in Hn; lia].
Qed.

Lemma sanitize_long_plain filename :
  100 < String.length filename ->
  mem "." (map replace_unsafe filename) = false ->
  sanitize_filename filename = take 100 (map replace_unsafe filename).
Proof.
  intros Hlen Hdot. unfold sanitize_filename.
  rewrite length_map.
  destruct (Nat.ltb_spec 100 (String.length filename)) as [_|]; [|lia].
  rewrite (split_no_sep _ _ Hdot); reflexivity.
Qed.

Lemma sanitize_short filename :
  String.length filename <= 100 ->
  sanitize_filename filename = map replace_unsafe filename.
Proof.
  intros Hlen. unfold sanitize_filename. rewrite length_map.
  destruct (Nat.ltb_spec 100 (String.length filename)); [lia | reflexivity].
Qed.


Lemma rsplit sep s :
  mem sep s = true ->
  exists base ext, s = base +:+ String sep ext /\ mem sep ext = false.
Proof.
  induction s as [|c s IH]; simpl; [discriminate|].
  destruct (mem sep s) eqn:Hs.
  - intros _. destruct (IH eq_refl) as (base & ext & -> & Hext).
    exists (String c base), ext; split; [reflexivity | exact Hext].
  - destruct (Ascii.eqb_spec sep c) as [->|_]; [|discriminate].
    intros _. exists EmptyString, s; split; [reflexivity | exact Hs].
Qed.

Lemma sanitize_no_unsafe filename c :
  mem c unsafe_chars = true -> mem c (sanitize_filename filename) = false.
Proof.
  intros Hc.
  assert (Hclean : mem c (map replace_unsafe filename) = false).
  { apply mem_map_false; intros a; apply replace_unsafe_safe, Hc. }
  destruct (Nat.le_gt_cases (String.length filename) 100) as [Hle|Hgt].
  { rewrite (sanitize_short _ Hle); exact Hclean. }
  destruct (mem "." (map replace_unsafe filename)) eqn:Hdot.
  - destruct (rsplit _ _ Hdot) as (base & ext & Hsplit & Hext).
    rewrite (sanitize_long_ext _ _ _ Hgt Hsplit Hext).
    rewrite Hsplit, mem_app_r in Hclean.
    apply orb_false_elim in Hclean as [Hb He].
    rewrite mem_app_r, (mem_take_false _ _ _ Hb); exact He.
  - rewrite (sanitize_long_plain _ Hgt Hdot).
    apply mem_take_false, Hclean.
Qed.

(** C9 (as amended): [sanitize_filename] replaces each of the nine
    characters of the class by an underscore and keeps every other
    character (the hash sign among them), position by position; the
    result holds none of the nine; a name of at most 100 characters is
    not shortened; a longer name without a dot is cut to its first 100
    characters; a longer name with a dot becomes the first 95 characters
    of what precedes the last dot, the dot and the whole extension,
    which stays within 100 characters when the extension has at most 4;
    and GRN#2024/01.pdf becomes GRN#2024_01.pdf. *)
Theorem sanitize_filename_spec (filename : string) :
  let cleaned := map replace_unsafe filename in
  (forall i, String.get i cleaned = replace_unsafe <$> String.get i filename) /\
  (forall c, mem c unsafe_chars = true ->
             mem c (sanitize_filename filename) = false) /\
  (String.length filename <= 100 -> sanitize_filename filename = cleaned) /\
  (100 < String.length filename -> mem "." cleaned = false ->
   sanitize_filename filename = take 100 cleaned) /\
  (forall base ext,
     100 < String.length filename ->
     cleaned = base +:+ String "." ext -> mem "." ext = false ->
     sanitize_filename filename = take 95 base +:+ String "." ext /\
     (String.length ext <= 4 ->
      String.length (sanitize_filename filename) <= 100)) /\
  sanitize_filename "GRN#2024/01.pdf" = "GRN#2024_01.pdf".
Proof.
  intros cleaned. split; [|split; [|split; [|split; [|split]]]].
  - intros i; apply get_map.
  - intros c; apply sanitize_no_unsafe.
  - apply sanitize_short.
  - apply sanitize_long_plain.
  - intros base ext Hlen Hsplit Hext.
    rewrite (sanitize_long_ext _ _ _ Hlen Hsplit Hext).
    split; [reflexivity|]. intros Hshort.
    rewrite length_app, length_take.
    change (String.length (String "." ext)) with (S (String.length ext)); lia.
  - reflexivity.
Qed.

End FilenameFacts.

(** ** The normaliser *)

Section NormalizerFacts.

Variable py_repr : pyval -> string.
Variable clock : nat -> string.

Lemma clean_value_str s : clean_value py_repr (PStr s) = PyStr.strip s.
Proof. destruct s; reflexivity. Qed.

Lemma dict_get_resolve record key chain :
  dict_get record key (resolve record chain) = resolve record (key :: chain).
Proof. unfold dict_get; simpl. destruct (record !! key); reflexivity. Qed.

(** The rows built from an item resolve every canonical column as the
    table says: document-level columns on the record, item-level ones
    on the item. *)
Lemma item_row_resolves record item file now column lvl chain :
  (column, lvl, chain) ∈ alias_table ->
  row_get (item_row py_repr (make_doc_data record) item file now) column ""
  = clean_value py_repr
      (resolve (match lvl with DocLevel => record | ItemLevel => item end) chain).
Proof.
  unfold alias_table; intros Hin.
  repeat (apply elem_of_cons in Hin as [Hin|Hin];
          [ injection Hin as -> -> ->;
            repeat rewrite <- dict_get_resolve; reflexivity | ]).
  inversion Hin.
Qed.

Lemma length_item_rows doc file items t :
  length (item_rows py_repr clock doc file items t)
  = length (List.filter is_dict items).
Proof.
  revert t; induction items as [|item items IH]; intros t; [reflexivity|].
  destruct item; simpl; auto.
Qed.

(** So at least one row is emitted exactly when no non-empty item list
    is found or one of the items is a dict. *)
Lemma at_least_one_row_iff record file t rows :
  process_extracted_data py_repr clock (PDict record) file t = Some rows ->
  (1 <= length rows <->
   find_items item_keys record = [] \/
   exists item, PDict item ∈ find_items item_keys record).
Proof.
  unfold process_extracted_data.
  destruct (find_items item_keys record) as [|item items] eqn:E;
    intros Heq.
  - injection Heq as <-. simpl; split; [auto | lia].
  - assert (Hrows : rows = item_rows py_repr clock (make_doc_data record)
                             file (item :: items) t) by congruence.
    rewrite Hrows, length_item_rows. split.
    + intros Hlen. right.
      destruct (List.filter is_dict (item :: items)) as [|v vs] eqn:F;
        [simpl in Hlen; lia|].
      assert (Hv : In v (List.filter is_dict (item :: items)))
        by (rewrite F; left; reflexivity).
      apply filter_In in Hv as [Hv Hd].
      destruct v; try discriminate. eexists. apply list_elem_of_In, Hv.
    + intros [Hnil | [it Hit]]; [discriminate|].
      apply list_elem_of_In in Hit.
      assert (Hf : In (PDict it) (List.filter is_dict (item :: items)))
        by (apply filter_In; split; [exact Hit | reflexivity]).
      destruct (List.filter is_dict (item :: items)); [destruct Hf | simpl; lia].
Qed.

(** C2 (as amended): on a record, normalisation always returns; when
    the scan finds no non-empty item list it returns exactly the one
    row of [create_base_row]; when it finds one it returns one row per
    item that is a dict and no fallback row, which is no row at all
    when none of the items is a dict. *)
Theorem process_extracted_data_rows (record : gmap string pyval)
    (file : file_info) (t : nat) :
  exists rows,
    process_extracted_data py_repr clock (PDict record) file t = Some rows /\
    match find_items item_keys record with
    | [] => rows = [create_base_row py_repr record file (clock t)]
    | items => length rows = length (List.filter is_dict items)
    end.
Proof.
  unfold process_extracted_data.
  destruct (find_items item_keys record) as [|item items] eqn:E.
  - eexists; split; reflexivity.
  - eexists; split; [reflexivity | apply length_item_rows].
Qed.

Lemma find_items_app record pre post :
  forallb (fun key => negb (holds_items record key)) pre = true ->
  find_items (pre ++ post) record = [] \/
  find_items (pre ++ post) record = find_items post record.
Proof.
  induction pre as [|key pre IH]; simpl; [auto|].
  unfold holds_items at 1.
  destruct (record !! key) as [[| | | | |[|item items]|]|]; simpl; auto.
  discriminate.
Qed.

(** C10 (as amended): when a recognised key holds the empty list and
    no key scanned before it holds a non-empty list, normalisation
    takes the fallback and emits exactly the one row of
    [create_base_row]. *)
Theorem empty_item_list_single_row (record : gmap string pyval)
    (file : file_info) (t : nat) (pre post : list string) (key : string) :
  item_keys = pre ++ key :: post ->
  record !! key = Some (PList []) ->
  forallb (fun key' => negb (holds_items record key')) pre = true ->
  process_extracted_data py_repr clock (PDict record) file t
  = Some [create_base_row py_repr record file (clock t)].
Proof.
  intros Hkeys Hkey Hpre. unfold process_extracted_data.
  rewrite Hkeys.
  destruct (find_items_app record pre (key :: post) Hpre) as [-> | ->];
    [reflexivity|].
  simpl. rewrite Hkey. reflexivity.
Qed.

(** C3 (as amended): the payload with the two line items [{qty: 5}] and
    [{sku: X1}] yields exactly two rows; [ord_qty] is 5 in the first
    and empty in the second; the two rows agree on every document-level
    column other than [processed_date], which is in each row the clock
    as read for that row; so they agree on every document-level column
    when the two reads of the clock give the same text. *)
Theorem doc_b_two_rows (file : file_info) (t : nat) :
  exists row1 row2,
    process_extracted_data py_repr clock doc_b file t = Some [row1; row2] /\
    row_get row1 "ord_qty" "" = "5" /\
    row_get row2 "ord_qty" "" = "" /\
    Forall (fun column =>
              column <> "processed_date" ->
              row_get row1 column "" = row_get row2 column "")
           document_columns /\
    row_get row1 "processed_date" "" = PyStr.strip (clock t) /\
    row_get row2 "processed_date" "" = PyStr.strip (clock (S t)) /\
    (clock t = clock (S t) ->
     Forall (fun column => row_get row1 column "" = row_get row2 column "")
            document_columns).
Proof.
  eexists _, _. split; [reflexivity|].
  split; [reflexivity|]. split; [reflexivity|].
  split; [|split; [apply clean_value_str | split; [apply clean_value_str|]]].
  - unfold document_columns.
    repeat (constructor; [first [intros _; reflexivity
                                | intros Hne; destruct Hne; reflexivity]|]).
    constructor.
  - intros Hclock. unfold document_columns.
    repeat (constructor;
            [first [reflexivity
                   | etransitivity; [apply clean_value_str|];
                     rewrite Hclock; symmetry; apply clean_value_str]|]).
    constructor.
Qed.

Lemma dict_get_none record key dflt :
  record !! key = None -> dict_get record key dflt = dflt.
Proof. unfold dict_get; intros ->; reflexivity. Qed.

Lemma item_rows_elem doc file items t row :
  row ∈ item_rows py_repr clock doc file items t ->
  exists item t',
    PDict item ∈ items /\ row = item_row py_repr doc item file (clock t').
Proof.
  revert t; induction items as [|v items IH]; intros t Hin;
    [inversion Hin|].
  assert (Hrest : forall t0,
            row ∈ item_rows py_repr clock doc file items t0 ->
            exists item t', PDict item ∈ v :: items /\
                            row = item_row py_repr doc item file (clock t')).
  { intros t0 H0; destruct (IH _ H0) as (item & t' & Hi & ->).
    exists item, t'; split; [right; exact Hi | reflexivity]. }
  destruct v; simpl in Hin; eauto.
  apply elem_of_cons in Hin as [-> | Hin]; eauto.
  eexists _, _; split; [left | reflexivity].
Qed.

Lemma lacks_lookup record keys key :
  lacks record keys = true -> key ∈ keys -> record !! key = None.
Proof.
  unfold lacks; rewrite forallb_forall; intros H Hin.
  apply list_elem_of_In, H in Hin. apply bool_decide_eq_true in Hin; exact Hin.
Qed.

Lemma item_row_mirrored doc item file now :
  lacks item divergent_keys = true ->
  mirrored (item_row py_repr doc item file now).
Proof.
  intros H.
  assert (Hk : forall key, key ∈ divergent_keys -> item !! key = None)
    by (intros key; apply lacks_lookup, H).
  unfold mirrored, item_row, row_get, clean_row; simpl.
  rewrite !(dict_get_none item "ord.qty"), !(dict_get_none item "variant.ean"),
    !(dict_get_none item "tax amount"), !(dict_get_none item "variant_ean"),
    !(dict_get_none item "ordered_qty"), !(dict_get_none item "quantity"),
    !(dict_get_none item "qty")
    by (apply Hk; unfold divergent_keys; set_solver).
  auto.
Qed.

Lemma create_base_row_mirrored record file now :
  lacks record divergent_keys = true ->
  mirrored (create_base_row py_repr record file now).
Proof.
  intros H.
  assert (Hk : forall key, key ∈ divergent_keys -> record !! key = None)
    by (intros key; apply lacks_lookup, H).
  unfold mirrored, create_base_row, row_get, clean_row; simpl.
  rewrite !(dict_get_none record "quantity")
    by (apply Hk; unfold divergent_keys; set_solver).
  auto.
Qed.

(** C5 (as amended): in every emitted row [grndate] repeats
    [grn_date]; and when neither the record nor any of its items
    carries a key spelled as a legacy column (ord.qty, variant.ean,
    tax amount) or one of the keys variant_ean, ordered_qty, quantity,
    qty, every emitted row repeats each canonical column in its legacy
    column. *)
Theorem legacy_columns_mirrored (record : gmap string pyval)
    (file : file_info) (t : nat) (rows : list (list (string * string))) :
  process_extracted_data py_repr clock (PDict record) file t = Some rows ->
  (forall row, row ∈ rows ->
     row_get row "grndate" "" = row_get row "grn_date" "") /\
  (lacks record divergent_keys = true ->
   (forall item, PDict item ∈ find_items item_keys record ->
      lacks item divergent_keys = true) ->
   forall row, row ∈ rows -> mirrored row).
Proof.
  unfold process_extracted_data.
  destruct (find_items item_keys record) as [|v items] eqn:E;
    intros [= <-]; split.
  - intros row Hin; apply list_elem_of_singleton in Hin as ->; reflexivity.
  - intros Hrec _ row Hin; apply list_elem_of_singleton in Hin as ->.
    apply create_base_row_mirrored, Hrec.
  - intros row Hin.
    apply (item_rows_elem _ _ (v :: items) t) in Hin as (item & t' & _ & ->).
    reflexivity.
  - intros _ Hitems row Hin.
    apply (item_rows_elem _ _ (v :: items) t) in Hin as (item & t' & Hi & ->).
    apply item_row_mirrored, Hitems, Hi.
Qed.

(** C4: the fallback row does not follow the alias table.  On the
    record [{vendor: Acme}] the chain of [supplier] resolves to Acme,
    and so does the row built for an item of that record, but
    [create_base_row] leaves [supplier] empty; on
    [{variant_ean: 8901}] it leaves [variant_ean] empty, the canonical
    key itself not being read. *)
Theorem create_base_row_skips_aliases (file : file_info) (now : string) :
  let vendor_only : gmap string pyval := {[ "vendor" := PStr "Acme" ]} in
  let ean_only : gmap string pyval := {[ "variant_ean" := PStr "8901" ]} in
  clean_value py_repr (resolve vendor_only ["supplier"; "vendor_name"; "vendor"])
    = "Acme" /\
  row_get (item_row py_repr (make_doc_data vendor_only) ∅ file now) "supplier" ""
    = "Acme" /\
  row_get (create_base_row py_repr vendor_only file now) "supplier" "" = "" /\
  clean_value py_repr (resolve ean_only ["variant_ean"; "ean"; "barcode"])
    = "8901" /\
  row_get (item_row py_repr (make_doc_data ∅) ean_only file now) "variant_ean" ""
    = "8901" /\
  row_get (create_base_row py_repr ean_only file now) "variant_ean" "" = "".
Proof. repeat split; reflexivity. Qed.

End NormalizerFacts.

(** ** Store rows and headers *)

Section SheetFacts.


Lemma sheet_row_lookup headers row_dict i header :
  headers !! i = Some header ->
  sheet_row headers row_dict !! i
  = Some (PyStr.strip (row_get row_dict header "")).
Proof.
  intros Hi. unfold sheet_row.
  change (List.map ?f ?l) with (f <$> l).
  rewrite list_lookup_fmap, Hi. reflexivity.
Qed.

Lemma in_headers_elem col headers :
  in_headers col headers = true <-> col ∈ headers.
Proof.
  unfold in_headers; rewrite existsb_exists; split.
  - intros (h & Hin & Heq); apply String.eqb_eq in Heq as ->.
    apply list_elem_of_In, Hin.
  - intros Hin; exists col; split;
      [apply list_elem_of_In, Hin | apply String.eqb_refl].
Qed.

Lemma missing_columns_elem col headers :
  col ∈ missing_columns headers <-> col ∈ expected_columns /\ col ∉ headers.
Proof.
  unfold missing_columns.
  rewrite list_elem_of_In, filter_In, <- list_elem_of_In, negb_true_iff.
  rewrite <- (in_headers_elem col headers).
  destruct (in_headers col headers); intuition congruence.
Qed.

Lemma reconciled_complete headers col :
  col ∈ expected_columns -> col ∈ headers ++ missing_columns headers.
Proof.
  intros Hcol. destruct (decide (col ∈ headers)) as [Hin|Hnot].
  - apply elem_of_app; left; exact Hin.
  - apply elem_of_app; right; apply missing_columns_elem; auto.
Qed.

Lemma missing_columns_nil headers :
  missing_columns headers = [] <->
  forall col, col ∈ expected_columns -> col ∈ headers.
Proof.
  split.
  - intros Hnil col Hcol. destruct (decide (col ∈ headers)) as [|Hnot]; [assumption|].
    assert (H : col ∈ missing_columns headers)
      by (apply missing_columns_elem; auto).
    rewrite Hnil in H; inversion H.
  - intros Hall. destruct (missing_columns headers) as [|col cols] eqn:E;
      [reflexivity|].
    assert (H : col ∈ missing_columns headers) by (rewrite E; left).
    apply missing_columns_elem in H as [Hcol Hnot]. destruct (Hnot (Hall _ Hcol)).
Qed.

End SheetFacts.

Section HeaderFacts.

Variable svc : services.

Lemma bind_eq {A B} (m : M A) (f : A -> M B) w :
  (m ≫= f) w = f (m w).1 (m w).2.
Proof. unfold mbind, M_bind. destruct (m w); reflexivity. Qed.

Lemma get_sheet_headers_eq w :
  get_sheet_headers svc w =
    (if sheets_up svc (trace w) then header_window (hd [] (sheet w)) else [],
     after w [EvSheetsGet (sheets_up svc (trace w))]).
Proof.
  unfold get_sheet_headers. run_monad.
  destruct (sheets_up svc (trace w)); reflexivity.
Qed.

Lemma update_headers_eq new_headers w :
  update_headers svc new_headers w =
    let ok := sheets_up svc (trace w) && range_in_window new_headers in
    (ok,
     World (if ok
            then (new_headers ++ drop (length new_headers) (hd [] (sheet w)))
                   :: tl (sheet w)
            else sheet w)
           (trace w ++ [EvSheetsUpdate new_headers ok]) (clock_reads w)).
Proof.
  unfold update_headers. run_monad.
  destruct (sheets_up svc (trace w) && range_in_window new_headers);
    reflexivity.
Qed.

Lemma header_window_whole (old : list string) :
  length old <= 26 -> header_window old = old.
Proof. intros Hlen. apply take_ge. exact Hlen. Qed.

Lemma header_window_prefix (old : list string) :
  old = header_window old ++ drop 26 old.
Proof. symmetry. apply take_drop. Qed.

(** A header read that an accepted update widens is the whole header
    row. *)
Lemma header_window_widened (old more : list string) :
  more <> [] -> range_in_window (header_window old ++ more) = true ->
  header_window old = old /\ length (old ++ more) <= 26.
Proof.
  intros Hmore Hfits. unfold range_in_window in Hfits.
  apply andb_true_iff in Hfits as [_ Hfits]. apply Nat.leb_le in Hfits.
  rewrite List.length_app in Hfits.
  assert (Hlen : length (header_window old) < 26)
    by (destruct more; [destruct Hmore; reflexivity | cbn [length] in Hfits; lia]).
  assert (Hold : length old <= 26).
  { unfold header_window in Hlen. rewrite length_take in Hlen. lia. }
  rewrite (header_window_whole _ Hold) in *.
  split; [reflexivity | rewrite List.length_app; exact Hfits].
Qed.

(** The outcome of a reconciliation, whatever the service answers. *)
Lemma reconcile_headers_read w :
  let up := sheets_up svc (trace w) in
  let read := if up then header_window (hd [] (sheet w)) else [] in
  let new_headers := read ++ missing_columns read in
  let ok := sheets_up svc (trace w ++ [EvSheetsGet up])
            && range_in_window new_headers in
  reconcile_headers svc w =
    match missing_columns read with
    | [] => (read, after w [EvSheetsGet up])
    | _ => (new_headers,
            World (if ok
                   then (new_headers
                           ++ drop (length new_headers) (hd [] (sheet w)))
                          :: tl (sheet w)
                   else sheet w)
                  (trace w ++ [EvSheetsGet up; EvSheetsUpdate new_headers ok])
                  (clock_reads w))
    end.
Proof.
  cbv zeta. unfold reconcile_headers. rewrite bind_eq, get_sheet_headers_eq.
  cbn [fst snd].
  destruct (if sheets_up svc (trace w) then header_window (hd [] (sheet w))
            else [])
    as [|h hs].
  - change (missing_columns []) with expected_columns.
    unfold expected_columns at 3. cbv iota.
    rewrite bind_eq, update_headers_eq. cbn [fst snd after sheet trace clock_reads].
    rewrite app_nil_l, <- (app_assoc (trace w)). reflexivity.
  - destruct (missing_columns (h :: hs)) as [|m ms] eqn:Em; [reflexivity|].
    rewrite bind_eq, update_headers_eq. cbn [fst snd after sheet trace clock_reads].
    rewrite <- (app_assoc (trace w)). reflexivity.
Qed.

(** The outcome of a reconciliation whose read succeeds: the header row
    is left as it is, or widened by the columns it lacks. *)
Lemma reconcile_headers_eq w :
  sheets_up svc (trace w) = true ->
  let old := hd [] (sheet w) in
  let read := header_window old in
  let new_headers := read ++ missing_columns read in
  let ok := sheets_up svc (trace w ++ [EvSheetsGet true])
            && range_in_window new_headers in
  reconcile_headers svc w =
    match missing_columns read with
    | [] => (read, after w [EvSheetsGet true])
    | _ => (new_headers,
            World (if ok then (old ++ missing_columns old) :: tl (sheet w)
                   else sheet w)
                  (trace w ++ [EvSheetsGet true; EvSheetsUpdate new_headers ok])
                  (clock_reads w))
    end.
Proof.
  intros Hup. cbv zeta. rewrite reconcile_headers_read. cbv zeta. rewrite Hup.
  destruct (missing_columns (header_window (hd [] (sheet w)))) as [|m ms] eqn:Em;
    [reflexivity|].
  destruct (sheets_up svc (trace w ++ [EvSheetsGet true])
            && range_in_window (header_window (hd [] (sheet w)) ++ m :: ms))
    eqn:Eok; [|reflexivity].
  apply andb_true_iff in Eok as [_ Hfits].
  destruct (header_window_widened (hd [] (sheet w)) (m :: ms)) as [Hwhole _];
    [discriminate | exact Hfits|].
  rewrite Hwhole in Em |- *. rewrite Em.
  rewrite drop_ge by (rewrite List.length_app; lia).
  rewrite app_nil_r. reflexivity.
Qed.

(** With a complete header, reconciliation only reads. *)
Lemma reconcile_headers_complete w :
  sheets_up svc (trace w) = true ->
  (forall col, col ∈ expected_columns -> col ∈ header_window (hd [] (sheet w))) ->
  reconcile_headers svc w
  = (header_window (hd [] (sheet w)), after w [EvSheetsGet true]).
Proof.
  intros Hup Hall. rewrite (reconcile_headers_eq w Hup). cbv zeta.
  rewrite (proj2 (missing_columns_nil _) Hall). reflexivity.
Qed.

(** C6 (as amended): reconciliation returns the header it read followed
    by the expected columns that this lacks, in the order of the
    expected list; a header read that has every expected column causes
    no update call and leaves the store as it is.  When the read
    succeeds, the list read is the part of the header row of the store
    that lies in the window, and the header row is afterwards either as
    it was or followed by the columns it lacked: every column stays at
    its place, the other rows are as they were, and a changed header row
    is the header returned and has at most 26 columns; the columns it
    lacked are added whenever the update call succeeds and the widened
    header has at most 26 columns.  A later reconciliation that reads
    such a header writes nothing. *)
Theorem reconcile_headers_widens (w : world) :
  let old := hd [] (sheet w) in
  let read := (get_sheet_headers svc w).1 in
  let headers := (reconcile_headers svc w).1 in
  let w' := (reconcile_headers svc w).2 in
  headers = read ++ missing_columns read /\
  ((forall col, col ∈ expected_columns -> col ∈ read) ->
   headers = read /\ sheet w' = sheet w /\
   List.filter is_update (trace w') = List.filter is_update (trace w)) /\
  (sheets_up svc (trace w) = true ->
   read = header_window old /\
   (hd [] (sheet w') = old \/ hd [] (sheet w') = old ++ missing_columns old) /\
   (forall i col, old !! i = Some col -> hd [] (sheet w') !! i = Some col) /\
   tl (sheet w') = tl (sheet w) /\
   (hd [] (sheet w') <> old ->
    hd [] (sheet w') = headers /\ length headers <= 26) /\
   (sheets_up svc (trace w ++ [EvSheetsGet true]) = true ->
    length (old ++ missing_columns old) <= 26 ->
    hd [] (sheet w') = old ++ missing_columns old)) /\
  (forall w2,
     sheets_up svc (trace w2) = true -> hd [] (sheet w2) = headers ->
     length headers <= 26 ->
     reconcile_headers svc w2 = (headers, after w2 [EvSheetsGet true])).
Proof.
  intros old read headers w'.
  assert (Hread : read = if sheets_up svc (trace w)
                         then header_window (hd [] (sheet w)) else [])
    by (subst read; rewrite get_sheet_headers_eq; reflexivity).
  assert (Hheaders : headers = read ++ missing_columns read).
  { subst headers. rewrite reconcile_headers_read. cbv zeta. rewrite <- Hread.
    destruct (missing_columns read); cbn [fst];
      [rewrite app_nil_r|]; reflexivity. }
  split; [exact Hheaders|].
  split; [|split].
  - intros Hall. apply missing_columns_nil in Hall.
    subst headers w'. rewrite reconcile_headers_read. cbv zeta.
    rewrite <- Hread, Hall. cbn [fst snd after sheet trace].
    split; [reflexivity|]. split; [reflexivity|].
    rewrite List.filter_app; simpl; apply app_nil_r.
  - intros Hup. rewrite Hup in Hread. split; [exact Hread|].
    subst w'. rewrite Hheaders, Hread. clear Hheaders Hread. subst old.
    rewrite (reconcile_headers_eq w Hup). cbv zeta.
    destruct (missing_columns (header_window (hd [] (sheet w)))) as [|m ms] eqn:Em;
      cbn [fst snd after sheet].
    { split; [left; reflexivity|]. split; [auto|]. split; [reflexivity|].
      split; [intros Hne; destruct Hne; reflexivity|].
      intros _ Hlen2. rewrite List.length_app in Hlen2.
      rewrite (header_window_whole (hd [] (sheet w))) in Em by lia.
      rewrite Em, app_nil_r. reflexivity. }
    destruct (sheets_up svc (trace w ++ [EvSheetsGet true])
              && range_in_window (header_window (hd [] (sheet w)) ++ m :: ms))
      eqn:Eok; cbn [hd tl].
    + apply andb_true_iff in Eok as [_ Hfits].
      destruct (header_window_widened (hd [] (sheet w)) (m :: ms))
        as [Hwhole Hlen]; [discriminate | exact Hfits|].
      rewrite Hwhole in Em |- *. rewrite Em.
      split; [right; reflexivity|].
      split; [intros i col Hi; apply lookup_app_l_Some; exact Hi|].
      split; [reflexivity|].
      split; [intros _; split; [reflexivity | exact Hlen] | reflexivity].
    + split; [left; reflexivity|]. split; [auto|]. split; [reflexivity|].
      split; [intros Hne; destruct Hne; reflexivity|].
      intros Hup2 Hlen2. rewrite List.length_app in Hlen2.
      rewrite (header_window_whole (hd [] (sheet w))) in Em, Eok by lia.
      rewrite Hup2 in Eok. cbn [andb] in Eok.
      unfold range_in_window in Eok. rewrite Em in Hlen2.
      rewrite List.length_app in Eok.
      apply andb_false_iff in Eok as [Eok | Eok]; apply Nat.leb_gt in Eok;
        cbn [length] in *; lia.
  - intros w2 Hup2 Hhd Hlen.
    assert (Hwhole : header_window (hd [] (sheet w2)) = headers)
      by (rewrite Hhd; apply header_window_whole, Hlen).
    rewrite <- Hwhole at 1.
    apply reconcile_headers_complete; [exact Hup2|].
    rewrite Hwhole, Hheaders. intros col; apply reconciled_complete.
Qed.

End HeaderFacts.

(** ** Retries and the loop over the files *)

Section ExtractFacts.

Variable py_repr : pyval -> string.
Variable svc : services.

Lemma after_after w es1 es2 : after (after w es1) es2 = after w (es1 ++ es2).
Proof. unfold after; simpl. rewrite <- app_assoc. reflexivity. Qed.

Lemma after_nil w : after w [] = w.
Proof. unfold after; rewrite app_nil_r; destruct w; reflexivity. Qed.

Lemma extract_calls_app tr1 tr2 :
  extract_calls (tr1 ++ tr2) = extract_calls tr1 + extract_calls tr2.
Proof. unfold extract_calls. rewrite List.filter_app, List.length_app. reflexivity. Qed.

Lemma extract_calls_failed file wait_time n :
  extract_calls (failed_attempts file wait_time n) = n.
Proof.
  induction n as [|n IH]; [reflexivity|].
  unfold extract_calls in *; simpl. rewrite IH; reflexivity.
Qed.

(** One turn of the loop of [safe_extract]. *)
Lemma safe_extract_attempts_S attempts wait_time file w :
  safe_extract_attempts svc (S attempts) wait_time file w =
    match agent_extract svc (trace w) file with
    | Some data => (Some data, after w [EvExtract file true])
    | None =>
        safe_extract_attempts svc attempts wait_time file
          (after w [EvExtract file false; EvSleep wait_time])
    end.
Proof.
  simpl. run_monad.
  destruct (agent_extract svc (trace w) file); [reflexivity|].
  cbn [sheet trace clock_reads after]. rewrite <- app_assoc. reflexivity.
Qed.

Lemma safe_extract_always_fails attempts wait_time file w :
  (forall tr, agent_extract svc tr file = None) ->
  safe_extract_attempts svc attempts wait_time file w
  = (None, after w (failed_attempts file wait_time attempts)).
Proof.
  intros Hfail. revert w; induction attempts as [|n IH]; intros w.
  - simpl. rewrite after_nil. reflexivity.
  - rewrite safe_extract_attempts_S, Hfail, IH, after_after. reflexivity.
Qed.

Lemma safe_extract_flaky data wait_time file n w :
  agent_extract svc = stub_failing_first (extract_calls (trace w) + n) data ->
  safe_extract_attempts svc (S n) wait_time file w
  = (Some data,
     after w (failed_attempts file wait_time n ++ [EvExtract file true])).
Proof.
  revert w; induction n as [|n IH]; intros w Hstub;
    rewrite safe_extract_attempts_S, Hstub; unfold stub_failing_first.
  - destruct (Nat.ltb_spec (extract_calls (trace w))
                (extract_calls (trace w) + 0)); [lia | reflexivity].
  - destruct (Nat.ltb_spec (extract_calls (trace w))
                (extract_calls (trace w) + S n)); [|lia].
    rewrite IH, after_after; [reflexivity|].
    rewrite Hstub. f_equal. unfold after; simpl.
    rewrite extract_calls_app.
    change (extract_calls [EvExtract file false; EvSleep wait_time]) with 1.
    lia.
Qed.

Lemma safe_extract_keeps_store attempts wait_time file w :
  sheet (safe_extract_attempts svc attempts wait_time file w).2 = sheet w /\
  clock_reads (safe_extract_attempts svc attempts wait_time file w).2
    = clock_reads w.
Proof.
  revert w; induction attempts as [|n IH]; intros w; [split; reflexivity|].
  rewrite safe_extract_attempts_S.
  destruct (agent_extract svc (trace w) file); [split; reflexivity|].
  destruct (IH (after w [EvExtract file false; EvSleep wait_time])) as [-> ->].
  split; reflexivity.
Qed.

(** One turn of the loop of [append_to_google_sheet]. *)
Lemma append_attempts_keeps attempts values w :
  clock_reads (append_attempts svc attempts values w).2 = clock_reads w /\
  (if (append_attempts svc attempts values w).1
   then sheet (append_attempts svc attempts values w).2 = sheet w ++ values
   else sheet (append_attempts svc attempts values w).2 = sheet w).
Proof.
  revert w; induction attempts as [|n IH]; intros w; [split; reflexivity|].
  simpl. run_monad.
  destruct (sheets_up svc (trace w)); [split; reflexivity|].
  destruct n as [|n]; [split; reflexivity|].
  match goal with |- context [append_attempts svc (S n) values ?w1] =>
    destruct (IH w1) as [Hc Hs] end.
  split; [exact Hc | exact Hs].
Qed.

(** The body of the loop over the files, call by call. *)
Lemma process_file_eq headers st file w :
  process_file py_repr svc headers st file w =
    let w1 := after w [EvDownload file] in
    match drive_download svc (trace w) file with
    | EmptyString => (add_failed st, w1)
    | _ =>
        let r := safe_extract svc file 3 2 w1 in
        match r.1 with
        | None => (add_failed st, r.2)
        | Some extracted_data =>
            match all_rows_of py_repr (strftime svc) extracted_data file
                    (clock_reads r.2) with
            | None => (add_failed st, r.2)
            | Some [] => (add_failed st, r.2)
            | Some all_rows =>
                let w3 := World (sheet r.2) (trace r.2)
                                (clock_reads r.2 + length all_rows) in
                let a := append_to_google_sheet svc
                           (List.map (sheet_row headers) all_rows) w3 in
                (if a.1 then add_processed (length all_rows) st
                 else add_failed st, a.2)
            end
        end
    end.
Proof.
  unfold process_file, download_from_drive.
  set (extract := safe_extract svc file 3 2).
  set (append := append_to_google_sheet svc).
  run_monad.
  destruct (drive_download svc (trace w) file); [reflexivity|].
  fold (after w [EvDownload file]).
  destruct (extract (after w [EvDownload file])) as [[data|] w2];
    [|reflexivity].
  cbn [fst snd].
  destruct (all_rows_of py_repr (strftime svc) data file (clock_reads w2))
    as [[|row rows]|]; [ | | reflexivity].
  - destruct w2 as [sh tr cr]; cbn [sheet trace clock_reads length].
    rewrite Nat.add_0_r. reflexivity.
  - cbn [sheet trace clock_reads].
    destruct (append _ _) as [[|] w4]; cbn [fst snd];
      rewrite ?length_map; reflexivity.
Qed.

Lemma process_file_extraction_fails headers st file w :
  drive_download svc (trace w) file <> "" ->
  (forall tr, agent_extract svc tr file = None) ->
  process_file py_repr svc headers st file w
  = (add_failed st, after w (EvDownload file :: failed_attempts file 2 3)).
Proof.
  intros Hdata Hfail. rewrite process_file_eq. cbv zeta.
  destruct (drive_download svc (trace w) file); [destruct Hdata; reflexivity|].
  unfold safe_extract. rewrite (safe_extract_always_fails _ _ _ _ Hfail).
  cbn [fst snd]. rewrite after_after. reflexivity.
Qed.

(** The loop over the files counts every file once, as processed or as
    failed, whatever the services answer. *)
Lemma process_files_counts_all headers files : forall st w,
  let r := process_files py_repr svc headers st files w in
  files_processed r.1 + files_failed r.1
    = files_processed st + files_failed st + length files /\
  files_failed st <= files_failed r.1.
Proof.
  induction files as [|file files IH]; intros st w; cbv zeta.
  - cbn. lia.
  - cbn [process_files]. rewrite bind_eq.
    assert (Hstep :
      let st1 := (process_file py_repr svc headers st file w).1 in
      files_processed st1 + files_failed st1
        = S (files_processed st + files_failed st) /\
      files_failed st <= files_failed st1).
    { cbv zeta. rewrite process_file_eq. cbv zeta.
      destruct (drive_download svc (trace w) file); [cbn; lia|].
      destruct (safe_extract svc file 3 2 (after w [EvDownload file]))
        as [[data|] w2]; cbn [fst snd]; [|cbn; lia].
      destruct (all_rows_of py_repr (strftime svc) data file (clock_reads w2))
        as [[|row rows]|]; cbn [fst snd]; try (cbn; lia).
      destruct (append_to_google_sheet svc _ _) as [[|] w4]; cbn; lia. }
    cbv zeta in Hstep.
    destruct (process_file py_repr svc headers st file w) as [st1 w1].
    cbn [fst snd] in *. destruct (IH st1 w1) as [Hsum Hle].
    cbn [length]. lia.
Qed.

(** C7: with three attempts, a stub that raises on its next two calls
    and then returns makes [safe_extract] return that result after
    exactly three calls of the stub; a stub that always raises makes
    [safe_extract] raise after exactly three calls, and the loop over
    the files then goes on with the remaining files from counters in
    which [files_failed] is one more and every other counter is as it
    was, the store being left as it is; at the end of the loop every
    file, the remaining ones included, has been counted once as
    processed or as failed. *)
Theorem retry_wrapped_extractor (file : file_info) (w : world) :
  (forall data,
     agent_extract svc
       = stub_failing_first (extract_calls (trace w) + 2) data ->
     exists w',
       safe_extract svc file 3 2 w = (Some data, w') /\
       extract_calls (trace w') = extract_calls (trace w) + 3) /\
  ((forall tr, agent_extract svc tr file = None) ->
   (exists w',
      safe_extract svc file 3 2 w = (None, w') /\
      extract_calls (trace w') = extract_calls (trace w) + 3) /\
   (drive_download svc (trace w) file <> "" ->
    forall headers st rest,
    let r := process_files py_repr svc headers st (file :: rest) w in
    (exists w',
       r = process_files py_repr svc headers
             (Stats (files_found st) (files_processed st)
                    (S (files_failed st)) (files_skipped st) (rows_added st))
             rest w' /\
       sheet w' = sheet w /\
       extract_calls (trace w') = extract_calls (trace w) + 3) /\
    files_processed r.1 + files_failed r.1
      = files_processed st + files_failed st + S (length rest) /\
    files_failed st + 1 <= files_failed r.1)).
Proof.
  split.
  - intros data Hstub. eexists; split.
    + unfold safe_extract. apply safe_extract_flaky, Hstub.
    + cbn [after trace]. rewrite !extract_calls_app, extract_calls_failed.
      reflexivity.
  - intros Hfail. split.
    + eexists; split.
      * unfold safe_extract. apply safe_extract_always_fails, Hfail.
      * cbn [after trace]. rewrite extract_calls_app, extract_calls_failed.
        reflexivity.
    + intros Hdata headers st rest. cbv zeta.
      assert (Hstep :
        process_files py_repr svc headers st (file :: rest) w
        = process_files py_repr svc headers
            (Stats (files_found st) (files_processed st)
                   (S (files_failed st)) (files_skipped st) (rows_added st))
            rest (after w (EvDownload file :: failed_attempts file 2 3))).
      { cbn [process_files]. rewrite bind_eq.
        rewrite (process_file_extraction_fails _ _ _ _ Hdata Hfail).
        reflexivity. }
      split; [|split].
      * eexists; split; [exact Hstep|]. split; [reflexivity|].
        cbn [after trace].
        change (EvDownload file :: failed_attempts file 2 3)
          with ([EvDownload file] ++ failed_attempts file 2 3).
        rewrite !extract_calls_app, extract_calls_failed. reflexivity.
      * apply (process_files_counts_all headers (file :: rest) st w).
      * rewrite Hstep.
        match goal with |- context [process_files py_repr svc headers ?st1 rest ?w1] =>
          destruct (process_files_counts_all headers rest st1 w1) as [_ Hle] end.
        cbn [files_failed] in Hle. lia.
Qed.

End ExtractFacts.

Section RowFacts.

Variable py_repr : pyval -> string.
Variable clock : nat -> string.

Lemma process_extracted_data_names_file data file t rows :
  process_extracted_data py_repr clock data file t = Some rows ->
  Forall (names_file file) rows.
Proof.
  destruct data as [| | | | | |d]; try discriminate.
  unfold process_extracted_data.
  destruct (find_items item_keys d) as [|v items]; intros [= <-].
  - repeat constructor. apply clean_value_str.
  - apply Forall_forall. intros row Hin.
    apply (item_rows_elem _ _ _ _ (v :: items) t) in Hin as (item & t' & _ & ->).
    apply clean_value_str.
Qed.

Lemma chunk_rows_names_file chunks file t :
  Forall (names_file file) (chunk_rows py_repr clock chunks file t).
Proof.
  revert t; induction chunks as [|chunk chunks IH]; intros t; [constructor|].
  destruct chunk; cbn [chunk_rows]; auto.
  unfold process_extracted_data.
  destruct (find_items item_keys d) as [|v items] eqn:E.
  - constructor; [apply clean_value_str | apply IH].
  - apply Forall_app; split; [|apply IH].
    apply Forall_forall. intros row Hin.
    apply (item_rows_elem _ _ _ _ (v :: items) t) in Hin as (item & t' & _ & ->).
    apply clean_value_str.
Qed.

(** Every row normalised for a file carries the stripped file name as
    its [source_file]. *)
Lemma all_rows_names_file data file t rows :
  all_rows_of py_repr clock data file t = Some rows ->
  Forall (names_file file) rows.
Proof.
  destruct data; cbn [all_rows_of]; try discriminate.
  - intros [= <-]. apply chunk_rows_names_file.
  - apply (process_extracted_data_names_file (PDict d)).
Qed.

End RowFacts.

Section IndexFacts.

Lemma index_of_lookup name headers i :
  index_of name headers = Some i -> headers !! i = Some name.
Proof.
  revert i; induction headers as [|h headers IH]; intros i; simpl; [discriminate|].
  destruct (String.eqb_spec h name) as [->|_].
  - intros [= <-]; reflexivity.
  - destruct (index_of name headers) as [j|]; simpl; [|discriminate].
    intros [= <-]. apply IH; reflexivity.
Qed.

Lemma index_of_app name headers more i :
  index_of name headers = Some i -> index_of name (headers ++ more) = Some i.
Proof.
  revert i; induction headers as [|h headers IH]; intros i; simpl; [discriminate|].
  destruct (String.eqb h name); [auto|].
  destruct (index_of name headers) as [j|]; simpl; [|discriminate].
  intros [= <-]. rewrite (IH j eq_refl). reflexivity.
Qed.

Lemma index_of_elem name headers :
  name ∈ headers -> exists i, index_of name headers = Some i.
Proof.
  induction headers as [|h headers IH]; intros Hin; [inversion Hin|].
  simpl. destruct (String.eqb_spec h name) as [->|Hne]; [eauto|].
  apply elem_of_cons in Hin as [->|Hin]; [destruct Hne; reflexivity|].
  destruct (IH Hin) as [i ->]. simpl; eauto.
Qed.

Lemma existing_names_elem name i rows :
  name ∈ existing_names_of i rows <->
  name <> "" /\ exists row, row ∈ rows /\ row !! i = Some name.
Proof.
  unfold existing_names_of. rewrite elem_of_list_to_set, list_elem_of_omap.
  split.
  - intros (row & Hin & Hrow).
    destruct (row !! i) as [[|c s]|] eqn:E; try discriminate.
    injection Hrow as <-. split; [discriminate|]. eauto.
  - intros (Hne & row & Hin & Hrow). exists row; split; [exact Hin|].
    rewrite Hrow. destruct name; [destruct Hne|]; reflexivity.
Qed.

Lemma existing_names_app name i rows more :
  name ∈ existing_names_of i rows -> name ∈ existing_names_of i (rows ++ more).
Proof.
  rewrite !existing_names_elem. intros (Hne & row & Hin & Hrow).
  split; [exact Hne|]. exists row; split; [|exact Hrow].
  apply elem_of_app; left; exact Hin.
Qed.

Lemma py_slice_to_length {A} n (l : list A) :
  length (py_slice_to n l) <= length l.
Proof.
  unfold py_slice_to. destruct (0 <=? n)%Z; rewrite length_take; lia.
Qed.

Lemma py_slice_to_all {A} n (l : list A) :
  length (py_slice_to n l) = length l -> py_slice_to n l = l.
Proof.
  unfold py_slice_to. destruct (0 <=? n)%Z; rewrite length_take; intros H;
    apply take_ge; lia.
Qed.

End IndexFacts.

Section RunFacts.

Variable py_repr : pyval -> string.
Variable svc : services.

(** A file either fails and leaves the store as it is, or gets its
    rows appended, each carrying the stripped file name. *)
Lemma process_file_spec headers st file w :
  let r := process_file py_repr svc headers st file w in
  (r.1 = add_failed st /\ sheet r.2 = sheet w) \/
  (exists all_rows,
     all_rows <> [] /\
     r.1 = add_processed (length all_rows) st /\
     sheet r.2 = sheet w ++ List.map (sheet_row headers) all_rows /\
     Forall (names_file file) all_rows).
Proof.
  cbv zeta. rewrite process_file_eq. cbv zeta.
  destruct (drive_download svc (trace w) file); [left; split; reflexivity|].
  pose proof (safe_extract_keeps_store svc 3 2 file (after w [EvDownload file]))
    as [Hsheet Hclock].
  fold (safe_extract svc file 3 2) in Hsheet, Hclock.
  destruct (safe_extract svc file 3 2 (after w [EvDownload file])) as [[data|] w2];
    cbn [fst snd] in *; [|left; split; [reflexivity | exact Hsheet]].
  destruct (all_rows_of py_repr (strftime svc) data file (clock_reads w2))
    as [[|row rows]|] eqn:E;
    [left; split; [reflexivity | exact Hsheet] | |
     left; split; [reflexivity | exact Hsheet]].
  cbn [fst snd].
  match goal with |- context [append_to_google_sheet svc ?values ?w3] =>
    pose proof (append_attempts_keeps svc 3 values w3) as [_ Happ];
    fold (append_to_google_sheet svc values) in Happ;
    destruct (append_to_google_sheet svc values w3) as [[|] w4]
  end; cbn [fst snd sheet] in *.
  - right. exists (row :: rows). split; [discriminate|].
    split; [reflexivity|]. split; [rewrite Happ, Hsheet; reflexivity|].
    apply (all_rows_names_file _ _ _ _ _ _ E).
  - left. split; [reflexivity | rewrite Happ; exact Hsheet].
Qed.




Lemma process_files_spec headers files : forall st w,
  let r := process_files py_repr svc headers st files w in
  exists appended,
    sheet r.2 = sheet w ++ appended /\
    files_found r.1 = files_found st /\
    files_skipped r.1 = files_skipped st /\
    files_processed r.1 + files_failed r.1
      = files_processed st + files_failed st + length files /\
    files_failed st <= files_failed r.1 /\
    rows_added r.1 = rows_added st + length appended /\
    (files_failed r.1 = files_failed st ->
     forall file, file ∈ files -> has_row_of headers file appended).
Proof.
  induction files as [|file files IH]; intros st w; cbv zeta.
  - exists []. cbn. rewrite app_nil_r.
    repeat split; try lia. intros _ file Hin; inversion Hin.
  - cbn [process_files]. rewrite bind_eq.
    pose proof (process_file_spec headers st file w) as Hfile. cbv zeta in Hfile.
    destruct (process_file py_repr svc headers st file w) as [st1 w1].
    cbn [fst snd] in *.
    destruct (IH st1 w1) as (app2 & Hsh & Hfound & Hskip & Hsum & Hfail & Hrows & Hall).
    destruct Hfile as [[-> Hs1] | (all_rows & Hne & -> & Hs1 & Hnames)].
    + exists app2. rewrite Hsh, Hs1.
      cbn [add_failed files_found files_skipped files_processed files_failed
           rows_added length] in *.
      repeat split; try lia.
    + exists (List.map (sheet_row headers) all_rows ++ app2).
      rewrite Hsh, Hs1, <- app_assoc.
      cbn [add_processed files_found files_skipped files_processed files_failed
           rows_added length] in *.
      rewrite List.length_app, length_map.
      repeat split; try lia.
      intros Heq f Hin. specialize (Hall Heq).
      apply elem_of_cons in Hin as [-> | Hin].
      * destruct all_rows as [|row rows]; [destruct Hne; reflexivity|].
        exists row. split; [left | exact (Forall_inv Hnames)].
      * destruct (Hall f Hin) as (row & Hrow & Hn).
        exists row; split; [apply elem_of_app; right; exact Hrow | exact Hn].
Qed.

Lemma get_existing_source_files_eq w :
  get_existing_source_files svc w =
    (if sheets_up svc (trace w) then existing_of_sheet (sheet w) else ∅,
     after w [EvSheetsGet (sheets_up svc (trace w))]).
Proof.
  unfold get_existing_source_files, existing_of_sheet, after. run_monad.
  destruct (sheets_up svc (trace w)); [|reflexivity].
  destruct (sheet w) as [|headers rows]; [reflexivity|].
  destruct (index_of "source_file" headers); reflexivity.
Qed.

(** The workflow with the filter on, call by call. *)
Lemma workflow_eq config w :
  skip_existing config = true ->
  llama_available svc = true -> agent_found svc = true ->
  process_drive_to_sheet_workflow py_repr svc config w =
    let e := get_existing_source_files svc w in
    let pdf_files := not_ingested svc e.1 in
    let st := Stats (length (drive_files svc)) 0 0
                    (length (drive_files svc) - length pdf_files) 0 in
    match capped config pdf_files with
    | [] => (st, e.2)
    | pdf_file :: pdf_files' =>
        let r := reconcile_headers svc e.2 in
        process_files py_repr svc r.1 st (pdf_file :: pdf_files') r.2
    end.
Proof.
  intros Hskip Hllama Hagent. unfold process_drive_to_sheet_workflow.
  rewrite Hskip, Hllama, Hagent. cbn [negb]. rewrite bind_eq. cbv zeta.
  fold (not_ingested svc (get_existing_source_files svc w).1).
  fold (capped config (not_ingested svc (get_existing_source_files svc w).1)).
  destruct (capped config _); [reflexivity|].
  rewrite bind_eq. reflexivity.
Qed.

End RunFacts.

(** ** Idempotence of ingestion *)

Section Idempotence.

Variable py_repr : pyval -> string.
Variable svc : services.
Hypothesis sheets_answer : forall tr, sheets_up svc tr = true.

(** With the service answering and the update in the window, the header
    row after a reconciliation starts with the header returned, which
    has a [source_file] column, and with the header row before it. *)
Lemma reconcile_headers_all_up w :
  update_in_window (hd [] (sheet w)) ->
  let old := hd [] (sheet w) in
  let r := reconcile_headers svc w in
  "source_file" ∈ r.1 /\
  exists rest more,
    sheet r.2 = (r.1 ++ rest) :: tl (sheet w) /\ r.1 ++ rest = old ++ more.
Proof.
  intros Hwin. cbv zeta.
  rewrite (reconcile_headers_eq svc w (sheets_answer _)). cbv zeta.
  assert (Hexp : "source_file" ∈ expected_columns)
    by (unfold expected_columns; set_solver).
  destruct (missing_columns (header_window (hd [] (sheet w)))) as [|m ms] eqn:E.
  - cbn [fst snd after sheet].
    assert (Hsrc : "source_file" ∈ header_window (hd [] (sheet w)))
      by (apply (proj1 (missing_columns_nil _) E), Hexp).
    split; [exact Hsrc|].
    exists (drop 26 (hd [] (sheet w))), [].
    rewrite <- header_window_prefix, app_nil_r. split; [|reflexivity].
    destruct (sheet w) as [|h t]; [inversion Hsrc | reflexivity].
  - destruct Hwin as [Hnone | Hlen]; [rewrite E in Hnone; discriminate|].
    rewrite E in Hlen.
    assert (Hfits : range_in_window (header_window (hd [] (sheet w)) ++ m :: ms)
                    = true).
    { unfold range_in_window. apply andb_true_iff.
      split; [apply Nat.leb_le | apply Nat.leb_le; exact Hlen].
      rewrite List.length_app. cbn [length]. lia. }
    rewrite sheets_answer, Hfits. cbn [andb fst snd sheet].
    destruct (header_window_widened (hd [] (sheet w)) (m :: ms))
      as [Hwhole _]; [discriminate | exact Hfits|].
    rewrite Hwhole in E |- *. rewrite E.
    split; [rewrite <- E; apply reconciled_complete, Hexp|].
    exists [], (m :: ms). rewrite app_nil_r. split; reflexivity.
Qed.

Lemma not_ingested_nil existing_names :
  (forall file, file ∈ drive_files svc -> fi_name file ∈ existing_names) ->
  not_ingested svc existing_names = [].
Proof.
  unfold not_ingested. induction (drive_files svc) as [|f fs IH]; intros Hall;
    [reflexivity|].
  simpl. rewrite bool_decide_eq_false_2 by (intros Hnot; apply Hnot, Hall; left).
  apply IH. intros file Hin; apply Hall; right; exact Hin.
Qed.

Lemma not_ingested_elem existing_names file :
  file ∈ drive_files svc -> fi_name file ∉ existing_names ->
  file ∈ not_ingested svc existing_names.
Proof.
  intros Hin Hnot. unfold not_ingested.
  apply list_elem_of_In, filter_In. split; [apply list_elem_of_In, Hin|].
  apply bool_decide_eq_true_2, Hnot.
Qed.

Lemma not_ingested_length existing_names :
  length (not_ingested svc existing_names) <= length (drive_files svc).
Proof. apply List.filter_length_le. Qed.

Lemma capped_length config pdf_files :
  length (capped config pdf_files) <= length pdf_files.
Proof.
  unfold capped. destruct (max_files config); [apply py_slice_to_length | lia].
Qed.

Lemma capped_all config pdf_files :
  length (capped config pdf_files) = length pdf_files ->
  capped config pdf_files = pdf_files.
Proof.
  unfold capped. destruct (max_files config); [apply py_slice_to_all | reflexivity].
Qed.

Lemma capped_nil config : capped config [] = [].
Proof.
  unfold capped, py_slice_to. destruct (max_files config) as [n|]; [|reflexivity].
  destruct (0 <=? n)%Z; apply take_nil.
Qed.

(** A run on a store that names every candidate reads the store and
    stops. *)
Lemma workflow_all_ingested config w :
  skip_existing config = true ->
  llama_available svc = true -> agent_found svc = true ->
  (forall file, file ∈ drive_files svc ->
     fi_name file ∈ existing_of_sheet (sheet w)) ->
  process_drive_to_sheet_workflow py_repr svc config w
  = (Stats (length (drive_files svc)) 0 0 (length (drive_files svc)) 0,
     after w [EvSheetsGet true]).
Proof.
  intros Hskip Hllama Hagent Hall.
  rewrite (workflow_eq _ _ _ _ Hskip Hllama Hagent). cbv zeta.
  rewrite get_existing_source_files_eq, sheets_answer. cbn [fst snd].
  rewrite (not_ingested_nil _ Hall), capped_nil. cbn [length].
  rewrite Nat.sub_0_r. reflexivity.
Qed.

(** After a run in which no file failed and none was left out by the
    cap, the store names every candidate. *)
Lemma workflow_ingests_all config w :
  skip_existing config = true ->
  llama_available svc = true -> agent_found svc = true ->
  update_in_window (hd [] (sheet w)) ->
  Forall clean_name (drive_files svc) ->
  let r := process_drive_to_sheet_workflow py_repr svc config w in
  files_failed r.1 = 0 ->
  files_found r.1 = files_processed r.1 + files_skipped r.1 ->
  forall file, file ∈ drive_files svc ->
    fi_name file ∈ existing_of_sheet (sheet r.2).
Proof.
  intros Hskip Hllama Hagent Hwin Hnames. cbv zeta.
  rewrite (workflow_eq _ _ _ _ Hskip Hllama Hagent). cbv zeta.
  rewrite get_existing_source_files_eq, sheets_answer. cbn [fst snd].
  set (ex := existing_of_sheet (sheet w)).
  pose proof (not_ingested_length ex) as Hfl.
  pose proof (capped_length config (not_ingested svc ex)) as Hcp.
  destruct (capped config (not_ingested svc ex)) as [|pdf_file pdf_files] eqn:Ecap.
  - (* nothing to process: every candidate was already named *)
    cbn [fst snd files_failed files_found files_processed files_skipped after sheet].
    intros _ Hstats file Hin.
    destruct (decide (fi_name file ∈ ex)) as [Hex|Hnot]; [exact Hex|].
    pose proof (not_ingested_elem ex file Hin Hnot) as Hfile.
    destruct (not_ingested svc ex); [inversion Hfile | simpl in *; lia].
  - rewrite <- Ecap.
    destruct (reconcile_headers_all_up (after w [EvSheetsGet true]) Hwin)
      as (Hsrc & rest & more & Hsheet & Hold).
    cbn [after sheet] in Hsrc, Hsheet, Hold.
    set (r := reconcile_headers svc (after w [EvSheetsGet true])) in *.
    set (hs := r.1) in *.
    set (st0 := Stats _ _ _ _ _).
    destruct (process_files_spec py_repr svc hs (capped config (not_ingested svc ex))
                st0 r.2)
      as (appended & Hsh & Hfound & Hskipped & Hsum & _ & _ & Hall).
    intros Hfailed Hstats.
    rewrite Hfound, Hskipped in Hstats. rewrite Hfailed in Hsum.
    subst st0; cbn [files_found files_skipped files_processed files_failed]
      in Hsum, Hstats.
    assert (Hcap : capped config (not_ingested svc ex) = not_ingested svc ex)
      by (apply capped_all; lia).
    specialize (Hall Hfailed). rewrite Hcap in Hall.
    destruct (index_of_elem _ _ Hsrc) as [idx Hidx].
    intros file Hin. rewrite Hsh, Hsheet.
    cbn [app existing_of_sheet]. rewrite (index_of_app _ _ rest _ Hidx).
    destruct (decide (fi_name file ∈ ex)) as [Hex|Hnot].
    + (* named before the run *)
      apply existing_names_app. subst ex. unfold existing_of_sheet in Hex.
      destruct (sheet w) as [|old rows]; [inversion Hex|].
      cbn [hd tl] in *.
      destruct (index_of "source_file" old) as [i|] eqn:Ei; [|inversion Hex].
      apply (index_of_app _ _ rest) in Hidx.
      rewrite Hold, (index_of_app _ _ more _ Ei) in Hidx.
      injection Hidx as <-. exact Hex.
    + (* ingested by the run *)
      destruct (Hall file (not_ingested_elem ex file Hin Hnot))
        as (row & Hrow & Hname).
      destruct (proj1 (Forall_forall _ _) Hnames file Hin) as [Hne Hstrip].
      apply existing_names_elem. split; [exact Hne|].
      exists (sheet_row hs row). split; [apply elem_of_app; right; exact Hrow|].
      rewrite (sheet_row_lookup hs row _ _ (index_of_lookup _ _ _ Hidx)).
      unfold names_file in Hname. rewrite Hname, Hstrip, Hstrip. reflexivity.
Qed.

(** A second run after a first run that ingested every candidate
    reads the store and stops. *)
Lemma second_run_appends_nothing (config : run_config) (w : world) :
  skip_existing config = true ->
  update_in_window (hd [] (sheet w)) ->
  Forall clean_name (drive_files svc) ->
  let first := process_drive_to_sheet_workflow py_repr svc config w in
  files_failed first.1 = 0 ->
  files_found first.1 = files_processed first.1 + files_skipped first.1 ->
  let second := process_drive_to_sheet_workflow py_repr svc config first.2 in
  sheet second.2 = sheet first.2 /\
  rows_added second.1 = 0 /\
  files_processed second.1 = 0 /\
  files_failed second.1 = 0 /\
  files_skipped second.1 = files_found second.1 /\
  extract_calls (trace second.2) = extract_calls (trace first.2).
Proof.
  intros Hskip Hwin Hnames first Hfailed Hstats second.
  destruct (llama_available svc) eqn:Hllama;
    [destruct (agent_found svc) eqn:Hagent|].
  - pose proof (workflow_ingests_all config w Hskip Hllama Hagent Hwin Hnames
                  Hfailed Hstats)
      as Hall.
    subst second. fold first in Hall.
    rewrite (workflow_all_ingested config first.2 Hskip Hllama Hagent Hall).
    cbn [fst snd after sheet trace rows_added files_processed files_failed
         files_skipped files_found].
    rewrite extract_calls_app. repeat split; try reflexivity.
    change (extract_calls [EvSheetsGet true]) with 0. lia.
  - subst second first. unfold process_drive_to_sheet_workflow.
    rewrite Hllama, Hagent. repeat split; reflexivity.
  - subst second first. unfold process_drive_to_sheet_workflow.
    rewrite Hllama. repeat split; reflexivity.
Qed.

End Idempotence.

Section TraceFacts.

Variable py_repr : pyval -> string.
Variable svc : services.

Lemma extract_calls_named_app name tr1 tr2 :
  extract_calls_named name (tr1 ++ tr2)
  = extract_calls_named name tr1 + extract_calls_named name tr2.
Proof.
  unfold extract_calls_named. rewrite List.filter_app, List.length_app.
  reflexivity.
Qed.

Lemma quiet_step_refl name w : quiet_step name w w.
Proof. exists []. rewrite app_nil_r. split; reflexivity. Qed.

Lemma quiet_step_trans name w1 w2 w3 :
  quiet_step name w1 w2 -> quiet_step name w2 w3 -> quiet_step name w1 w3.
Proof.
  intros (e1 & H1 & Q1) (e2 & H2 & Q2). exists (e1 ++ e2).
  rewrite H2, H1, app_assoc, extract_calls_named_app, Q1, Q2.
  split; reflexivity.
Qed.

Lemma quiet_step_after name w events :
  extract_calls_named name events = 0 -> quiet_step name w (after w events).
Proof. intros Q. exists events. split; [reflexivity | exact Q]. Qed.

Lemma quiet_step_calls name w w' :
  quiet_step name w w' ->
  extract_calls_named name (trace w') = extract_calls_named name (trace w).
Proof.
  intros (events & -> & Q). rewrite extract_calls_named_app, Q. lia.
Qed.

Lemma safe_extract_quiet name attempts wait_time file w :
  fi_name file <> name ->
  quiet_step name w (safe_extract_attempts svc attempts wait_time file w).2.
Proof.
  intros Hne.
  assert (Hev : forall ok, extracts_name name (EvExtract file ok) = false)
    by (intros ok; apply String.eqb_neq, Hne).
  revert w; induction attempts as [|n IH]; intros w; [apply quiet_step_refl|].
  rewrite safe_extract_attempts_S.
  destruct (agent_extract svc (trace w) file).
  - apply quiet_step_after. unfold extract_calls_named; cbn [List.filter].
    rewrite Hev; reflexivity.
  - eapply quiet_step_trans; [|apply IH].
    apply quiet_step_after. unfold extract_calls_named; cbn [List.filter].
    rewrite Hev; reflexivity.
Qed.

Lemma append_attempts_quiet name attempts values w :
  quiet_step name w (append_attempts svc attempts values w).2.
Proof.
  revert w; induction attempts as [|n IH]; intros w; [apply quiet_step_refl|].
  simpl. run_monad.
  destruct (sheets_up svc (trace w)).
  - exists [EvSheetsAppend values true]. split; reflexivity.
  - destruct n as [|n].
    + exists [EvSheetsAppend values false]. split; reflexivity.
    + match goal with |- context [append_attempts svc (S n) values ?w1] =>
        eapply (quiet_step_trans _ _ w1); [|apply IH] end.
      exists [EvSheetsAppend values false; EvSleep 2].
      cbn [trace]. rewrite <- app_assoc. split; reflexivity.
Qed.

Lemma process_file_quiet name headers st file w :
  fi_name file <> name ->
  quiet_step name w (process_file py_repr svc headers st file w).2.
Proof.
  intros Hne. rewrite process_file_eq. cbv zeta.
  assert (H1 : quiet_step name w (after w [EvDownload file]))
    by (apply quiet_step_after; reflexivity).
  destruct (drive_download svc (trace w) file); [exact H1|].
  pose proof (safe_extract_quiet name 3 2 file (after w [EvDownload file]) Hne)
    as H2.
  fold (safe_extract svc file 3 2) in H2.
  pose proof (quiet_step_trans _ _ _ _ H1 H2) as H12.
  destruct (safe_extract svc file 3 2 (after w [EvDownload file])) as [[data|] w2];
    cbn [fst snd] in *; [|exact H12].
  destruct (all_rows_of py_repr (strftime svc) data file (clock_reads w2))
    as [[|row rows]|]; [exact H12 | | exact H12].
  cbn [fst snd]. eapply quiet_step_trans; [exact H12|].
  eapply quiet_step_trans; [|apply append_attempts_quiet].
  exists []. cbn [trace]. rewrite app_nil_r. split; reflexivity.
Qed.

Lemma process_files_quiet name headers files : forall st w,
  Forall (fun file => fi_name file <> name) files ->
  quiet_step name w (process_files py_repr svc headers st files w).2.
Proof.
  induction files as [|file files IH]; intros st w Hall;
    [apply quiet_step_refl|].
  cbn [process_files]. rewrite bind_eq.
  eapply quiet_step_trans;
    [apply (process_file_quiet name headers st file w), (Forall_inv Hall)|].
  apply IH, (Forall_inv_tail Hall).
Qed.

Lemma reconcile_headers_quiet name w :
  quiet_step name w (reconcile_headers svc w).2.
Proof.
  unfold reconcile_headers. rewrite bind_eq, get_sheet_headers_eq.
  cbn [fst snd].
  assert (H1 : quiet_step name w
                 (after w [EvSheetsGet (sheets_up svc (trace w))]))
    by (apply quiet_step_after; reflexivity).
  assert (Hup : forall new_headers w0,
            quiet_step name w0 (update_headers svc new_headers w0).2).
  { intros new_headers w0. rewrite update_headers_eq. cbv zeta. cbn [snd].
    exists [EvSheetsUpdate new_headers
              (sheets_up svc (trace w0) && range_in_window new_headers)].
    split; reflexivity. }
  destruct (if sheets_up svc (trace w) then header_window (hd [] (sheet w))
            else [])
    as [|h hs].
  - rewrite bind_eq. cbn [mret M_ret snd].
    eapply quiet_step_trans; [exact H1 | apply Hup].
  - destruct (missing_columns (h :: hs)); [exact H1|].
    rewrite bind_eq. cbn [mret M_ret snd].
    eapply quiet_step_trans; [exact H1 | apply Hup].
Qed.

(** A candidate whose name the store already holds is never handed to
    the extraction agent. *)
Lemma workflow_skips_ingested config w name :
  skip_existing config = true ->
  sheets_up svc (trace w) = true ->
  name ∈ existing_of_sheet (sheet w) ->
  quiet_step name w (process_drive_to_sheet_workflow py_repr svc config w).2.
Proof.
  intros Hskip Hup Hname.
  destruct (llama_available svc) eqn:Hllama;
    [destruct (agent_found svc) eqn:Hagent|].
  - rewrite (workflow_eq _ _ _ _ Hskip Hllama Hagent). cbv zeta.
    rewrite get_existing_source_files_eq, Hup. cbn [fst snd].
    assert (H1 : quiet_step name w (after w [EvSheetsGet true]))
      by (apply quiet_step_after; reflexivity).
    assert (Hfiles : Forall (fun file => fi_name file <> name)
                       (capped config
                          (not_ingested svc (existing_of_sheet (sheet w))))).
    { apply Forall_forall. intros file Hin Heq.
      assert (Hin' : file ∈ not_ingested svc (existing_of_sheet (sheet w))).
      { revert Hin. unfold capped, py_slice_to.
        destruct (max_files config) as [n|]; [|auto].
        destruct (0 <=? n)%Z; apply subseteq_take. }
      unfold not_ingested in Hin'.
      apply list_elem_of_In, filter_In in Hin' as [_ Hnot].
      apply bool_decide_eq_true in Hnot. apply Hnot. rewrite Heq; exact Hname. }
    destruct (capped config _) as [|pdf_file pdf_files]; [exact H1|].
    eapply quiet_step_trans; [exact H1|].
    eapply quiet_step_trans; [apply reconcile_headers_quiet|].
    apply process_files_quiet, Hfiles.
  - unfold process_drive_to_sheet_workflow. rewrite Hllama, Hagent.
    apply quiet_step_refl.
  - unfold process_drive_to_sheet_workflow. rewrite Hllama.
    apply quiet_step_refl.
Qed.

(** C1 (as amended): with the filter on, a candidate whose name the
    store already holds in its [source_file] column is never handed to
    the extraction agent, provided the store could be read.  And with
    the Sheets service answering every call, the header update of the
    first run, if it makes one, lying in the columns A to Z that the
    service accepts, let a first run end with no failed file and with
    every candidate either processed or skipped (the cap having left
    none out), the file names being non-empty and free of surrounding
    white space: then a second run on the store as the first run left
    it, with the same candidates, leaves the store as it is, adds no
    row, skips every candidate and makes no extraction call. *)
Theorem ingestion_idempotent (config : run_config) (w : world) :
  skip_existing config = true ->
  let run := process_drive_to_sheet_workflow py_repr svc config in
  (forall name,
     sheets_up svc (trace w) = true ->
     name ∈ existing_of_sheet (sheet w) ->
     extract_calls_named name (trace (run w).2)
     = extract_calls_named name (trace w)) /\
  ((forall tr, sheets_up svc tr = true) ->
   update_in_window (hd [] (sheet w)) ->
   Forall clean_name (drive_files svc) ->
   files_failed (run w).1 = 0 ->
   files_found (run w).1 = files_processed (run w).1 + files_skipped (run w).1 ->
   let second := run (run w).2 in
   sheet second.2 = sheet (run w).2 /\
   rows_added second.1 = 0 /\
   files_processed second.1 = 0 /\
   files_failed second.1 = 0 /\
   files_skipped second.1 = files_found second.1 /\
   extract_calls (trace second.2) = extract_calls (trace (run w).2)).
Proof.
  intros Hskip run. split.
  - intros name Hup Hname.
    apply quiet_step_calls, workflow_skips_ingested; assumption.
  - intros Hup Hwin Hnames Hfailed Hstats.
    apply (second_run_appends_nothing py_repr svc Hup config w Hskip Hwin
             Hnames Hfailed Hstats).
Qed.

End TraceFacts.

(** ** More on file names and file categories *)

Module FilenameMore.
Import PyStr Filename StrFacts FilenameFacts.

Lemma map_replace_fixed s :
  (forall c, mem c unsafe_chars = true -> mem c s = false) ->
  map replace_unsafe s = s.
Proof.
  induction s as [|a s IH]; intros Hsafe; [reflexivity|].
  simpl. unfold replace_unsafe at 1.
  destruct (mem a unsafe_chars) eqn:Ha.
  - specialize (Hsafe a Ha). simpl in Hsafe. rewrite Ascii.eqb_refl in Hsafe.
    discriminate.
  - f_equal. apply IH. intros c Hc. specialize (Hsafe c Hc). simpl in Hsafe.
    destruct (Ascii.eqb c a); [discriminate | exact Hsafe].
Qed.

Lemma take_take n s : take n (take n s) = take n s.
Proof.
  revert s; induction n as [|n IH]; intros [|c s]; simpl; try reflexivity.
  rewrite IH; reflexivity.
Qed.

Lemma length_take_le n s : String.length (take n s) <= String.length s.
Proof. rewrite length_take. lia. Qed.

(** The three shapes of a sanitised name. *)
Lemma sanitize_cases filename :
  let cleaned := map replace_unsafe filename in
  (String.length filename <= 100 /\ sanitize_filename filename = cleaned) \/
  (100 < String.length filename /\ mem "." cleaned = false /\
   sanitize_filename filename = take 100 cleaned) \/
  (100 < String.length filename /\
   exists base ext,
     cleaned = base +:+ String "." ext /\ mem "." ext = false /\
     sanitize_filename filename = take 95 base +:+ String "." ext).
Proof.
  cbv zeta.
  destruct (Nat.le_gt_cases (String.length filename) 100) as [Hle|Hgt].
  { left. split; [exact Hle | apply sanitize_short, Hle]. }
  right. destruct (mem "." (map replace_unsafe filename)) eqn:Hdot.
  - right. split; [exact Hgt|].
    destruct (rsplit _ _ Hdot) as (base & ext & Hsplit & Hext).
    exists base, ext. split; [exact Hsplit|]. split; [exact Hext|].
    apply sanitize_long_ext; assumption.
  - left. split; [exact Hgt|]. split; [reflexivity|].
    apply sanitize_long_plain; assumption.
Qed.

(** X1: sanitising a sanitised name changes nothing. *)
Theorem sanitize_filename_idempotent (filename : string) :
  sanitize_filename (sanitize_filename filename) = sanitize_filename filename.
Proof.
  assert (Hfix : map replace_unsafe (sanitize_filename filename)
                 = sanitize_filename filename).
  { apply map_replace_fixed. intros c; apply sanitize_no_unsafe. }
  destruct (Nat.le_gt_cases (String.length (sanitize_filename filename)) 100)
    as [Hle|Hgt].
  { rewrite (sanitize_short _ Hle). exact Hfix. }
  destruct (sanitize_cases filename)
    as [[Hlen Heq] | [(Hlen & Hdot & Heq) | (Hlen & base & ext & Hsplit & Hext & Heq)]].
  - rewrite Heq, length_map in Hgt. lia.
  - rewrite Heq, length_take in Hgt. lia.
  - rewrite (sanitize_long_ext (sanitize_filename filename) (take 95 base) ext Hgt);
      [rewrite take_take; symmetry; exact Heq | | exact Hext].
    rewrite Hfix. exact Heq.
Qed.

(** X2: a sanitised name has the length of the name when that is at
    most 100, and is otherwise no longer than the name; it is over 100
    only when the extension has more than 4 characters. *)
Theorem sanitize_filename_length (filename : string) :
  String.length (sanitize_filename filename) <= String.length filename /\
  (String.length filename <= 100 ->
   String.length (sanitize_filename filename) = String.length filename) /\
  (100 < String.length (sanitize_filename filename) ->
   exists base ext,
     map replace_unsafe filename = base +:+ String "." ext /\
     mem "." ext = false /\ 4 < String.length ext).
Proof.
  destruct (sanitize_cases filename)
    as [[Hlen Heq] | [(Hlen & Hdot & Heq) | (Hlen & base & ext & Hsplit & Hext & Heq)]];
    rewrite Heq.
  - rewrite length_map. split; [lia|]. split; [reflexivity | lia].
  - rewrite length_take, length_map. split; [lia|]. split; lia.
  - assert (Hall : String.length filename
                   = String.length base + S (String.length ext)).
    { rewrite <- (length_map replace_unsafe), Hsplit, length_app. reflexivity. }
    rewrite length_app, length_take.
    change (String.length (String "." ext)) with (S (String.length ext)).
    split; [lia|]. split; [lia|].
    intros Hlong. exists base, ext. split; [exact Hsplit|].
    split; [exact Hext | lia].
Qed.

End FilenameMore.

Module FiletypeFacts.
Import PyStr Filename StrFacts FilenameFacts PyText Filetype.

Lemma mem_app_l c s1 s2 : mem c s1 = true -> mem c (s1 +:+ s2) = true.
Proof. intros H. rewrite mem_app_r, H. reflexivity. Qed.

Lemma row_get_range (table : list (string * string)) key dflt :
  row_get table key dflt = dflt \/ row_get table key dflt ∈ table.*2.
Proof.
  induction table as [|[k v] table IH]; simpl; [left; reflexivity|].
  destruct (String.eqb k key); [right; left|].
  destruct IH as [IH|IH]; [left; exact IH | right; right; exact IH].
Qed.

(** X3: the category of a name is one of seven; a name without a dot
    is Other; and for a name with a dot only the text after the last dot
    counts, in any letter case. *)
Theorem classify_extension_spec (filename : string) :
  classify_extension filename ∈ categories /\
  (mem "." filename = false -> classify_extension filename = "Other") /\
  (forall base ext,
     filename = base +:+ String "." ext -> mem "." ext = false ->
     classify_extension filename = row_get type_map (lower ext) "Other").
Proof.
  split; [|split].
  - assert (Hother : "Other" ∈ categories) by (unfold categories; repeat constructor).
    unfold classify_extension. destruct filename as [|c s]; [exact Hother|].
    destruct (negb (mem "." (String c s))); [exact Hother|].
    destruct (row_get_range type_map
                (lower (List.last (split "." (String c s)) EmptyString)) "Other")
      as [-> | Hin]; [exact Hother|].
    cbv zeta. revert Hin.
    generalize (row_get type_map
                  (lower (List.last (split "." (String c s)) EmptyString)) "Other").
    intros v Hin. unfold type_map in Hin. cbn [fmap list_fmap snd] in Hin.
    repeat (apply elem_of_cons in Hin as [-> | Hin];
            [unfold categories; repeat constructor|]).
    inversion Hin.
  - intros Hdot. unfold classify_extension. rewrite Hdot.
    destruct filename; reflexivity.
  - intros base ext -> Hext. unfold classify_extension.
    assert (Hdot : mem "." (base +:+ String "." ext) = true).
    { rewrite mem_app_r. simpl. apply orb_true_r. }
    rewrite Hdot, (split_app _ _ _ Hext), last_last. cbn [negb].
    destruct (base +:+ String "." ext) eqn:E; [|reflexivity].
    destruct base; discriminate.
Qed.

End FiletypeFacts.

(** ** More on the normaliser *)

Module StripFacts.
Import PyStr.

Lemma rstrip_cons c s :
  is_space c = false -> rstrip (String c s) = String c (rstrip s).
Proof. intros Hc. simpl. rewrite Hc. destruct (rstrip s); reflexivity. Qed.

Lemma rstrip_idempotent s : rstrip (rstrip s) = rstrip s.
Proof.
  induction s as [|c s IH]; [reflexivity|].
  simpl. destruct (rstrip s) as [|d r] eqn:E.
  - destruct (is_space c) eqn:Hc; [reflexivity|]. simpl. rewrite Hc. reflexivity.
  - change (rstrip (String c (String d r)))
      with (match rstrip (String d r) with
            | EmptyString => if is_space c then EmptyString else String c EmptyString
            | r0 => String c r0
            end).
    rewrite IH. reflexivity.
Qed.

Lemma lstrip_head s :
  lstrip s = EmptyString \/
  exists c r, lstrip s = String c r /\ is_space c = false.
Proof.
  induction s as [|c s IH]; [left; reflexivity|].
  simpl. destruct (is_space c) eqn:Hc; [exact IH|].
  right. exists c, s. split; [reflexivity | exact Hc].
Qed.

(** Stripping twice is stripping once. *)
Lemma strip_idempotent s : strip (strip s) = strip s.
Proof.
  unfold strip. destruct (lstrip_head s) as [-> | (c & r & -> & Hc)];
    [reflexivity|].
  rewrite (rstrip_cons _ _ Hc). simpl. rewrite Hc.
  rewrite <- (rstrip_cons _ _ Hc). apply rstrip_idempotent.
Qed.

End StripFacts.

Section NormalizerMore.

Variable py_repr : pyval -> string.
Variable clock : nat -> string.

Lemma item_rows_of_file doc file items t :
  Forall (row_of_file file) (item_rows py_repr clock doc file items t).
Proof.
  revert t; induction items as [|item items IH]; intros t; [constructor|].
  destruct item; cbn [item_rows]; auto.
  constructor; [|apply IH].
  split; [reflexivity|]. split; apply clean_value_str.
Qed.

Lemma process_extracted_data_of_file data file t rows :
  process_extracted_data py_repr clock data file t = Some rows ->
  Forall (row_of_file file) rows.
Proof.
  destruct data as [| | | | | |d]; try discriminate.
  unfold process_extracted_data.
  destruct (find_items item_keys d) as [|v items]; intros [= <-].
  - repeat constructor; apply clean_value_str.
  - apply (item_rows_of_file _ _ (v :: items)).
Qed.

Lemma chunk_rows_of_file chunks file t :
  Forall (row_of_file file) (chunk_rows py_repr clock chunks file t).
Proof.
  revert t; induction chunks as [|chunk chunks IH]; intros t; [constructor|].
  destruct chunk; cbn [chunk_rows]; auto.
  destruct (process_extracted_data py_repr clock (PDict d) file t) as [rows|] eqn:E;
    [|apply IH].
  apply Forall_app; split; [|apply IH].
  apply (process_extracted_data_of_file _ _ _ _ E).
Qed.

Lemma all_rows_of_file data file t rows :
  all_rows_of py_repr clock data file t = Some rows ->
  Forall (row_of_file file) rows.
Proof.
  destruct data; cbn [all_rows_of]; try discriminate.
  - intros [= <-]. apply chunk_rows_of_file.
  - apply (process_extracted_data_of_file (PDict d)).
Qed.

(** X4: every row the normaliser emits for a payload has the same 24
    keys, which are the expected columns of the sheet, each once: no
    expected column is missing from a row and a row has no key outside
    them. *)
Theorem emitted_rows_have_expected_columns (data : pyval) (file : file_info)
    (t : nat) (rows : list (list (string * string))) :
  all_rows_of py_repr clock data file t = Some rows ->
  Forall (fun row => row.*1 = row_keys) rows /\
  row_keys ≡ₚ expected_columns /\
  NoDup row_keys.
Proof.
  intros Hrows. split; [|split].
  - eapply Forall_impl; [apply (all_rows_of_file _ _ _ _ Hrows)|].
    intros row Hrow. apply Hrow.
  - apply (bool_decide_unpack _). vm_compute. exact I.
  - apply (bool_decide_unpack _). vm_compute. exact I.
Qed.

(** X5: in the store row of every emitted row, the cell under a
    [source_file] header is the stripped name of the file and the cell
    under a [drive_file_id] header its stripped id, whatever the
    payload: the second stripping of app.py 1108 changes nothing. *)
Theorem store_row_identifies_file (data : pyval) (file : file_info) (t : nat)
    (rows : list (list (string * string))) (headers : list string) :
  all_rows_of py_repr clock data file t = Some rows ->
  forall row i,
    row ∈ rows ->
    (headers !! i = Some "source_file" ->
     sheet_row headers row !! i = Some (PyStr.strip (fi_name file))) /\
    (headers !! i = Some "drive_file_id" ->
     sheet_row headers row !! i = Some (PyStr.strip (fi_id file))).
Proof.
  intros Hrows row i Hin.
  pose proof (proj1 (Forall_forall _ _) (all_rows_of_file _ _ _ _ Hrows) row Hin)
    as (_ & Hname & Hid).
  split; intros Hi; rewrite (sheet_row_lookup _ row _ _ Hi).
  - rewrite Hname, StripFacts.strip_idempotent. reflexivity.
  - rewrite Hid, StripFacts.strip_idempotent. reflexivity.
Qed.

Lemma chunk_rows_app chunks1 chunks2 file t :
  chunk_rows py_repr clock (chunks1 ++ chunks2) file t
  = chunk_rows py_repr clock chunks1 file t
    ++ chunk_rows py_repr clock chunks2 file
         (t + length (chunk_rows py_repr clock chunks1 file t)).
Proof.
  revert t; induction chunks1 as [|chunk chunks1 IH]; intros t.
  - simpl. rewrite Nat.add_0_r. reflexivity.
  - destruct chunk; cbn [app chunk_rows]; try apply IH.
    destruct (process_extracted_data py_repr clock (PDict d) file t) as [rows|];
      [|apply IH].
    rewrite IH, <- app_assoc, List.length_app, Nat.add_assoc. reflexivity.
Qed.

(** X6: the rows of a list payload are the rows of its chunks, one
    after the other in the order of the list, the clock reads of a chunk
    following those of the chunks before it; a chunk that is not a dict
    gives no row, and a list payload never raises. *)
Theorem list_payload_rows (chunks1 chunks2 : list pyval) (file : file_info)
    (t : nat) :
  exists rows1 rows2,
    all_rows_of py_repr clock (PList chunks1) file t = Some rows1 /\
    all_rows_of py_repr clock (PList chunks2) file (t + length rows1)
      = Some rows2 /\
    all_rows_of py_repr clock (PList (chunks1 ++ chunks2)) file t
      = Some (rows1 ++ rows2) /\
    (Forall (fun chunk => is_dict chunk = false) chunks1 -> rows1 = []).
Proof.
  eexists _, _. split; [reflexivity|]. split; [reflexivity|].
  split; [cbn [all_rows_of]; rewrite chunk_rows_app; reflexivity|].
  intros Hnone. revert t. induction Hnone as [|chunk chunks Hc _ IH]; intros t;
    [reflexivity|].
  destruct chunk; try discriminate; apply IH.
Qed.

(** X7: a key that is present with the value [None] ends the search of
    its chain: the column is empty in the row, whatever the aliases
    after it hold. *)
Theorem none_value_shadows_aliases (record item : gmap string pyval)
    (file : file_info) (now : string) (column : string) (lvl : level)
    (before after : list string) (key : string) :
  (column, lvl, before ++ key :: after) ∈ alias_table ->
  let source := match lvl with DocLevel => record | ItemLevel => item end in
  Forall (fun k => source !! k = None) before ->
  source !! key = Some PNone ->
  row_get (item_row py_repr (make_doc_data record) item file now) column "" = "".
Proof.
  intros Hin source Hbefore Hkey.
  rewrite (item_row_resolves py_repr record item file now column lvl _ Hin).
  fold source. clear Hin.
  induction Hbefore as [|k before Hk _ IH]; simpl.
  - rewrite Hkey. reflexivity.
  - rewrite Hk. exact IH.
Qed.

End NormalizerMore.

(** ** The store index, the retries and the counters of a run *)

Section RetryFacts.

Variable svc : services.

Lemma index_of_first name headers i :
  index_of name headers = Some i <->
  headers !! i = Some name /\ forall j, j < i -> headers !! j <> Some name.
Proof.
  revert i; induction headers as [|h headers IH]; intros i.
  - simpl. split; [discriminate | intros [H _]; discriminate].
  - simpl. destruct (String.eqb_spec h name) as [->|Hne].
    + split.
      * intros [= <-]. split; [reflexivity | intros j Hj; lia].
      * intros [Hi Hfirst]. destruct i as [|i]; [reflexivity|].
        destruct (Hfirst 0); [lia | reflexivity].
    + destruct i as [|i].
      * split.
        -- destruct (index_of name headers); discriminate.
        -- intros [[= ->] _]. destruct Hne; reflexivity.
      * specialize (IH i). split.
        -- intros H. destruct (index_of name headers) as [k|] eqn:E;
             [|discriminate].
           injection H as <-. destruct (proj1 IH eq_refl) as [Hk Hfirst].
           split; [exact Hk|]. intros [|j] Hj; simpl.
           ++ intros [= ->]. destruct Hne; reflexivity.
           ++ apply Hfirst; lia.
        -- intros [Hi Hfirst].
           rewrite (proj2 IH); [reflexivity|].
           split; [exact Hi|]. intros j Hj. apply (Hfirst (S j)). lia.
Qed.

(** X8: [get_existing_source_files] leaves the store as it is and
    returns exactly the non-empty cells that the data rows hold under
    the first [source_file] column of the header row; the set is empty
    when the read fails, the sheet is empty or the header has no such
    column. *)
Theorem get_existing_source_files_spec (w : world) :
  let r := get_existing_source_files svc w in
  sheet r.2 = sheet w /\
  forall name,
    name ∈ r.1 <->
    sheets_up svc (trace w) = true /\ name <> "" /\
    exists headers rows i row,
      sheet w = headers :: rows /\
      headers !! i = Some "source_file" /\
      (forall j, j < i -> headers !! j <> Some "source_file") /\
      row ∈ rows /\ row !! i = Some name.
Proof.
  cbv zeta. rewrite get_existing_source_files_eq. cbn [fst snd after sheet].
  split; [reflexivity|]. intros name.
  destruct (sheets_up svc (trace w)).
  - unfold existing_of_sheet. destruct (sheet w) as [|headers rows].
    + split; [intros H; inversion H|].
      intros (_ & _ & hs & rs & i & row & Hsheet & _). discriminate.
    + destruct (index_of "source_file" headers) as [i|] eqn:Ei.
      * rewrite existing_names_elem. split.
        -- intros (Hne & row & Hin & Hrow). split; [reflexivity|].
           split; [exact Hne|].
           apply index_of_first in Ei as [Hi Hfirst].
           exists headers, rows, i, row. auto.
        -- intros (_ & Hne & hs & rs & j & row & [= <- <-] & Hj & Hfirst & Hin & Hrow).
           split; [exact Hne|].
           assert (Ej : index_of "source_file" headers = Some j)
             by (apply index_of_first; auto).
           rewrite Ei in Ej. injection Ej as ->. eauto.
      * split; [intros H; inversion H|].
        intros (_ & _ & hs & rs & j & row & [= <- <-] & Hj & Hfirst & _).
        assert (Ej : index_of "source_file" headers = Some j)
          by (apply index_of_first; auto).
        rewrite Ei in Ej. discriminate.
  - split; [intros H; inversion H | intros [H _]; discriminate].
Qed.

(** X9: [append_to_google_sheet] calls the service at most three times
    and stops at the first call that succeeds, with a pause of two
    seconds after a failed call only when another call follows; it
    returns [True] exactly when a call succeeded, the rows then being
    added once at the end of the store, and otherwise leaves the store as
    it is. *)
Theorem append_to_google_sheet_outcomes (values : list (list string)) (w : world) :
  let r := append_to_google_sheet svc values w in
  (exists failures,
     failures <= 2 /\ r.1 = true /\ sheet r.2 = sheet w ++ values /\
     trace r.2 = trace w ++ failed_appends values failures
                   ++ [EvSheetsAppend values true]) \/
  (r.1 = false /\ sheet r.2 = sheet w /\
   trace r.2 = trace w ++ failed_appends values 2
                 ++ [EvSheetsAppend values false]).
Proof.
  cbv zeta. unfold append_to_google_sheet. cbn [append_attempts]. run_monad.
  destruct (sheets_up svc (trace w)) eqn:E1; cbn [fst snd sheet trace].
  { left. exists 0. repeat split; lia. }
  destruct (sheets_up svc _) eqn:E2 in |- *; cbn [fst snd sheet trace].
  { left. exists 1. repeat split; try lia.
    rewrite <- !app_assoc. reflexivity. }
  destruct (sheets_up svc _) eqn:E3 in |- *; cbn [fst snd sheet trace].
  { left. exists 2. repeat split; try lia.
    rewrite <- !app_assoc. reflexivity. }
  right. repeat split. rewrite <- !app_assoc. reflexivity.
Qed.

Lemma safe_extract_first_success data wait_time file failures : forall retries w,
  failures < retries ->
  agent_extract svc = stub_failing_first (extract_calls (trace w) + failures) data ->
  safe_extract svc file retries wait_time w
  = (Some data,
     after w (failed_attempts file wait_time failures ++ [EvExtract file true])).
Proof.
  unfold safe_extract.
  induction failures as [|k IH]; intros retries w Hlt Hstub;
    (destruct retries as [|n]; [lia|]);
    rewrite safe_extract_attempts_S, Hstub; unfold stub_failing_first.
  - destruct (Nat.ltb_spec (extract_calls (trace w))
                (extract_calls (trace w) + 0)); [lia | reflexivity].
  - destruct (Nat.ltb_spec (extract_calls (trace w))
                (extract_calls (trace w) + S k)); [|lia].
    rewrite IH, after_after; [reflexivity | lia |].
    rewrite Hstub. f_equal. unfold after; simpl.
    rewrite extract_calls_app.
    change (extract_calls [EvExtract file false; EvSleep wait_time]) with 1.
    lia.
Qed.

(** X10: for any number of retries, when the agent raises on its next
    [failures] calls and then returns, with [failures] below [retries],
    [safe_extract] returns that result after [failures + 1] calls and
    [failures] pauses, making no further call; with no retry allowed it
    raises without calling the agent. *)
Theorem safe_extract_stops_at_first_success (data : pyval) (file : file_info)
    (retries wait_time failures : nat) (w : world) :
  safe_extract svc file 0 wait_time w = (None, w) /\
  (failures < retries ->
   agent_extract svc
     = stub_failing_first (extract_calls (trace w) + failures) data ->
   safe_extract svc file retries wait_time w
   = (Some data,
      after w (failed_attempts file wait_time failures ++ [EvExtract file true]))
   /\
   extract_calls (trace (safe_extract svc file retries wait_time w).2)
   = extract_calls (trace w) + failures + 1).
Proof.
  split; [reflexivity|]. intros Hlt Hstub.
  rewrite (safe_extract_first_success data wait_time file failures retries w
             Hlt Hstub).
  split; [reflexivity|].
  cbn [snd after trace].
  rewrite !extract_calls_app, extract_calls_failed.
  change (extract_calls [EvExtract file true]) with 1. lia.
Qed.

End RetryFacts.

Section AccountFacts.

Variable py_repr : pyval -> string.
Variable svc : services.

Lemma downloads_app tr1 tr2 :
  downloads (tr1 ++ tr2) = downloads tr1 ++ downloads tr2.
Proof. apply omap_app. Qed.

Lemma safe_extract_attempts_trace attempts wait_time file : forall w,
  downloads (trace (safe_extract_attempts svc attempts wait_time file w).2)
    = downloads (trace w) /\
  extract_calls (trace (safe_extract_attempts svc attempts wait_time file w).2)
    <= extract_calls (trace w) + attempts.
Proof.
  induction attempts as [|n IH]; intros w; [cbn; split; [reflexivity | lia]|].
  rewrite safe_extract_attempts_S.
  destruct (agent_extract svc (trace w) file).
  - cbn [snd after trace]. rewrite downloads_app, extract_calls_app.
    cbn. rewrite app_nil_r. split; [reflexivity | lia].
  - destruct (IH (after w [EvExtract file false; EvSleep wait_time])) as [-> Hle].
    cbn [after trace] in *. rewrite downloads_app, extract_calls_app in *.
    cbn in *. rewrite app_nil_r. split; [reflexivity | lia].
Qed.

Lemma append_attempts_trace attempts values : forall w,
  downloads (trace (append_attempts svc attempts values w).2)
    = downloads (trace w) /\
  extract_calls (trace (append_attempts svc attempts values w).2)
    = extract_calls (trace w).
Proof.
  induction attempts as [|n IH]; intros w; [split; reflexivity|].
  simpl. run_monad.
  destruct (sheets_up svc (trace w)); cbn [snd trace].
  - rewrite downloads_app, extract_calls_app. cbn.
    rewrite app_nil_r. split; [reflexivity | lia].
  - destruct n as [|n]; cbn [snd trace].
    + rewrite downloads_app, extract_calls_app. cbn.
      rewrite app_nil_r. split; [reflexivity | lia].
    + match goal with |- context [append_attempts svc (S n) values ?w1] =>
        destruct (IH w1) as [-> ->] end.
      cbn [trace]. rewrite !downloads_app, !extract_calls_app. cbn.
      rewrite !app_nil_r. split; [reflexivity | lia].
Qed.

Lemma process_file_trace headers st file w :
  let r := process_file py_repr svc headers st file w in
  downloads (trace r.2) = downloads (trace w) ++ [file] /\
  extract_calls (trace r.2) <= extract_calls (trace w) + 3.
Proof.
  cbv zeta. rewrite process_file_eq. cbv zeta.
  assert (H1 : downloads (trace (after w [EvDownload file]))
               = downloads (trace w) ++ [file]).
  { cbn [after trace]. rewrite downloads_app. reflexivity. }
  assert (H2 : extract_calls (trace (after w [EvDownload file]))
               = extract_calls (trace w)).
  { cbn [after trace]. rewrite extract_calls_app. cbn. lia. }
  destruct (drive_download svc (trace w) file);
    [cbn [snd]; rewrite H1, H2; split; [reflexivity | lia]|].
  pose proof (safe_extract_attempts_trace 3 2 file (after w [EvDownload file]))
    as [Hd He].
  fold (safe_extract svc file 3 2) in Hd, He. rewrite H1 in Hd. rewrite H2 in He.
  destruct (safe_extract svc file 3 2 (after w [EvDownload file])) as [[data|] w2];
    cbn [fst snd] in *; [|split; assumption].
  destruct (all_rows_of py_repr (strftime svc) data file (clock_reads w2))
    as [[|row rows]|]; cbn [snd]; try (split; assumption).
  match goal with |- context [append_to_google_sheet svc ?values ?w3] =>
    pose proof (append_attempts_trace 3 values w3) as [Hd3 He3];
    fold (append_to_google_sheet svc values) in Hd3, He3;
    destruct (append_to_google_sheet svc values w3) as [ok w4]
  end. cbn [fst snd trace] in *. rewrite Hd3, He3. split; assumption.
Qed.

Lemma process_files_trace headers files : forall st w,
  let r := process_files py_repr svc headers st files w in
  downloads (trace r.2) = downloads (trace w) ++ files /\
  extract_calls (trace r.2) <= extract_calls (trace w) + 3 * length files.
Proof.
  induction files as [|file files IH]; intros st w; cbv zeta.
  - cbn. rewrite app_nil_r. split; [reflexivity | lia].
  - cbn [process_files]. rewrite bind_eq.
    pose proof (process_file_trace headers st file w) as [Hd He].
    destruct (process_file py_repr svc headers st file w) as [st1 w1].
    cbn [fst snd] in *.
    destruct (IH st1 w1) as [-> He2]. rewrite Hd, <- app_assoc.
    cbn [length]. split; [reflexivity | lia].
Qed.

(** The counters of the loop over the files. *)
Lemma process_files_counts headers files : forall st w,
  let r := process_files py_repr svc headers st files w in
  files_processed st <= rows_added st ->
  files_processed r.1 <= rows_added r.1.
Proof.
  induction files as [|file files IH]; intros st w; cbv zeta; [auto|].
  intros Hle. cbn [process_files]. rewrite bind_eq.
  pose proof (process_file_spec py_repr svc headers st file w) as Hfile.
  cbv zeta in Hfile.
  destruct (process_file py_repr svc headers st file w) as [st1 w1].
  cbn [fst snd] in *. apply IH.
  destruct Hfile as [[-> _] | (all_rows & Hne & -> & _)]; cbn; [exact Hle|].
  destruct all_rows; [destruct Hne; reflexivity|]. cbn [length]. lia.
Qed.

Lemma reconcile_headers_rows w :
  let w' := (reconcile_headers svc w).2 in
  (sheet w' = sheet w \/ exists header, sheet w' = header :: tl (sheet w)) /\
  downloads (trace w') = downloads (trace w) /\
  extract_calls (trace w') = extract_calls (trace w).
Proof.
  cbv zeta. rewrite reconcile_headers_read. cbv zeta.
  destruct (missing_columns _); cbn [snd after sheet trace].
  - rewrite downloads_app, extract_calls_app. cbn. rewrite app_nil_r.
    split; [left; reflexivity|]. split; [reflexivity | lia].
  - rewrite downloads_app, extract_calls_app. cbn. rewrite app_nil_r.
    split; [|split; [reflexivity | lia]].
    destruct (sheets_up svc (trace w ++ _) && range_in_window _);
      [right; eauto | left; reflexivity].
Qed.

(** The workflow, call by call, once the extraction agent is found. *)
Lemma workflow_run config w :
  llama_available svc = true -> agent_found svc = true ->
  process_drive_to_sheet_workflow py_repr svc config w =
    let e := if skip_existing config then get_existing_source_files svc w
             else (∅, w) in
    let st := Stats (length (drive_files svc)) 0 0
                (if skip_existing config
                 then length (drive_files svc) - length (not_ingested svc e.1)
                 else 0) 0 in
    match to_process svc config e.1 with
    | [] => (st, e.2)
    | pdf_file :: pdf_files' =>
        let r := reconcile_headers svc e.2 in
        process_files py_repr svc r.1 st (pdf_file :: pdf_files') r.2
    end.
Proof.
  intros Hllama Hagent. unfold process_drive_to_sheet_workflow, to_process.
  rewrite Hllama, Hagent. cbn [negb]. rewrite bind_eq. cbv zeta.
  destruct (skip_existing config).
  - fold (not_ingested svc (get_existing_source_files svc w).1).
    fold (capped config (not_ingested svc (get_existing_source_files svc w).1)).
    destruct (capped config _); [reflexivity|].
    rewrite bind_eq. reflexivity.
  - change ((mret ∅ : M (gset string)) w) with ((∅ : gset string), w).
    cbn [fst snd]. fold (capped config (drive_files svc)).
    destruct (capped config _); [reflexivity|].
    rewrite bind_eq. reflexivity.
Qed.

Lemma capped_uncapped config (files : list file_info) :
  max_files config = None -> capped config files = files.
Proof. unfold capped. intros ->. reflexivity. Qed.

Lemma get_existing_source_files_trace w :
  sheet (get_existing_source_files svc w).2 = sheet w /\
  downloads (trace (get_existing_source_files svc w).2) = downloads (trace w) /\
  extract_calls (trace (get_existing_source_files svc w).2)
    = extract_calls (trace w).
Proof.
  rewrite get_existing_source_files_eq. cbn [snd after sheet trace].
  rewrite downloads_app, extract_calls_app. cbn. rewrite app_nil_r.
  split; [reflexivity|]. split; [reflexivity | lia].
Qed.

(** X11: the counters a run returns.  Without the extraction library or
    the agent the run does nothing and returns zeros.  Otherwise
    [files_found] is the number of files listed; every file is counted
    at most once as processed, failed or skipped, and exactly once when
    there is no cap; nothing is skipped when [skip_existing] is off;
    every processed file added at least one row; and [rows_added] is the
    number of rows that the run added at the end of the store, whose
    rows below the header it leaves as they were. *)
Theorem workflow_accounting (config : run_config) (w : world) :
  let r := process_drive_to_sheet_workflow py_repr svc config w in
  (llama_available svc && agent_found svc = false -> r = (stats0, w)) /\
  (llama_available svc && agent_found svc = true ->
   files_found r.1 = length (drive_files svc) /\
   files_processed r.1 + files_failed r.1 + files_skipped r.1
     <= files_found r.1 /\
   (max_files config = None ->
    files_processed r.1 + files_failed r.1 + files_skipped r.1
      = files_found r.1) /\
   (skip_existing config = false -> files_skipped r.1 = 0) /\
   files_processed r.1 <= rows_added r.1 /\
   exists appended,
     length appended = rows_added r.1 /\
     (sheet r.2 = sheet w ++ appended \/
      exists header, sheet r.2 = header :: tl (sheet w) ++ appended)).
Proof.
  cbv zeta. split.
  - unfold process_drive_to_sheet_workflow.
    destruct (llama_available svc); [|reflexivity].
    destruct (agent_found svc); [discriminate | reflexivity].
  - intros Hboth. apply andb_true_iff in Hboth as [Hllama Hagent].
    rewrite (workflow_run config w Hllama Hagent). cbv zeta.
    set (e := if skip_existing config then get_existing_source_files svc w
              else (∅, w)).
    assert (He : sheet e.2 = sheet w).
    { subst e. destruct (skip_existing config); [|reflexivity].
      apply get_existing_source_files_trace. }
    set (skipped := if skip_existing config
                    then length (drive_files svc) - length (not_ingested svc e.1)
                    else 0).
    assert (Hlen : length (to_process svc config e.1) + skipped
                   <= length (drive_files svc) /\
                   (max_files config = None ->
                    length (to_process svc config e.1) + skipped
                    = length (drive_files svc))).
    { subst skipped. unfold to_process.
      pose proof (not_ingested_length svc e.1) as Hni.
      destruct (skip_existing config).
      - pose proof (capped_length config (not_ingested svc e.1)) as Hc.
        split; [lia|]. intros Hnone. rewrite (capped_uncapped _ _ Hnone). lia.
      - pose proof (capped_length config (drive_files svc)) as Hc.
        split; [lia|]. intros Hnone. rewrite (capped_uncapped _ _ Hnone). lia. }
    assert (Hoff : skip_existing config = false -> skipped = 0).
    { subst skipped. intros ->. reflexivity. }
    destruct Hlen as [Hle Heq].
    destruct (to_process svc config e.1) as [|pdf_file pdf_files'] eqn:Eto.
    + cbn [fst snd files_found files_processed files_failed files_skipped
           rows_added length] in *.
      split; [reflexivity|]. split; [lia|].
      split; [intros Hnone; specialize (Heq Hnone); lia|].
      split; [exact Hoff|]. split; [lia|].
      exists []. split; [reflexivity|]. left. rewrite app_nil_r. exact He.
    + pose proof (reconcile_headers_rows e.2) as [Hrows _]. cbv zeta in Hrows.
      rewrite He in Hrows.
      set (r := reconcile_headers svc e.2) in *.
      set (st := Stats (length (drive_files svc)) 0 0 skipped 0).
      pose proof (process_files_spec py_repr svc r.1 (pdf_file :: pdf_files')
                    st r.2) as Hspec.
      pose proof (process_files_counts r.1 (pdf_file :: pdf_files') st r.2)
        as Hcount.
      cbv zeta in Hspec, Hcount.
      destruct (process_files py_repr svc r.1 st (pdf_file :: pdf_files') r.2)
        as [st' w'].
      cbn [fst snd] in *.
      destruct Hspec as (appended & Hsh & Hfound & Hskip & Hsum & _ & Hadded & _).
      subst st. cbn [files_found files_processed files_failed files_skipped
                     rows_added] in *.
      rewrite Hfound, Hskip.
      split; [reflexivity|]. split; [lia|].
      split; [intros Hnone; specialize (Heq Hnone); lia|].
      split; [exact Hoff|]. split; [apply Hcount; lia|].
      exists appended. split; [lia|].
      rewrite Hsh. destruct Hrows as [-> | [header ->]];
          [left; reflexivity | right; exists header; reflexivity].
Qed.

Lemma workflow_trace config w :
  llama_available svc = true -> agent_found svc = true ->
  let r := process_drive_to_sheet_workflow py_repr svc config w in
  let existing := if skip_existing config
                  then (get_existing_source_files svc w).1 else ∅ in
  downloads (trace r.2)
    = downloads (trace w) ++ to_process svc config existing /\
  extract_calls (trace r.2)
    <= extract_calls (trace w) + 3 * length (to_process svc config existing).
Proof.
  intros Hllama Hagent. cbv zeta.
  rewrite (workflow_run config w Hllama Hagent). cbv zeta.
  set (e := if skip_existing config then get_existing_source_files svc w
            else (∅, w)).
  assert (He : e.1 = (if skip_existing config
                      then (get_existing_source_files svc w).1 else ∅) /\
               downloads (trace e.2) = downloads (trace w) /\
               extract_calls (trace e.2) = extract_calls (trace w)).
  { subst e. destruct (skip_existing config); [|repeat split].
    split; [reflexivity|]. apply get_existing_source_files_trace. }
  destruct He as (He1 & Hd & Hx). rewrite <- He1.
  destruct (to_process svc config e.1) as [|pdf_file pdf_files'].
  - cbn [snd length]. rewrite Hd, Hx, app_nil_r. split; [reflexivity | lia].
  - pose proof (reconcile_headers_rows e.2) as (_ & Hd2 & Hx2). cbv zeta in Hd2, Hx2.
    pose proof (process_files_trace (reconcile_headers svc e.2).1
                  (pdf_file :: pdf_files')
                  (Stats (length (drive_files svc)) 0 0
                     (if skip_existing config
                      then length (drive_files svc)
                           - length (not_ingested svc e.1)
                      else 0) 0)
                  (reconcile_headers svc e.2).2) as [Hd3 Hx3].
    cbv zeta in Hd3, Hx3. rewrite Hd3, Hd2, Hd. split; [reflexivity|].
    rewrite Hx2, Hx in Hx3. exact Hx3.
Qed.

Lemma py_slice_to_elem {A} n (l : list A) x : x ∈ py_slice_to n l -> x ∈ l.
Proof.
  unfold py_slice_to. intros Hin.
  destruct (0 <=? n)%Z;
    [rewrite <- (take_drop (Z.to_nat n) l)
    |rewrite <- (take_drop (length l - Z.to_nat (- n)) l)];
    apply elem_of_app; left; exact Hin.
Qed.

Lemma to_process_elem config existing file :
  file ∈ to_process svc config existing ->
  file ∈ drive_files svc /\
  (skip_existing config = true -> fi_name file ∉ existing).
Proof.
  unfold to_process, capped. intros Hin.
  assert (Hin' : file ∈ (if skip_existing config
                         then not_ingested svc existing else drive_files svc))
    by (destruct (max_files config); [eapply py_slice_to_elem|]; exact Hin).
  clear Hin. destruct (skip_existing config).
  - unfold not_ingested in Hin'. apply list_elem_of_In, filter_In in Hin'.
    destruct Hin' as [Hin Hnew]. apply bool_decide_eq_true in Hnew.
    split; [apply list_elem_of_In; exact Hin | intros _; exact Hnew].
  - split; [exact Hin' | discriminate].
Qed.

(** X12: a run downloads exactly the candidates left by the filter and
    the cap, each once and in the order in which they were listed; these
    are listed files, none of which is named in the index read from the
    store when the filter is on; and the run calls the extraction agent
    at most three times for each of them. *)
Theorem workflow_downloads_candidates (config : run_config) (w : world) :
  llama_available svc = true -> agent_found svc = true ->
  let r := process_drive_to_sheet_workflow py_repr svc config w in
  let existing := if skip_existing config
                  then (get_existing_source_files svc w).1 else ∅ in
  downloads (trace r.2)
    = downloads (trace w) ++ to_process svc config existing /\
  (forall file,
     file ∈ to_process svc config existing ->
     file ∈ drive_files svc /\
     (skip_existing config = true -> fi_name file ∉ existing)) /\
  extract_calls (trace r.2)
    <= extract_calls (trace w) + 3 * length (to_process svc config existing).
Proof.
  intros Hllama Hagent. cbv zeta.
  destruct (workflow_trace config w Hllama Hagent) as [Hd Hx].
  split; [exact Hd|]. split; [|exact Hx].
  intros file. apply to_process_elem.
Qed.

Lemma not_ingested_empty : not_ingested svc ∅ = drive_files svc.
Proof.
  unfold not_ingested. induction (drive_files svc) as [|f fs IH]; [reflexivity|].
  cbn [List.filter]. rewrite bool_decide_eq_true_2 by set_solver.
  rewrite IH. reflexivity.
Qed.

(** X13: when the read of the store fails, the filter is given the empty
    set: the run skips nothing and downloads every listed file up to the
    cap, whatever the store holds. *)
Theorem failed_read_disables_filter (config : run_config) (w : world) :
  llama_available svc = true -> agent_found svc = true ->
  skip_existing config = true ->
  sheets_up svc (trace w) = false ->
  let r := process_drive_to_sheet_workflow py_repr svc config w in
  files_skipped r.1 = 0 /\
  downloads (trace r.2) = downloads (trace w) ++ capped config (drive_files svc).
Proof.
  intros Hllama Hagent Hskip Hdown. cbv zeta.
  pose proof (workflow_trace config w Hllama Hagent) as [Hd _]. cbv zeta in Hd.
  assert (Hex : (get_existing_source_files svc w).1 = ∅).
  { rewrite get_existing_source_files_eq, Hdown. reflexivity. }
  rewrite Hskip, Hex in Hd. unfold to_process in Hd.
  rewrite Hskip, not_ingested_empty in Hd. split; [|exact Hd].
  rewrite (workflow_run config w Hllama Hagent). cbv zeta.
  rewrite Hskip, Hex, not_ingested_empty, Nat.sub_diag.
  destruct (to_process svc config ∅) as [|pdf_file pdf_files']; [reflexivity|].
  match goal with |- context [process_files py_repr svc ?h ?st ?fs ?w1] =>
    pose proof (process_files_spec py_repr svc h fs st w1) as Hspec end.
  cbv zeta in Hspec. destruct Hspec as (_ & _ & _ & Hs & _). exact Hs.
Qed.

End AccountFacts.

(** ** The listing of the Drive folder *)

Lemma list_pages_eq reply : forall files,
  list_pages files reply
  = if page_raises reply then [] else files ++ page_files reply.
Proof.
  induction reply as [|page|page next IH]; intros files; cbn; auto.
  rewrite IH, <- app_assoc. reflexivity.
Qed.

(** X21: [list_drive_files] returns the files of all the pages, in the
    order of the pages, when no call raises; when the call for any page
    raises it returns no file at all, whatever the pages before held. *)
Theorem list_drive_files_all_or_nothing (reply : page_reply) :
  list_drive_files reply
  = if page_raises reply then [] else page_files reply.
Proof. unfold list_drive_files. rewrite list_pages_eq. reflexivity. Qed.

(** ** The mail harvester *)

Ltac run_mail :=
  unfold mbind, Mail_bind, mret, Mail_ret, get_mail_world, mail_emit, create_file;
  simpl; cbn [drive mail_trace].

Section HarvesterFacts.

Variable svc : mail_services.

Lemma mail_bind_eq {A B} (m : Mail A) (f : A -> Mail B) w :
  (m ≫= f) w = f (m w).1 (m w).2.
Proof. unfold mbind, Mail_bind. destruct (m w); reflexivity. Qed.

Lemma mime_part_induction (P : mime_part -> Prop) :
  (forall parts, Forall P parts -> P (Multipart parts)) ->
  (forall filename attachment_id, P (Part filename attachment_id)) ->
  forall payload, P payload.
Proof.
  intros Hmulti Hpart.
  fix IH 1. intros [parts | filename attachment_id].
  - apply Hmulti. induction parts as [|part parts IHparts]; constructor.
    + apply IH.
    + exact IHparts.
  - apply Hpart.
Qed.

(** [upload_to_drive], call by call. *)
Lemma upload_to_drive_eq file_data filename folder_id w :
  upload_to_drive svc file_data filename folder_id w =
    let listed := drive_list_up svc (mail_trace w) filename folder_id in
    let tr := mail_trace w ++ [EvDriveList filename folder_id listed] in
    if listed then
      match List.filter (named_in filename folder_id) (drive w) with
      | _ :: _ => (true, MailWorld (drive w) tr)
      | [] =>
          if drive_create_up svc tr filename folder_id
          then (true,
                MailWorld
                  (drive w ++ [DriveFile filename
                                 match folder_id with
                                 | EmptyString => []
                                 | _ => [folder_id]
                                 end file_data])
                  (tr ++ [EvDriveCreate filename folder_id true]))
          else (false,
                MailWorld (drive w)
                  (tr ++ [EvDriveCreate filename folder_id false]))
      end
    else (false, MailWorld (drive w) tr).
Proof.
  unfold upload_to_drive. run_mail.
  destruct (drive_list_up svc (mail_trace w) filename folder_id); [|reflexivity].
  destruct (List.filter (named_in filename folder_id) (drive w)); [|reflexivity].
  destruct (drive_create_up svc _ filename folder_id); reflexivity.
Qed.

Lemma names_in_app folder_id files more :
  names_in folder_id (files ++ more)
  = names_in folder_id files ++ names_in folder_id more.
Proof. unfold names_in. rewrite List.filter_app, List.map_app. reflexivity. Qed.

Lemma named_in_none filename folder_id files :
  List.filter (named_in filename folder_id) files = [] ->
  filename ∉ names_in folder_id files.
Proof.
  unfold names_in. induction files as [|file files IH]; intros Hnone Hin;
    [inversion Hin|].
  cbn [List.filter] in Hnone, Hin. unfold named_in in Hnone at 1.
  destruct (existsb (String.eqb folder_id) (df_parents file)).
  - cbn [List.map] in Hin. rewrite andb_true_r in Hnone.
    destruct (String.eqb_spec (df_name file) filename) as [Heq|Hne];
      [discriminate|].
    apply elem_of_cons in Hin as [Heq | Hin];
      [congruence | exact (IH Hnone Hin)].
  - rewrite andb_false_r in Hnone. exact (IH Hnone Hin).
Qed.

Lemma named_in_some filename folder_id files :
  List.filter (named_in filename folder_id) files <> [] ->
  filename ∈ names_in folder_id files.
Proof.
  unfold names_in. induction files as [|file files IH]; intros Hsome;
    [destruct Hsome; reflexivity|].
  cbn [List.filter] in Hsome |- *. unfold named_in in Hsome at 1.
  destruct (existsb (String.eqb folder_id) (df_parents file)).
  - cbn [List.map]. rewrite andb_true_r in Hsome.
    destruct (String.eqb_spec (df_name file) filename) as [Heq|Hne].
    + rewrite Heq. left.
    + right. exact (IH Hsome).
  - rewrite andb_false_r in Hsome. exact (IH Hsome).
Qed.

Lemma names_in_created file_data filename folder_id :
  folder_id <> "" ->
  names_in folder_id
    [DriveFile filename
       match folder_id with EmptyString => [] | _ => [folder_id] end file_data]
  = [filename].
Proof.
  intros Hne. destruct folder_id as [|c s]; [destruct Hne; reflexivity|].
  unfold names_in. cbn [List.filter df_parents existsb].
  rewrite String.eqb_refl. reflexivity.
Qed.

Lemma fetched_app tr1 tr2 : fetched (tr1 ++ tr2) = fetched tr1 ++ fetched tr2.
Proof. apply omap_app. Qed.

Lemma failed_fetches_app tr1 tr2 :
  failed_fetches (tr1 ++ tr2) = failed_fetches tr1 + failed_fetches tr2.
Proof.
  unfold failed_fetches. rewrite List.filter_app, List.length_app. reflexivity.
Qed.

Lemma attachment_calls_app tr1 tr2 :
  attachment_calls (tr1 ++ tr2) = attachment_calls tr1 + attachment_calls tr2.
Proof.
  unfold attachment_calls. rewrite List.filter_app, List.length_app. reflexivity.
Qed.

(** An upload makes none of the calls on Gmail. *)
Lemma upload_to_drive_trace file_data filename folder_id w :
  let w' := (upload_to_drive svc file_data filename folder_id w).2 in
  fetched (mail_trace w') = fetched (mail_trace w) /\
  failed_fetches (mail_trace w') = failed_fetches (mail_trace w) /\
  attachment_calls (mail_trace w') = attachment_calls (mail_trace w).
Proof.
  cbv zeta. rewrite upload_to_drive_eq. cbv zeta.
  destruct (drive_list_up svc (mail_trace w) filename folder_id);
    [destruct (List.filter (named_in filename folder_id) (drive w));
       [destruct (drive_create_up svc _ filename folder_id)|]|];
    cbn [snd mail_trace];
    rewrite ?fetched_app, ?failed_fetches_app, ?attachment_calls_app;
    cbn; rewrite ?app_nil_r; repeat split; lia.
Qed.

(** What an upload does to the folder. *)
Lemma upload_to_drive_folder file_data filename folder_id w :
  let r := upload_to_drive svc file_data filename folder_id w in
  (r.1 = true -> folder_id <> "" -> filename ∈ names_in folder_id (drive r.2)) /\
  (r.1 = false -> drive r.2 = drive w) /\
  (filename ∈ names_in folder_id (drive w) -> drive r.2 = drive w) /\
  (drive r.2 = drive w \/
   (r.1 = true /\ (filename ∉ names_in folder_id (drive w)) /\
    drive r.2
    = drive w ++ [DriveFile filename (folder_parents folder_id) file_data])) /\
  (folder_id <> "" -> NoDup (names_in folder_id (drive w)) ->
   NoDup (names_in folder_id (drive r.2))).
Proof.
  cbv zeta. rewrite upload_to_drive_eq. cbv zeta.
  pose proof (names_in_created file_data filename folder_id) as Hcreated.
  fold (folder_parents folder_id) in *.
  destruct (drive_list_up svc (mail_trace w) filename folder_id);
    cbn [fst snd drive];
    [|repeat split; auto; discriminate].
  destruct (List.filter (named_in filename folder_id) (drive w))
    as [|file files] eqn:Efiles; cbn [fst snd drive].
  - apply named_in_none in Efiles.
    destruct (drive_create_up svc _ filename folder_id); cbn [fst snd drive];
      [|repeat split; auto; discriminate].
    split; [intros _ Hfolder; rewrite names_in_app, (Hcreated Hfolder);
            set_solver|].
    split; [discriminate|].
    split; [intros Hin; destruct (Efiles Hin)|].
    split; [right; auto|].
    intros Hfolder Hnodup. rewrite names_in_app, (Hcreated Hfolder).
    apply NoDup_app. split; [exact Hnodup|].
    split; [|apply NoDup_singleton].
    intros name Hin Hname. apply list_elem_of_singleton in Hname as ->.
    exact (Efiles Hin).
  - split; [intros _ _; apply named_in_some; rewrite Efiles; discriminate|].
    repeat split; auto; discriminate.
Qed.

Lemma harvested_from_app_l folder_id attachment_filter names more file :
  harvested_from folder_id attachment_filter names file ->
  harvested_from folder_id attachment_filter (names ++ more) file.
Proof.
  intros (Hp & n & Hin & Hpass & Hname). split; [exact Hp|].
  exists n. split; [apply elem_of_app; left; exact Hin | auto].
Qed.

Lemma harvested_from_app_r folder_id attachment_filter names more file :
  harvested_from folder_id attachment_filter more file ->
  harvested_from folder_id attachment_filter (names ++ more) file.
Proof.
  intros (Hp & n & Hin & Hpass & Hname). split; [exact Hp|].
  exists n. split; [apply elem_of_app; right; exact Hin | auto].
Qed.

Lemma harvest_nil folder_id attachment_filter w :
  harvest folder_id attachment_filter [] no_attachments w w.
Proof.
  unfold harvest. cbn. do 7 (split; [solve [auto | lia]|]).
  exists []. rewrite app_nil_r. split; [reflexivity|].
  split; [cbn; lia | constructor].
Qed.

Lemma harvest_app folder_id attachment_filter names1 names2 s1 s2 w w1 w2 :
  harvest folder_id attachment_filter names1 s1 w w1 ->
  harvest folder_id attachment_filter names2 s2 w1 w2 ->
  harvest folder_id attachment_filter (names1 ++ names2)
    (add_part_stats s1 s2) w w2.
Proof.
  intros (Ht1 & Hs1 & Hsum1 & Ha1 & Hf1 & Hff1 & Hu1 & c1 & Hd1 & Hl1 & Hc1)
         (Ht2 & Hs2 & Hsum2 & Ha2 & Hf2 & Hff2 & Hu2 & c2 & Hd2 & Hl2 & Hc2).
  unfold harvest. cbn [add_part_stats stat_total stat_skipped stat_success
                       stat_failed].
  rewrite List.filter_app, !List.length_app.
  split; [lia|]. split; [lia|]. split; [lia|]. split; [lia|].
  split; [congruence|]. split; [congruence|]. split; [auto|].
  exists (c1 ++ c2). rewrite Hd2, Hd1, <- app_assoc, List.length_app.
  split; [reflexivity|]. split; [lia|].
  apply Forall_app. split.
  - eapply Forall_impl; [exact Hc1|]. intros f; apply harvested_from_app_l.
  - eapply Forall_impl; [exact Hc2|]. intros f; apply harvested_from_app_r.
Qed.

(** The visit of a payload. *)
Lemma extract_attachments_harvest message_id folder_id attachment_filter :
  forall payload w,
    let r := extract_attachments_from_email svc message_id payload folder_id
               attachment_filter w in
    harvest folder_id attachment_filter (attachments payload) r.1 w r.2.
Proof.
  intros payload.
  induction payload as [parts IH | filename attachment_id]
    using mime_part_induction; intros w; cbv zeta.
  - cbn [extract_attachments_from_email attachments].
    assert (Hloop : forall stats w0 names,
      harvest folder_id attachment_filter names stats w w0 ->
      let r := (fix loop (parts : list mime_part) (stats : attachment_stats)
                  : Mail attachment_stats :=
                  match parts with
                  | [] => mret stats
                  | part :: parts' =>
                      part_stats ← extract_attachments_from_email svc message_id
                                     part folder_id attachment_filter;
                      loop parts' (add_part_stats stats part_stats)
                  end) parts stats w0 in
      harvest folder_id attachment_filter
        (names ++ List.flat_map attachments parts) r.1 w r.2).
    { induction IH as [|part parts Hpart _ IHparts]; intros stats w0 names Hacc.
      - cbn. rewrite app_nil_r. exact Hacc.
      - cbv zeta. rewrite mail_bind_eq. cbn [List.flat_map].
        rewrite app_assoc. apply IHparts.
        eapply harvest_app; [exact Hacc | apply Hpart]. }
    apply (Hloop no_attachments w []). apply harvest_nil.
  - destruct filename as [|c name]; [apply harvest_nil|].
    destruct attachment_id as [attachment_id|]; [|apply harvest_nil].
    cbn [extract_attachments_from_email attachments].
    set (filename := String c name).
    assert (Hpass : (match attachment_filter with
                     | EmptyString => false | _ => true end
                     && negb (PyText.contains (PyText.lower attachment_filter)
                                (PyText.lower filename)))
                    = negb (passes_filter attachment_filter filename)).
    { unfold passes_filter. destruct attachment_filter; reflexivity. }
    rewrite Hpass.
    destruct (passes_filter attachment_filter filename) eqn:Epass; cbn [negb].
    + run_mail.
      destruct (gmail_attachment svc (mail_trace w) message_id attachment_id)
        as [| |file_data].
      1,2: unfold harvest; cbn [fst snd one_failed stat_total stat_skipped
             stat_success stat_failed drive mail_trace List.filter length];
           rewrite Epass, fetched_app, failed_fetches_app, attachment_calls_app;
           cbn; rewrite app_nil_r;
           do 7 (split; [solve [auto | lia]|]);
           exists []; rewrite app_nil_r; split; [reflexivity|];
           split; [cbn; lia | constructor].
      set (w1 := MailWorld (drive w)
                   (mail_trace w ++ [EvGmailAttachment message_id attachment_id])).
      pose proof (upload_to_drive_folder file_data
                    (Filename.sanitize_filename filename) folder_id w1)
        as (_ & Hfalse & _ & Hgrow & Hnodup).
      pose proof (upload_to_drive_trace file_data
                    (Filename.sanitize_filename filename) folder_id w1)
        as (Hf & Hff & Hac).
      cbv zeta in *.
      destruct (upload_to_drive svc file_data
                  (Filename.sanitize_filename filename) folder_id w1)
        as [ok w2].
      cbn [fst snd] in *.
      assert (Hf1 : fetched (mail_trace w1) = fetched (mail_trace w))
        by (subst w1; cbn [mail_trace]; rewrite fetched_app; cbn;
            apply app_nil_r).
      assert (Hff1 : failed_fetches (mail_trace w1) = failed_fetches (mail_trace w))
        by (subst w1; cbn [mail_trace]; rewrite failed_fetches_app; cbn; lia).
      assert (Hac1 : attachment_calls (mail_trace w1)
                     = attachment_calls (mail_trace w) + 1)
        by (subst w1; cbn [mail_trace]; rewrite attachment_calls_app;
            reflexivity).
      change (drive w1) with (drive w) in *.
      destruct ok; unfold harvest;
        cbn [fst snd one_failed one_success stat_total stat_skipped
             stat_success stat_failed List.filter length];
        rewrite Epass; cbn [negb length].
      * split; [reflexivity|]. split; [reflexivity|]. split; [reflexivity|].
        split; [lia|]. split; [congruence|]. split; [congruence|].
        split; [exact Hnodup|].
        destruct Hgrow as [Hsame | (_ & _ & Hadd)].
        -- exists []. rewrite app_nil_r. split; [exact Hsame|].
           split; [cbn; lia | constructor].
        -- eexists. split; [exact Hadd|]. split; [cbn; lia|].
           constructor; [|constructor].
           split; [reflexivity|]. exists filename.
           split; [left|]. split; [exact Epass | reflexivity].
      * split; [reflexivity|]. split; [reflexivity|]. split; [reflexivity|].
        split; [lia|]. split; [congruence|]. split; [congruence|].
        split; [exact Hnodup|].
        exists []. rewrite app_nil_r. split; [exact (Hfalse eq_refl)|].
        split; [cbn; lia | constructor].
    + unfold harvest. run_mail. rewrite Epass. cbn.
      do 7 (split; [solve [auto | lia]|]).
      exists []. rewrite app_nil_r. split; [reflexivity|].
      split; [cbn; lia | constructor].
Qed.

(** The body of the loop over the messages, call by call. *)
Lemma process_email_eq config total email_id w :
  process_email svc config total email_id w =
    let reply := gmail_metadata svc (mail_trace w) email_id in
    let w1 := MailWorld (drive w)
                (mail_trace w
                   ++ [EvGmailMetadata email_id
                         (if reply is Some _ then true else false)]) in
    match reply with
    | None => (total, w1)
    | Some headers =>
        if subject_wanted headers then
          let message := gmail_message svc (mail_trace w1) email_id in
          let w2 := MailWorld (drive w)
                      (mail_trace w1
                         ++ [EvGmailMessage email_id
                               (if message is Some _ then true else false)]) in
          match message with
          | None => (add_failed_upload total, w2)
          | Some None => (total, w2)
          | Some (Some payload) =>
              let r := extract_attachments_from_email svc email_id payload
                         (gdrive_folder_id config) (attachment_filter config) w2 in
              (add_attachment_stats total r.1, r.2)
          end
        else (total, w1)
    end.
Proof.
  unfold process_email, get_email_details, subject_wanted.
  set (extract := extract_attachments_from_email svc email_id).
  run_mail.
  destruct (gmail_metadata svc (mail_trace w) email_id) as [headers|];
    [|reflexivity].
  cbn [detail_subject].
  destruct (PyText.codes_contain _ (PyText.upper _)); [reflexivity|].
  cbn [negb andb].
  destruct (PyText.codes_contain _ (PyText.upper _)); [|reflexivity].
  cbn [negb].
  destruct (gmail_message svc _ email_id) as [[payload|]|]; try reflexivity.
  destruct (extract payload _ _ _) as [stats w3]. reflexivity.
Qed.

Lemma mail_run_refl folder_id attachment_filter total w w' :
  drive w' = drive w ->
  failed_fetches (mail_trace w') = failed_fetches (mail_trace w) ->
  mail_run folder_id attachment_filter total total w w'.
Proof.
  intros Hd Hf. unfold mail_run. rewrite Hd, Hf.
  do 5 (split; [solve [auto | lia]|]).
  exists []. rewrite app_nil_r. split; [reflexivity|].
  split; [cbn; lia | constructor].
Qed.

Lemma mail_run_trans folder_id attachment_filter t1 t2 t3 w1 w2 w3 :
  mail_run folder_id attachment_filter t1 t2 w1 w2 ->
  mail_run folder_id attachment_filter t2 t3 w2 w3 ->
  mail_run folder_id attachment_filter t1 t3 w1 w3.
Proof.
  intros (Hs1 & Ht1 & Hf1 & Hk1 & Hu1 & c1 & Hd1 & Hl1 & Hc1)
         (Hs2 & Ht2 & Hf2 & Hk2 & Hu2 & c2 & Hd2 & Hl2 & Hc2).
  unfold mail_run.
  split; [lia|]. split; [lia|]. split; [lia|].
  split; [intros Hnone; rewrite (Hk2 Hnone); auto|].
  split; [auto|].
  exists (c1 ++ c2). rewrite Hd2, Hd1, <- app_assoc, List.length_app.
  split; [reflexivity|]. split; [lia|].
  apply Forall_app; split; assumption.
Qed.

Lemma filter_rejects_none names :
  List.filter (fun n => negb (passes_filter "" n)) names = [].
Proof. induction names; [reflexivity | exact IHnames]. Qed.

Lemma process_email_run config total email_id w :
  let r := process_email svc config total email_id w in
  mail_run (gdrive_folder_id config) (attachment_filter config) total r.1 w r.2.
Proof.
  cbv zeta. rewrite process_email_eq. cbv zeta.
  destruct (gmail_metadata svc (mail_trace w) email_id) as [headers|];
    [|apply mail_run_refl; cbn [snd drive mail_trace];
      [reflexivity | rewrite failed_fetches_app; cbn; lia]].
  destruct (subject_wanted headers);
    [|apply mail_run_refl; cbn [snd drive mail_trace];
      [reflexivity | rewrite failed_fetches_app; cbn; lia]].
  destruct (gmail_message svc _ email_id) as [[payload|]|] eqn:Emsg.
  - match goal with
    |- context [extract_attachments_from_email svc email_id payload ?f ?a ?w2] =>
      pose proof (extract_attachments_harvest email_id f a payload w2) as Hh
    end.
    cbv zeta in Hh.
    destruct (extract_attachments_from_email svc email_id payload _ _ _)
      as [stats w3].
    cbn [fst snd] in *.
    destruct Hh as (Ht & Hs & Hsum & _ & _ & Hff & Hu & created & Hd & Hl & Hc).
    cbn [drive mail_trace] in *.
    rewrite !failed_fetches_app in Hff. cbn in Hff.
    unfold mail_run.
    cbn [add_attachment_stats total_attachments successful_uploads
         skipped_attachments failed_uploads].
    split; [lia|]. split; [lia|]. split; [lia|].
    split; [intros Hnone; rewrite Hs, Hnone, filter_rejects_none; cbn; lia|].
    split; [exact Hu|].
    exists created. split; [exact Hd|]. split; [lia|].
    eapply Forall_impl; [exact Hc|].
    intros f (Hp & n & _ & Hpass & Hname). split; [exact Hp | eauto].
  - apply mail_run_refl; cbn [snd drive mail_trace]; [reflexivity|].
    rewrite !failed_fetches_app. cbn. lia.
  - unfold mail_run.
    cbn [snd drive mail_trace add_failed_upload total_attachments
         successful_uploads skipped_attachments failed_uploads].
    rewrite !failed_fetches_app. cbn.
    do 5 (split; [solve [auto | lia]|]).
    exists []. rewrite app_nil_r. split; [reflexivity|].
    split; [cbn; lia | constructor].
Qed.

Lemma process_emails_run config emails : forall total w,
  let r := process_emails svc config total emails w in
  mail_run (gdrive_folder_id config) (attachment_filter config) total r.1 w r.2.
Proof.
  induction emails as [|email emails IH]; intros total w; cbv zeta.
  - apply mail_run_refl; reflexivity.
  - cbn [process_emails]. rewrite mail_bind_eq.
    eapply mail_run_trans; [apply process_email_run | apply IH].
Qed.

(** The workflow, call by call. *)
Lemma mail_workflow_eq config w :
  process_mail_to_drive_workflow svc config w =
    match gmail_search svc with
    | [] => (MailResult true 0 0 0 0 0, w)
    | emails =>
        match gdrive_folder_id config with
        | EmptyString => (MailResult false (length emails) 0 0 0 0, w)
        | _ =>
            let r := process_emails svc config (TotalStats 0 0 0 0) emails w in
            (MailResult true (length emails) (total_attachments r.1)
               (skipped_attachments r.1) (successful_uploads r.1)
               (failed_uploads r.1), r.2)
        end
    end.
Proof.
  unfold process_mail_to_drive_workflow.
  destruct (gmail_search svc) as [|email emails]; [reflexivity|].
  destruct (gdrive_folder_id config); [reflexivity|].
  rewrite mail_bind_eq. reflexivity.
Qed.

Lemma mail_workflow_run config w :
  let r := process_mail_to_drive_workflow svc config w in
  mail_run (gdrive_folder_id config) (attachment_filter config)
    (TotalStats 0 0 0 0)
    (TotalStats (attachments_found r.1) (attachments_uploaded r.1)
       (attachments_skipped r.1) (upload_failed r.1)) w r.2.
Proof.
  cbv zeta. rewrite mail_workflow_eq.
  destruct (gmail_search svc) as [|email emails];
    [apply mail_run_refl; reflexivity|].
  destruct (gdrive_folder_id config) eqn:Efolder;
    [apply mail_run_refl; reflexivity|].
  cbv zeta. cbn [fst snd attachments_found attachments_uploaded
                 attachments_skipped upload_failed].
  rewrite <- Efolder.
  pose proof (process_emails_run config (email :: emails) (TotalStats 0 0 0 0) w)
    as Hrun.
  cbv zeta in Hrun.
  destruct (process_emails svc config (TotalStats 0 0 0 0) (email :: emails) w)
    as [[found uploaded skipped failed] w'].
  exact Hrun.
Qed.

Lemma named_in_elem filename folder_id files :
  filename ∈ names_in folder_id files ->
  List.filter (named_in filename folder_id) files <> [].
Proof.
  intros Hin Hnone. exact (named_in_none _ _ _ Hnone Hin).
Qed.

(** X14: [upload_to_drive] never stores a second file of a name that the
    folder already has: when the folder has a file of that name the
    Drive is left as it is, whatever the new content, and the result is
    [True] when the listing succeeded; a failed upload leaves the Drive
    as it is; otherwise exactly one file of that name, content and
    folder is added; so a folder whose names are distinct keeps them
    distinct. *)
Theorem upload_to_drive_never_duplicates (file_data filename folder_id : string)
    (w : mail_world) :
  let r := upload_to_drive svc file_data filename folder_id w in
  (filename ∈ names_in folder_id (drive w) ->
   drive r.2 = drive w /\
   r.1 = drive_list_up svc (mail_trace w) filename folder_id) /\
  (r.1 = false -> drive r.2 = drive w) /\
  (drive r.2 = drive w \/
   drive r.2
   = drive w ++ [DriveFile filename (folder_parents folder_id) file_data]) /\
  (folder_id <> "" ->
   (r.1 = true -> filename ∈ names_in folder_id (drive r.2)) /\
   (NoDup (names_in folder_id (drive w)) ->
    NoDup (names_in folder_id (drive r.2)))).
Proof.
  cbv zeta.
  pose proof (upload_to_drive_folder file_data filename folder_id w)
    as (Htrue & Hfalse & Hkeep & Hgrow & Hnodup).
  cbv zeta in *. split; [|split; [exact Hfalse|split]].
  - intros Hin. split; [exact (Hkeep Hin)|].
    apply named_in_elem in Hin. rewrite upload_to_drive_eq. cbv zeta.
    destruct (drive_list_up svc (mail_trace w) filename folder_id);
      [|reflexivity].
    destruct (List.filter (named_in filename folder_id) (drive w));
      [destruct Hin|]; reflexivity.
  - destruct Hgrow as [Hsame | (_ & _ & Hadd)]; [left | right]; assumption.
  - intros Hfolder. split; [intros Hok; exact (Htrue Hok Hfolder)|].
    exact (Hnodup Hfolder).
Qed.

(** X15: the visit of a payload counts every part that has a file name
    and an attachment id once, as uploaded, skipped or failed, and no
    other part; the skipped ones are those whose name does not contain
    the filter, none when the filter is empty, and they are not
    fetched; the Drive only gains files, at most one for each upload
    counted, each named by the sanitized name of an attachment that
    passed the filter. *)
Theorem extract_attachments_counts (message_id : string) (payload : mime_part)
    (folder_id attachment_filter : string) (w : mail_world) :
  let r := extract_attachments_from_email svc message_id payload folder_id
             attachment_filter w in
  stat_total r.1 = length (attachments payload) /\
  stat_skipped r.1
    = length (List.filter (fun n => negb (passes_filter attachment_filter n))
                (attachments payload)) /\
  stat_success r.1 + stat_skipped r.1 + stat_failed r.1 = stat_total r.1 /\
  (attachment_filter = "" -> stat_skipped r.1 = 0) /\
  attachment_calls (mail_trace r.2) + stat_skipped r.1
    = attachment_calls (mail_trace w) + stat_total r.1 /\
  exists created,
    drive r.2 = drive w ++ created /\
    length created <= stat_success r.1 /\
    Forall (harvested_from folder_id attachment_filter (attachments payload))
      created.
Proof.
  cbv zeta.
  pose proof (extract_attachments_harvest message_id folder_id attachment_filter
                payload w)
    as (Ht & Hs & Hsum & Ha & _ & _ & _ & Hcreated).
  cbv zeta in *.
  split; [exact Ht|]. split; [exact Hs|]. split; [exact Hsum|].
  split; [intros ->; rewrite Hs, filter_rejects_none; reflexivity|].
  split; [lia | exact Hcreated].
Qed.

(** X16: the counters of a harvest.  [emails_checked] is the number of
    messages found; the run fails only when messages were found and no
    folder is configured, and then calls nothing; the attachments
    uploaded, skipped and failed add up to the attachments found plus
    the messages whose fetch raised, which are counted as failed
    uploads; and nothing is skipped when the filter is empty. *)
Theorem mail_workflow_counts (config : mail_config) (w : mail_world) :
  let r := process_mail_to_drive_workflow svc config w in
  emails_checked r.1 = length (gmail_search svc) /\
  (success r.1 = false <->
   gmail_search svc <> [] /\ gdrive_folder_id config = "") /\
  (success r.1 = false ->
   r.2 = w /\ attachments_found r.1 = 0 /\ attachments_uploaded r.1 = 0 /\
   attachments_skipped r.1 = 0 /\ upload_failed r.1 = 0) /\
  attachments_uploaded r.1 + attachments_skipped r.1 + upload_failed r.1
    + failed_fetches (mail_trace w)
  = attachments_found r.1 + failed_fetches (mail_trace r.2) /\
  (attachment_filter config = "" -> attachments_skipped r.1 = 0).
Proof.
  cbv zeta.
  pose proof (mail_workflow_run config w) as (Hsum & _ & _ & Hskip & _).
  cbv zeta in *.
  cbn [total_attachments successful_uploads skipped_attachments failed_uploads]
    in *.
  split; [|split; [|split; [|split; [lia | exact Hskip]]]].
  - rewrite mail_workflow_eq.
    destruct (gmail_search svc) as [|email emails]; [reflexivity|].
    destruct (gdrive_folder_id config); reflexivity.
  - rewrite mail_workflow_eq.
    destruct (gmail_search svc) as [|email emails];
      [split; [discriminate | intros [H _]; destruct H; reflexivity]|].
    destruct (gdrive_folder_id config);
      [split; [split; [discriminate | reflexivity] | reflexivity]|].
    split; [discriminate | intros [_ H]; discriminate].
  - rewrite mail_workflow_eq.
    destruct (gmail_search svc) as [|email emails]; [discriminate|].
    destruct (gdrive_folder_id config); [|discriminate].
    intros _. repeat split.
Qed.

(** X17: a harvest only adds files to the Drive, at most one for each
    upload it counts, each placed in the configured folder under the
    sanitized name of an attachment that passed the filter; and it
    keeps the names of the folder distinct when they were. *)
Theorem mail_workflow_drive (config : mail_config) (w : mail_world) :
  let r := process_mail_to_drive_workflow svc config w in
  (exists created,
     drive r.2 = drive w ++ created /\
     length created <= attachments_uploaded r.1 /\
     Forall (harvested (gdrive_folder_id config) (attachment_filter config))
       created) /\
  (NoDup (names_in (gdrive_folder_id config) (drive w)) ->
   NoDup (names_in (gdrive_folder_id config) (drive r.2))).
Proof.
  cbv zeta.
  pose proof (mail_workflow_run config w) as (_ & _ & _ & _ & Hu & Hcreated).
  cbv zeta in *.
  cbn [total_attachments successful_uploads skipped_attachments failed_uploads]
    in *.
  split; [exact Hcreated|].
  destruct (gdrive_folder_id config) as [|c folder] eqn:Efolder;
    [|apply Hu; discriminate].
  rewrite mail_workflow_eq, Efolder.
  destruct (gmail_search svc); intros H; exact H.
Qed.

Section StaticHeaders.

Variable metadata : string -> option (list (string * string)).
Hypothesis static : forall tr message_id,
  gmail_metadata svc tr message_id = metadata message_id.

Lemma process_email_fetched config total email_id w :
  fetched (mail_trace (process_email svc config total email_id w).2)
  = fetched (mail_trace w) ++ (if wanted metadata email_id then [email_id] else []).
Proof.
  rewrite process_email_eq. cbv zeta. unfold wanted. rewrite static.
  destruct (metadata email_id) as [headers|];
    [|cbn [snd mail_trace]; rewrite fetched_app; reflexivity].
  destruct (subject_wanted headers);
    [|cbn [snd mail_trace]; rewrite fetched_app; reflexivity].
  destruct (gmail_message svc _ email_id) as [[payload|]|].
  - match goal with
    |- context [extract_attachments_from_email svc email_id payload ?f ?a ?w2] =>
      pose proof (extract_attachments_harvest email_id f a payload w2)
        as (_ & _ & _ & _ & Hf & _)
    end.
    cbv zeta in Hf. cbn [snd]. rewrite Hf. cbn [mail_trace].
    rewrite !fetched_app. cbn. rewrite app_nil_r. reflexivity.
  - cbn [snd mail_trace]. rewrite !fetched_app. cbn. rewrite app_nil_r.
    reflexivity.
  - cbn [snd mail_trace]. rewrite !fetched_app. cbn. rewrite app_nil_r.
    reflexivity.
Qed.

Lemma process_emails_fetched config emails : forall total w,
  fetched (mail_trace (process_emails svc config total emails w).2)
  = fetched (mail_trace w) ++ List.filter (wanted metadata) emails.
Proof.
  induction emails as [|email emails IH]; intros total w.
  - cbn. rewrite app_nil_r. reflexivity.
  - cbn [process_emails List.filter]. rewrite mail_bind_eq, IH.
    rewrite process_email_fetched, <- app_assoc.
    destruct (wanted metadata email); reflexivity.
Qed.

End StaticHeaders.

Lemma first_header_absent name headers default :
  name ∉ headers.*1 -> first_header name headers default = default.
Proof.
  induction headers as [|[n value] headers IH]; intros Habs; [reflexivity|].
  cbn [first_header]. destruct (String.eqb_spec n name) as [->|Hne].
  - destruct Habs. left.
  - apply IH. intros Hin. apply Habs. right. exact Hin.
Qed.

(** X18: with a folder configured and headers that do not change during
    the run, the harvest fetches in full exactly the messages found
    whose subject, in upper case, contains GRN and not GDN, in the order
    found; the subject is the value of the first header named exactly
    [Subject], so a message without such a header is not fetched. *)
Theorem mail_workflow_fetches_wanted (config : mail_config) (w : mail_world)
    (metadata : string -> option (list (string * string))) :
  (forall tr message_id, gmail_metadata svc tr message_id = metadata message_id) ->
  gdrive_folder_id config <> "" ->
  fetched (mail_trace (process_mail_to_drive_workflow svc config w).2)
  = fetched (mail_trace w) ++ List.filter (wanted metadata) (gmail_search svc) /\
  (forall message_id headers,
     metadata message_id = Some headers -> "Subject" ∉ headers.*1 ->
     wanted metadata message_id = false).
Proof.
  intros Hstatic Hfolder. split.
  - rewrite mail_workflow_eq.
    destruct (gmail_search svc) as [|email emails] eqn:Esearch;
      [cbn; rewrite app_nil_r; reflexivity|].
    destruct (gdrive_folder_id config); [destruct Hfolder; reflexivity|].
    cbv zeta. cbn [snd]. apply process_emails_fetched, Hstatic.
  - intros message_id headers Hmeta Habs. unfold wanted, subject_wanted.
    rewrite Hmeta, (first_header_absent _ _ _ Habs). reflexivity.
Qed.

End HarvesterFacts.

(** ** The subject test *)

Module CaseFacts.
Import PyText.

Lemma upper_char_cases c :
  (exists x, upper_char c = [x]) \/ (exists x y, upper_char c = [x; y]).
Proof.
  unfold upper_char.
  repeat match goal with |- context [if ?b then _ else _] => destruct b end;
    eauto.
Qed.

Lemma codes_start_with_lower us ls :
  letters us ls ->
  forall s, codes_start_with us (upper s) = starts_with ls (lower s).
Proof.
  revert ls; induction us as [|u us IH]; intros [|l ls] Hl;
    try solve [destruct Hl].
  - intros s. destruct (upper s), (lower s); reflexivity.
  - destruct Hl as [Hu Hl]. intros [|c s]; [reflexivity|].
    cbn [upper lower PyStr.map starts_with].
    pose proof (Hu c) as Hc.
    destruct (upper_char_cases c) as [[x Hx] | (x & y & Hx)]; rewrite Hx in *.
    + cbn [app codes_start_with]. rewrite (N.eqb_sym u x), Hc.
      rewrite (IH ls Hl s), (Ascii.eqb_sym l). reflexivity.
    + cbn [app codes_start_with]. destruct Hc as [Hall Hlow].
      cbn [forallb] in Hall. apply andb_true_iff in Hall as [Hx1 _].
      apply negb_true_iff in Hx1. rewrite (N.eqb_sym u x), Hx1.
      rewrite (Ascii.eqb_sym l), Hlow. reflexivity.
Qed.

Lemma codes_contain_lower u us l ls :
  letters (u :: us) (String l ls) ->
  forall s, codes_contain (u :: us) (upper s)
            = contains (String l ls) (lower s).
Proof.
  intros Hl. pose proof (codes_start_with_lower _ _ Hl) as Hstart.
  destruct Hl as [Hu Hl].
  induction s as [|c s IH]; [reflexivity|].
  specialize (Hstart (String c s)).
  change (lower (String c s)) with (String (lower_char c) (lower s)) in *.
  cbn [upper] in *.
  cbn [contains]. rewrite <- IH, <- Hstart.
  pose proof (Hu c) as Hc.
  destruct (upper_char_cases c) as [[x Hx] | (x & y & Hx)]; rewrite Hx in *.
  - reflexivity.
  - cbn [app]. cbn [app] in Hstart.
    destruct Hc as [Hall _]. cbn [forallb] in Hall.
    apply andb_true_iff in Hall as [Hx1 Hy1].
    apply andb_true_iff in Hy1 as [Hy1 _].
    apply negb_true_iff in Hx1, Hy1.
    change (codes_contain (u :: us) (x :: y :: upper s))
      with (codes_start_with (u :: us) (x :: y :: upper s)
            || (codes_start_with (u :: us) (y :: upper s)
                || codes_contain (u :: us) (upper s))).
    cbn [codes_start_with]. rewrite (N.eqb_sym u x), (N.eqb_sym u y), Hx1, Hy1.
    reflexivity.
Qed.

Lemma letter_check u l :
  (forall c,
     match upper_char c with
     | [x] => Bool.eqb (x =? u)%N (Ascii.eqb (lower_char c) l)
     | xs => forallb (fun x => negb (x =? u)%N) xs
             && negb (Ascii.eqb (lower_char c) l)
     end = true) ->
  letter u l.
Proof.
  intros H c. specialize (H c).
  destruct (upper_char c) as [|x [|y xs]].
  - apply andb_true_iff in H as [H1 H2]. apply negb_true_iff in H2. auto.
  - apply Bool.eqb_prop in H. exact H.
  - apply andb_true_iff in H as [H1 H2]. apply negb_true_iff in H2. auto.
Qed.

Ltac check_letter :=
  apply letter_check;
  intros [[] [] [] [] [] [] [] []]; vm_compute; reflexivity.

Lemma letter_g : letter 71 "g". Proof. check_letter. Qed.
Lemma letter_r : letter 82 "r". Proof. check_letter. Qed.
Lemma letter_n : letter 78 "n". Proof. check_letter. Qed.
Lemma letter_d : letter 68 "d". Proof. check_letter. Qed.

End CaseFacts.

(** X22: the subject test ignores the case of the letters: a subject
    passes just when its text in lower case contains grn and does not
    contain gdn. *)
Theorem subject_test_ignores_case (headers : list (string * string)) :
  let subject := first_header "Subject" headers "(No Subject)" in
  subject_wanted headers
  = negb (PyText.contains "gdn" (PyText.lower subject))
    && PyText.contains "grn" (PyText.lower subject).
Proof.
  cbv zeta. unfold subject_wanted.
  change (PyText.codes "GDN") with [71%N; 68%N; 78%N].
  change (PyText.codes "GRN") with [71%N; 82%N; 78%N].
  rewrite (CaseFacts.codes_contain_lower 71 [68%N; 78%N] "g" "dn"),
          (CaseFacts.codes_contain_lower 71 [82%N; 78%N] "g" "rn").
  - reflexivity.
  - repeat split; auto using CaseFacts.letter_g, CaseFacts.letter_r,
      CaseFacts.letter_n.
  - repeat split; auto using CaseFacts.letter_g, CaseFacts.letter_d,
      CaseFacts.letter_n.
Qed.

(** ** The workflow log *)

Section LogFacts.

Variable svc : services.
Variable format_time : Z -> string.
Variable format_seconds : Z -> string.
Variable cell_text : stat_value -> string.

(** X19: the rows logged for the two workflows.  The dictionary of the
    harvest has none of the keys that the log reads for its counters,
    so the row of a harvest shows zero under Processed, Total Items,
    Failed and Skipped whatever the harvest did, and Success or Failed
    by its flag; the row of an ingestion shows its four counters, and
    Success only when at least one file was processed. *)
Theorem workflow_log_rows (workflow_name : string) (start_time end_time : Z)
    (result : mail_result) (sheet_stats : run_stats) :
  log_row format_time format_seconds workflow_name start_time end_time
    (mail_stats result)
  = [ CellText (format_time start_time); CellText (format_time end_time);
      CellText (duration_str format_seconds (end_time - start_time));
      CellText workflow_name;
      CellValue (StatInt 0); CellValue (StatInt 0); CellValue (StatInt 0);
      CellValue (StatInt 0);
      CellText (if success result then "Success" else "Failed") ] /\
  log_row format_time format_seconds workflow_name start_time end_time
    (sheet_stats_for_log sheet_stats)
  = [ CellText (format_time start_time); CellText (format_time end_time);
      CellText (duration_str format_seconds (end_time - start_time));
      CellText workflow_name;
      CellValue (StatInt (Z.of_nat (files_processed sheet_stats)));
      CellValue (StatInt (Z.of_nat (rows_added sheet_stats)));
      CellValue (StatInt (Z.of_nat (files_failed sheet_stats)));
      CellValue (StatInt (Z.of_nat (files_skipped sheet_stats)));
      CellText (if (0 <? files_processed sheet_stats)%nat
                then "Success" else "Failed") ].
Proof.
  split.
  - unfold log_row, mail_stats, stats_get.
    repeat (rewrite lookup_insert_ne by (intros [=]) || rewrite lookup_insert
            || rewrite lookup_singleton_ne by (intros [=])
            || rewrite lookup_empty).
    reflexivity.
  - unfold log_row, sheet_stats_for_log, stats_get.
    repeat (rewrite lookup_insert_ne by (intros [=]) || rewrite lookup_insert
            || rewrite lookup_singleton_ne by (intros [=])
            || rewrite lookup_singleton
            || rewrite lookup_empty).
    reflexivity.
Qed.

Lemma append_to_google_sheet_sheet values w :
  sheet (append_to_google_sheet svc values w).2
  = sheet w ++ (if (append_to_google_sheet svc values w).1 then values else []).
Proof.
  unfold append_to_google_sheet.
  destruct (append_attempts_keeps svc 3 values w) as [_ H].
  destruct (append_attempts svc 3 values w).1;
    rewrite H; [reflexivity | rewrite app_nil_r; reflexivity].
Qed.

Lemma append_to_google_sheet_up values w :
  (forall tr, sheets_up svc tr = true) ->
  (append_to_google_sheet svc values w).1 = true.
Proof.
  intros Hup. unfold append_to_google_sheet. cbn [append_attempts]. run_monad.
  rewrite Hup. reflexivity.
Qed.

(** X20: [log_workflow_to_sheet] only adds rows at the end of the log:
    the row of the run, preceded by the header row when the header
    read came back empty, each only if its append succeeded.  When the
    service answers, an empty log gets the header row and the row of
    the run, and a log with a first row gets the row of the run alone. *)
Theorem log_workflow_to_sheet_appends (workflow_name : string)
    (start_time end_time : Z) (stats : gmap string stat_value) (w : world) :
  let row := List.map (written cell_text)
               (log_row format_time format_seconds workflow_name start_time
                  end_time stats) in
  let w' := (log_workflow_to_sheet svc format_time format_seconds cell_text
               workflow_name start_time end_time stats w).2 in
  let read := (get_sheet_headers svc w).1 in
  (exists appended,
     sheet w' = sheet w ++ appended /\
     (appended = [] \/ appended = [row] \/
      (read = [] /\ (appended = [header_row] \/ appended = [header_row; row])))) /\
  ((forall tr, sheets_up svc tr = true) ->
   sheet w' = sheet w ++ match hd [] (sheet w) with
                         | [] => [header_row; row]
                         | _ => [row]
                         end).
Proof.
  cbv zeta. unfold log_workflow_to_sheet. rewrite bind_eq.
  set (row := List.map (written cell_text) _).
  rewrite get_sheet_headers_eq. cbn [fst snd].
  set (w1 := after w [EvSheetsGet (sheets_up svc (trace w))]).
  assert (Hw1 : sheet w1 = sheet w) by reflexivity.
  split.
  - destruct (if sheets_up svc (trace w) then header_window (hd [] (sheet w))
              else [])
      as [|h hs] eqn:Eread.
    + rewrite bind_eq.
      pose proof (append_to_google_sheet_sheet [header_row] w1) as H1.
      destruct (append_to_google_sheet svc [header_row] w1) as [ok1 w2].
      cbn [fst snd] in *. rewrite bind_eq.
      pose proof (append_to_google_sheet_sheet [row] w2) as H2.
      destruct (append_to_google_sheet svc [row] w2) as [ok2 w3].
      cbn [fst snd] in *. unfold mret, M_ret. cbn [snd].
      rewrite H2, H1, Hw1, <- app_assoc.
      eexists; split; [reflexivity|].
      destruct ok1, ok2; cbn; auto.
    + rewrite !bind_eq. unfold mret, M_ret. cbn [fst snd].
      pose proof (append_to_google_sheet_sheet [row] w1) as H2.
      destruct (append_to_google_sheet svc [row] w1) as [ok2 w3].
      cbn [fst snd] in *. unfold mret, M_ret. cbn [snd].
      rewrite H2, Hw1.
      eexists; split; [reflexivity|].
      destruct ok2; auto.
  - intros Hup. rewrite (Hup (trace w)).
    destruct (hd [] (sheet w)) as [|h hs]; unfold header_window; cbn [take].
    + rewrite !bind_eq. unfold mret, M_ret. cbn [fst snd].
      rewrite !append_to_google_sheet_sheet, !append_to_google_sheet_up by exact Hup.
      rewrite Hw1, <- app_assoc. reflexivity.
    + rewrite !bind_eq. unfold mret, M_ret. cbn [fst snd].
      rewrite !append_to_google_sheet_sheet, !append_to_google_sheet_up by exact Hup.
      rewrite Hw1. reflexivity.
Qed.

End LogFacts.

(** ** The properties on concrete inputs *)

(** C1 (as stated) fails: with a cap of one file and two candidates, the
    first run ingests [a.pdf] without a failure, and the second run, on
    the store as the first left it and with the same candidates, adds a
    row for [b.pdf]. *)
Lemma second_run_counterexample :
  let run := process_drive_to_sheet_workflow no_repr two_files capped_at_one in
  let first := run empty_world in
  let second := run first.2 in
  files_failed first.1 = 0 /\
  rows_added second.1 = 1 /\
  length (sheet second.2) = S (length (sheet first.2)).
Proof. vm_compute. repeat split. Qed.

(** The amended C1 on the store that already names [invoice_12.pdf],
    and on two files without a cap. *)
Lemma ingestion_idempotent_witness :
  extract_calls_named "invoice_12.pdf"
    (trace (process_drive_to_sheet_workflow no_repr invoice_services uncapped
              invoice_world).2)
  = 0 /\
  let run := process_drive_to_sheet_workflow no_repr two_files uncapped in
  let second := run (run empty_world).2 in
  sheet second.2 = sheet (run empty_world).2 /\
  rows_added second.1 = 0 /\
  files_processed second.1 = 0 /\
  files_failed second.1 = 0 /\
  files_skipped second.1 = files_found second.1 /\
  extract_calls (trace second.2) = extract_calls (trace (run empty_world).2).
Proof.
  split.
  - apply (proj1 (ingestion_idempotent no_repr invoice_services uncapped
                    invoice_world eq_refl) "invoice_12.pdf").
    + reflexivity.
    + change (existing_of_sheet (sheet invoice_world))
        with (existing_names_of 0 [["invoice_12.pdf"]]).
      apply existing_names_elem. split; [discriminate|].
      exists ["invoice_12.pdf"]. split; [left | reflexivity].
  - apply (proj2 (ingestion_idempotent no_repr two_files uncapped empty_world
                    eq_refl)).
    + intros tr; reflexivity.
    + right. apply Nat.leb_le. reflexivity.
    + repeat first [discriminate | constructor].
    + reflexivity.
    + reflexivity.
Defined.

(** Without the condition on the header update the second run ingests
    again: the header of three columns of its own, widened by the 24
    expected ones, passes the column Z, the update is refused, the
    header row stays without a [source_file] column, and the second
    run, finding no name in the store, adds the two rows once more. *)
Lemma refused_update_second_run :
  let run := process_drive_to_sheet_workflow no_repr two_files uncapped in
  let first := run three_custom_columns in
  let second := run first.2 in
  files_failed first.1 = 0 /\
  files_found first.1 = files_processed first.1 + files_skipped first.1 /\
  hd [] (sheet first.2) = ["c1"; "c2"; "c3"] /\
  rows_added second.1 = 2.
Proof. vm_compute. repeat split. Qed.

(** C2 (as stated) fails: a record whose item list holds no dict yields
    no row. *)
Lemma at_least_one_row_counterexample :
  process_extracted_data no_repr fixed_clock (PDict non_dict_items) file_a 0
  = Some [].
Proof. reflexivity. Qed.

(** C3 (as stated) fails: [processed_date] is a document-level column,
    and the clock is read for each row, so the two rows differ in it
    when the second read falls in the next second. *)
Lemma doc_b_processed_date_counterexample :
  "processed_date" ∈ document_columns /\
  exists row1 row2,
    process_extracted_data no_repr ticking_clock doc_b file_a 0
    = Some [row1; row2] /\
    row_get row1 "processed_date" "" = "2024-01-01 00:00:00" /\
    row_get row2 "processed_date" "" = "2024-01-01 00:00:01".
Proof.
  split; [apply (bool_decide_unpack _); vm_compute; exact I|].
  eexists _, _. repeat split.
Qed.

(** The amended C3 under a clock that gives the same text at both
    reads. *)
Lemma doc_b_two_rows_witness :
  exists row1 row2,
    process_extracted_data no_repr fixed_clock doc_b file_a 0
    = Some [row1; row2] /\
    Forall (fun column => row_get row1 column "" = row_get row2 column "")
           document_columns.
Proof.
  destruct (doc_b_two_rows no_repr fixed_clock file_a 0)
    as (row1 & row2 & Hrows & _ & _ & _ & _ & _ & Hsame).
  exists row1, row2. split; [exact Hrows|]. apply Hsame. reflexivity.
Defined.

(** C5 (as stated) fails: an item with a key spelled [tax amount] gets
    that value in the legacy column and the value of [tax_amount] in the
    canonical one. *)
Lemma legacy_columns_counterexample :
  exists row,
    process_extracted_data no_repr fixed_clock (PDict own_tax_key) file_a 0
    = Some [row] /\
    row_get row "tax amount" "" = "7" /\
    row_get row "tax_amount" "" = "9".
Proof. eexists; repeat split. Qed.

(** The chain of a legacy column also lacks aliases of its canonical
    column: on the payload with the two line items, the first row has
    [ord_qty] 5 and [ord.qty] empty. *)
Lemma legacy_columns_alias_gap :
  exists row1 row2,
    process_extracted_data no_repr fixed_clock doc_b file_a 0
    = Some [row1; row2] /\
    row_get row1 "ord_qty" "" = "5" /\
    row_get row1 "ord.qty" "" = "".
Proof. eexists _, _; repeat split. Qed.

(** The amended C5 on a record whose item uses none of the divergent
    keys, and on the item with a key spelled [tax amount]. *)
Lemma legacy_columns_mirrored_witness :
  mirrored (item_row no_repr (make_doc_data plain_record) plain_item file_a
              (fixed_clock 0)) /\
  exists row,
    process_extracted_data no_repr fixed_clock (PDict own_tax_key) file_a 0
    = Some [row] /\
    row_get row "grndate" "" = row_get row "grn_date" "".
Proof.
  split.
  - apply (proj2 (legacy_columns_mirrored no_repr fixed_clock plain_record
                    file_a 0 _ eq_refl)).
    + reflexivity.
    + intros item Hin. apply list_elem_of_singleton in Hin.
      injection Hin as ->. reflexivity.
    + left.
  - eexists. split; [reflexivity|].
    apply (proj1 (legacy_columns_mirrored no_repr fixed_clock own_tax_key
                    file_a 0 _ eq_refl)).
    left.
Defined.

(** C10 (as stated) fails: [products] holds the empty list, yet the two
    items found under [items], which is scanned first, give two rows. *)
Lemma empty_item_list_counterexample :
  items_and_empty_products !! "products" = Some (PList []) /\
  exists row1 row2,
    process_extracted_data no_repr fixed_clock (PDict items_and_empty_products)
      file_a 0
    = Some [row1; row2].
Proof. split; [reflexivity | eexists _, _; reflexivity]. Qed.

(** The amended C10 on a record whose [items] is not a list and whose
    [products] is the empty list. *)
Lemma empty_item_list_single_row_witness :
  process_extracted_data no_repr fixed_clock (PDict empty_products) file_a 0
  = Some [create_base_row no_repr empty_products file_a (fixed_clock 0)].
Proof.
  apply (empty_item_list_single_row no_repr fixed_clock empty_products file_a 0
           ["items"; "product_items"; "line_items"] ["grn_items"; "line_items"]
           "products");
    reflexivity.
Defined.

(** C6 (as stated) fails: when the read of the header fails,
    [get_sheet_headers] returns the empty list, the header is taken for
    absent and the expected columns are written over the header row of
    the store.  The column [custom] disappears, and [source_file] moves
    from the first place to the fifth. *)
Lemma reconcile_headers_counterexample :
  let w' := (reconcile_headers first_call_fails custom_world).2 in
  hd [] (sheet custom_world) = ["source_file"; "custom"] /\
  hd [] (sheet w') = expected_columns /\
  ("custom" ∉ hd [] (sheet w')) /\
  index_of "source_file" (hd [] (sheet custom_world)) = Some 0 /\
  index_of "source_file" (hd [] (sheet w')) = Some 4.
Proof.
  cbv zeta. split; [reflexivity|]. split; [reflexivity|].
  split; [|split; reflexivity].
  apply (bool_decide_unpack _). vm_compute. exact I.
Qed.

(** The amended C6 on a store whose header has one expected column and
    one of its own, on the store the reconciliation leaves, and on a
    store whose header is complete. *)
Lemma reconcile_headers_widens_witness :
  let r := reconcile_headers two_files custom_world in
  (forall i col,
     hd [] (sheet custom_world) !! i = Some col ->
     hd [] (sheet r.2) !! i = Some col) /\
  reconcile_headers two_files r.2 = (r.1, after r.2 [EvSheetsGet true]) /\
  sheet (reconcile_headers two_files complete_world).2 = sheet complete_world.
Proof.
  pose proof (reconcile_headers_widens two_files custom_world) as H.
  pose proof (reconcile_headers_widens two_files complete_world) as Hc.
  cbv zeta in H, Hc. split; [|split].
  - apply (proj1 (proj2 (proj2 (proj1 (proj2 (proj2 H)) eq_refl)))).
  - apply (proj2 (proj2 (proj2 H)));
      [reflexivity | reflexivity | apply Nat.leb_le; reflexivity].
  - apply (proj1 (proj2 Hc)). intros col Hcol. exact Hcol.
Defined.

(** C7 on a stub that fails twice and on one that always fails. *)
Lemma retry_wrapped_extractor_witness :
  (exists w',
     safe_extract flaky_agent file_a 3 2 empty_world = (Some (PDict ∅), w') /\
     extract_calls (trace w') = extract_calls (trace empty_world) + 3) /\
  let r := process_files no_repr dead_agent expected_columns stats0
             [file_a; file_b] empty_world in
  (exists w',
     r = process_files no_repr dead_agent expected_columns (Stats 0 0 1 0 0)
           [file_b] w' /\
     sheet w' = sheet empty_world /\
     extract_calls (trace w') = extract_calls (trace empty_world) + 3) /\
  files_processed r.1 + files_failed r.1 = 2 /\
  1 <= files_failed r.1.
Proof.
  split.
  - apply (proj1 (retry_wrapped_extractor no_repr flaky_agent file_a empty_world)).
    reflexivity.
  - apply (proj2 (proj2 (retry_wrapped_extractor no_repr dead_agent file_a
                           empty_world)
                    (fun _ => eq_refl))
             ltac:(discriminate) expected_columns stats0 [file_b]).
Defined.



(** C9 (as stated) fails: the hash sign is not in the class, so
    GRN#2024/01.pdf does not become GRN_2024_01.pdf; and a name whose
    extension is long is not brought down to 100 characters. *)
Lemma sanitize_filename_counterexample :
  Filename.sanitize_filename "GRN#2024/01.pdf" <> "GRN_2024_01.pdf" /\
  100 < String.length (Filename.sanitize_filename long_extension_name).
Proof. split; [discriminate | apply Nat.ltb_lt; reflexivity]. Qed.

(** The amended C9 at GRN#2024/01.pdf and at long names with and without
    an extension. *)
Lemma sanitize_filename_spec_witness :
  Filename.sanitize_filename "GRN#2024/01.pdf"
    = PyStr.map Filename.replace_unsafe "GRN#2024/01.pdf" /\
  PyStr.mem "/" (Filename.sanitize_filename "GRN#2024/01.pdf") = false /\
  String.length (Filename.sanitize_filename long_base_name) <= 100 /\
  Filename.sanitize_filename long_plain_name
    = PyStr.take 100 (PyStr.map Filename.replace_unsafe long_plain_name).
Proof.
  split; [|split; [|split]].
  - apply (proj1 (proj2 (proj2
             (FilenameFacts.sanitize_filename_spec "GRN#2024/01.pdf")))).
    simpl; lia.
  - apply (proj1 (proj2
             (FilenameFacts.sanitize_filename_spec "GRN#2024/01.pdf"))).
    reflexivity.
  - apply (proj1 (proj2 (proj2 (proj2 (proj2
             (FilenameFacts.sanitize_filename_spec long_base_name)))))
             (String.string_of_list_ascii (List.repeat "a"%char 120)) "pdf");
      [apply Nat.ltb_lt; reflexivity | reflexivity | reflexivity | simpl; lia].
  - apply (proj1 (proj2 (proj2 (proj2
             (FilenameFacts.sanitize_filename_spec long_plain_name)))));
      [apply Nat.ltb_lt; reflexivity | reflexivity].
Defined.

(** ** The further properties on concrete inputs *)

(** X2 at a short name and at a name whose extension has 100
    characters. *)
Lemma sanitize_filename_length_witness :
  String.length (Filename.sanitize_filename "a/b.pdf") = String.length "a/b.pdf" /\
  exists base ext,
    PyStr.map Filename.replace_unsafe long_extension_name
    = base +:+ String "." ext /\
    PyStr.mem "." ext = false /\ 4 < String.length ext.
Proof.
  split.
  - apply (proj1 (proj2 (FilenameMore.sanitize_filename_length "a/b.pdf"))).
    apply Nat.leb_le; reflexivity.
  - apply (proj2 (proj2 (FilenameMore.sanitize_filename_length
                           long_extension_name))).
    apply Nat.ltb_lt; reflexivity.
Defined.

(** X3 at a name without a dot and at a name with two dots and an
    extension in capitals. *)
Lemma classify_extension_spec_witness :
  Filetype.classify_extension "README" = "Other" /\
  Filetype.classify_extension "Report.Final.PDF"
  = row_get Filetype.type_map (PyText.lower "PDF") "Other".
Proof.
  split.
  - apply (proj1 (proj2 (FiletypeFacts.classify_extension_spec "README"))).
    reflexivity.
  - apply (proj2 (proj2 (FiletypeFacts.classify_extension_spec
                           "Report.Final.PDF")) "Report.Final" "PDF");
      reflexivity.
Defined.

(** X4 on the payload with two line items. *)
Lemma emitted_rows_have_expected_columns_witness :
  exists rows,
    all_rows_of no_repr fixed_clock doc_b file_a 0 = Some rows /\
    Forall (fun row => row.*1 = row_keys) rows.
Proof.
  eexists. split; [reflexivity|].
  apply (proj1 (emitted_rows_have_expected_columns no_repr fixed_clock doc_b
                  file_a 0 _ eq_refl)).
Defined.

(** X5 on the payload with two line items, under the expected header,
    whose fifth column is [source_file]. *)
Lemma store_row_identifies_file_witness :
  exists rows,
    all_rows_of no_repr fixed_clock doc_b file_a 0 = Some rows /\
    forall row,
      row ∈ rows ->
      sheet_row expected_columns row !! 4 = Some (PyStr.strip "a.pdf").
Proof.
  eexists. split; [reflexivity|].
  intros row Hin.
  apply (proj1 (store_row_identifies_file no_repr fixed_clock doc_b file_a 0 _
                  expected_columns eq_refl row 4 Hin)).
  reflexivity.
Defined.

(** X6 on a list payload that holds no dict. *)
Lemma list_payload_rows_witness :
  exists rows,
    all_rows_of no_repr fixed_clock (PList [PInt 1; PStr "page"]) file_a 0
    = Some rows /\
    rows = [].
Proof.
  destruct (list_payload_rows no_repr fixed_clock [PInt 1; PStr "page"] []
              file_a 0)
    as (rows1 & rows2 & Hrows1 & _ & _ & Hnone).
  exists rows1. split; [exact Hrows1|].
  apply Hnone. repeat constructor.
Defined.

(** X7 on a record whose [supplier] is [None]: the vendor name is not
    looked at. *)
Lemma none_value_shadows_aliases_witness :
  row_get (item_row no_repr (make_doc_data none_supplier) ∅ file_a
             (fixed_clock 0)) "supplier" ""
  = "".
Proof.
  apply (none_value_shadows_aliases no_repr none_supplier ∅ file_a
           (fixed_clock 0) "supplier" DocLevel [] ["vendor_name"; "vendor"]
           "supplier").
  - right; left.
  - constructor.
  - reflexivity.
Defined.

(** X10 with five attempts on a stub that fails twice. *)
Lemma safe_extract_stops_at_first_success_witness :
  safe_extract flaky_agent file_a 5 2 empty_world
  = (Some (PDict ∅),
     after empty_world (failed_attempts file_a 2 2 ++ [EvExtract file_a true])) /\
  extract_calls (trace (safe_extract flaky_agent file_a 5 2 empty_world).2)
  = extract_calls (trace empty_world) + 2 + 1.
Proof.
  apply (proj2 (safe_extract_stops_at_first_success flaky_agent (PDict ∅)
                  file_a 5 2 2 empty_world)).
  - lia.
  - reflexivity.
Defined.

(** X11 on two files without a cap. *)
Lemma workflow_accounting_witness :
  let r := process_drive_to_sheet_workflow no_repr two_files uncapped
             empty_world in
  files_processed r.1 + files_failed r.1 + files_skipped r.1 = files_found r.1.
Proof.
  pose proof (workflow_accounting no_repr two_files uncapped empty_world) as H.
  cbv zeta in H |- *.
  apply (proj1 (proj2 (proj2 (proj2 H eq_refl)))). reflexivity.
Defined.

(** X12 on the store that already names [invoice_12.pdf]. *)
Lemma workflow_downloads_candidates_witness :
  downloads (trace (process_drive_to_sheet_workflow no_repr invoice_services
                      uncapped invoice_world).2)
  = downloads (trace invoice_world)
    ++ to_process invoice_services uncapped
         (get_existing_source_files invoice_services invoice_world).1.
Proof.
  apply (proj1 (workflow_downloads_candidates no_repr invoice_services uncapped
                  invoice_world eq_refl eq_refl)).
Defined.

(** X13 on a store that names [a.pdf] and whose read fails: [a.pdf] is
    downloaded again. *)
Lemma failed_read_disables_filter_witness :
  let r := process_drive_to_sheet_workflow no_repr first_call_fails uncapped
             ingested_world in
  files_skipped r.1 = 0 /\
  downloads (trace r.2)
  = downloads (trace ingested_world)
    ++ capped uncapped (drive_files first_call_fails).
Proof.
  apply (failed_read_disables_filter no_repr first_call_fails uncapped
           ingested_world);
    reflexivity.
Defined.

(** X14 on a folder that has a file called [grn.pdf]: new content under
    that name is reported as uploaded and not stored. *)
Lemma upload_to_drive_never_duplicates_witness :
  let r := upload_to_drive example_mail "new" "grn.pdf" "folder" drive_with_grn in
  drive r.2 = drive drive_with_grn /\
  r.1 = drive_list_up example_mail (mail_trace drive_with_grn) "grn.pdf" "folder".
Proof.
  apply (proj1 (upload_to_drive_never_duplicates example_mail "new" "grn.pdf"
                  "folder" drive_with_grn)).
  left.
Defined.

(** X15 on a message with two attachments and no filter. *)
Lemma extract_attachments_counts_witness :
  stat_skipped (extract_attachments_from_email example_mail "m1" example_payload
                  "folder" "" empty_drive).1
  = 0.
Proof.
  apply (proj1 (proj2 (proj2 (proj2
           (extract_attachments_counts example_mail "m1" example_payload
              "folder" "" empty_drive))))).
  reflexivity.
Defined.

(** X16 without a folder: the run fails and calls nothing. *)
Lemma mail_workflow_counts_witness :
  let r := process_mail_to_drive_workflow example_mail no_folder_config
             empty_drive in
  success r.1 = false /\ r.2 = empty_drive.
Proof.
  pose proof (mail_workflow_counts example_mail no_folder_config empty_drive)
    as H.
  cbv zeta in H |- *.
  assert (Hfailed : success (process_mail_to_drive_workflow example_mail
                               no_folder_config empty_drive).1 = false).
  { apply (proj2 (proj1 (proj2 H))). split; [discriminate | reflexivity]. }
  split; [exact Hfailed|].
  apply (proj1 (proj2 (proj2 H)) Hfailed).
Defined.

(** X17 on an empty Drive. *)
Lemma mail_workflow_drive_witness :
  NoDup (names_in "folder"
           (drive (process_mail_to_drive_workflow example_mail folder_config
                     empty_drive).2)).
Proof.
  apply (proj2 (mail_workflow_drive example_mail folder_config empty_drive)).
  constructor.
Defined.

(** X18 on the three messages: only the forwarded GRN is fetched. *)
Lemma mail_workflow_fetches_wanted_witness :
  fetched (mail_trace (process_mail_to_drive_workflow example_mail folder_config
                         empty_drive).2)
  = fetched (mail_trace empty_drive)
    ++ List.filter (wanted example_metadata) (gmail_search example_mail).
Proof.
  apply (proj1 (mail_workflow_fetches_wanted example_mail folder_config
                  empty_drive example_metadata
                  (fun _ _ => eq_refl) ltac:(discriminate))).
Defined.

(** X20 on an empty log. *)
Lemma log_workflow_to_sheet_appends_witness :
  sheet (log_workflow_to_sheet two_files example_time example_seconds
           example_cell_text "Drive to Sheet" 0 500000
           (sheet_stats_for_log stats0) empty_world).2
  = sheet empty_world
    ++ match hd [] (sheet empty_world) with
       | [] =>
           [ header_row;
             List.map (written example_cell_text)
               (log_row example_time example_seconds "Drive to Sheet" 0 500000
                  (sheet_stats_for_log stats0)) ]
       | _ =>
           [ List.map (written example_cell_text)
               (log_row example_time example_seconds "Drive to Sheet" 0 500000
                  (sheet_stats_for_log stats0)) ]
       end.
Proof.
  apply (proj2 (log_workflow_to_sheet_appends two_files example_time
                  example_seconds example_cell_text "Drive to Sheet" 0 500000
                  (sheet_stats_for_log stats0) empty_world)).
  intros tr. reflexivity.
Defined.
